(** * DNS tooling of the FOGG calendar dashboard: a shallow embedding

    The development follows the JavaScript sources file by file:
    - [JS]: the fragment of the JavaScript runtime the sources rely on
      (completions of calls, [Math.round], number division, truthiness,
      [Array.prototype.slice] and [sort]);
    - [Monitor]: [dns-monitor.js] (class [DNSMonitor]);
    - [Verifier]: [dns-verifier.js] (class [DNSVerifier]);
    - [Optimizer]: [performance-optimizer.js] (CDN endpoint selection);
    - [Providers]: the DNS providers of [dns-management-system.js] and
      [dns-providers/cloudflare-provider.js];
    - [Manager]: [dns-management-system.js] (classes [DNSManager] and
      [DNSMonitoring]).

    Everything the code obtains from the outside world (DNS answers, HTTP
    responses, the file system, the clock) is an explicit argument of the
    embedded function.  Numbers that JavaScript holds as doubles are
    rationals here; every operation performed on them in the modelled code
    is exact on the values that occur (small integers, halves and
    quarters, time differences). *)

From Stdlib Require Import List Sorted ZArith QArith Qround Bool Lia Lqa.
From stdpp Require Import gmap strings pretty.
Import ListNotations.

Local Open Scope string_scope.
Local Open Scope list_scope.
Local Open Scope Z_scope.

(* ===================================================================== *)
(** * The JavaScript runtime fragment *)
(* ===================================================================== *)

Module JS.

(** The completion of a call: a value, or a thrown [Error] object (for
    an async function: a promise rejected with one), of which
    [error.message] is kept.  This is what the code of this repository
    and the libraries it calls throw; a throw of [null] or [undefined],
    on which reading [.message] would itself fail, is not among the
    completions. *)
Inductive Completion (A : Type) : Type :=
| Normal (value : A)
| Throw (message : string).
Arguments Normal {A} value.
Arguments Throw {A} message.

Definition bind {A B} (c : Completion A) (k : A -> Completion B)
  : Completion B :=
  match c with
  | Normal a => k a
  | Throw msg => Throw msg
  end.

(** [Math.round x]: the integer nearest to [x], halves rounded up. *)
Definition Math_round (x : Q) : Z := Qfloor (x + (1 # 2)).

(** [Math.ceil x] *)
Definition Math_ceil (x : Q) : Z := Qceiling x.

(** The result of dividing two numbers: a finite quotient, an infinity
    when only the divisor is zero, [NaN] for [0 / 0]. *)
Inductive Number : Type :=
| Finite (q : Q)
| PosInfinity
| NegInfinity
| NaN.

Definition div (a b : Z) : Number :=
  if b =? 0 then
    if a =? 0 then NaN
    else if 0 <? a then PosInfinity else NegInfinity
  else Finite (inject_Z a / inject_Z b).

(** [x >= q]; every comparison with [NaN] is false. *)
Definition ge (x : Number) (q : Q) : bool :=
  match x with
  | Finite p => Qle_bool q p
  | PosInfinity => true
  | NegInfinity => false
  | NaN => false
  end.

(** Truthiness of a string: every string but the empty one. *)
Definition truthy_string (s : string) : bool :=
  match s with
  | EmptyString => false
  | String _ _ => true
  end.

(** [array.slice(-n)]: the last [n] elements (all of them when the array
    is shorter). *)
Definition slice_last {A} (n : nat) (l : list A) : list A :=
  drop (length l - n)%nat l.

(** [array.includes(x)] on an array of strings. *)
Definition includes (l : list string) (x : string) : bool :=
  existsb (String.eqb x) l.

(** [Array.prototype.sort(cmp)] as the runtime performs it on arrays of
    fewer than 32 elements: insertion sort.  Each element [x] in turn is
    placed into the already ordered prefix, before the first element [y]
    with [cmp(x, y) < 0] (the runtime finds that position by binary
    search, which gives the same place in an ordered prefix). *)
Definition negative (q : Q) : bool := negb (Qle_bool 0 q).

Fixpoint insert {A} (cmp : A -> A -> Q) (x : A) (sorted : list A)
  : list A :=
  match sorted with
  | [] => [x]
  | y :: rest =>
      if negative (cmp x y) then x :: y :: rest
      else y :: insert cmp x rest
  end.

Definition sort {A} (cmp : A -> A -> Q) (l : list A) : list A :=
  fold_left (fun sorted x => insert cmp x sorted) l [].

(** ** Stateful, fallible, possibly unfinished computations

    [M S A]: a computation over a state [S] that returns or throws, and
    keeps the state changes made before a throw.  [None] stands for a
    loop that was cut off before it ended; it is not an exception and
    cannot be caught. *)
Definition M (S A : Type) : Type := S -> option (Completion A * S).

Definition ret {S A} (a : A) : M S A := fun s => Some (Normal a, s).

Definition throw {S A} (msg : string) : M S A :=
  fun s => Some (Throw msg, s).

Definition lift {S A} (c : Completion A) : M S A := fun s => Some (c, s).

Definition mbind {S A B} (c : M S A) (k : A -> M S B) : M S B :=
  fun s =>
    match c s with
    | Some (Normal a, s') => k a s'
    | Some (Throw msg, s') => Some (Throw msg, s')
    | None => None
    end.

Definition catch {S A} (body : M S A) (handler : string -> M S A)
  : M S A :=
  fun s =>
    match body s with
    | Some (Normal a, s') => Some (Normal a, s')
    | Some (Throw msg, s') => handler msg s'
    | None => None
    end.

Definition gets {S A} (f : S -> A) : M S A := fun s => Some (Normal (f s), s).

Definition modify {S} (f : S -> S) : M S unit :=
  fun s => Some (Normal tt, f s).

End JS.

Notation "'let*' x ':=' c 'in' k" := (JS.mbind c (fun x => k))
  (at level 10, x name, c at level 100, k at level 200).
Notation "'do*' c 'in' k" := (JS.mbind c (fun _ => k))
  (at level 10, c at level 100, k at level 200).

(* ===================================================================== *)
(** * dns-monitor.js: class DNSMonitor *)
(* ===================================================================== *)

Module Monitor.
Import JS.

Record Config := {
  domain : string;
  subdomain : string;
  target : string;
  checkInterval : Z;
  alertThreshold : Z;
  retryInterval : Z
}.

Definition dnsServers : list string :=
  ["8.8.8.8"; "1.1.1.1"; "208.67.222.222"; "9.9.9.9"].

(** ** What one health check observes *)

(** A certificate as [getPeerCertificate] returns it; [expiry] is
    [new Date(cert.valid_to)] in milliseconds. *)
Record Certificate := {
  valid_from : string;
  valid_to : string;
  issuerCN : string;
  expiry : Z
}.

Inductive TlsOutcome :=
| TlsResponse (cert : option Certificate)
| TlsError (message : string)
| TlsTimeout.

(** One answer of a DNS-over-HTTPS service: record type and data. *)
Record Answer := { answer_type : Z; answer_data : string }.

Record Probes := {
  checkId : string;
  timestamp : string;
  now : Z;
  (** [dns.resolveCname] with the default resolver *)
  default_cname : Completion (list string);
  (** [resolver.resolveCname] for a given server, raced against 5 s *)
  server_cname : string -> Completion (list string);
  (** [axios.get] of the site: status code and elapsed milliseconds *)
  http_get : Completion (Z * Z);
  tls : TlsOutcome;
  (** [axios.get] of a propagation checker: [response.data.Answer] *)
  doh_get : string -> Completion (option (list Answer))
}.

(** ** Results of the four checks *)

Record DnsResponse := {
  response_server : string;
  response_addresses : list string;
  correct : bool
}.

Record DnsError := { error_server : string; error_message : string }.

Record DnsResult := {
  dns_success : bool;
  responses : list DnsResponse;
  errors : list DnsError
}.

(** The [headers] copied from the response are read by nothing and are
    left out, here and in the verifier. *)
Record HttpResult := {
  http_success : bool;
  statusCode : option Z;
  responseTime : option Z;
  http_error : option string
}.

Record SslResult := {
  ssl_success : bool;
  validFrom : option string;
  validTo : option string;
  issuer : option string;
  daysUntilExpiry : option Z;
  ssl_error : option string
}.

Record Location := {
  location_name : string;
  resolved : option string;
  location_correct : bool;
  location_error : option string;
  location_success : bool
}.

Record PropagationResult := {
  propagation_success : bool;
  propagationPercentage : Q;
  locations : list Location
}.

(** An issue; its [details], a copy of parts of the result, are left
    out. *)
Record Issue := {
  issue_type : string;
  severity : string;
  issue_message : string
}.

Record Overall := {
  healthy : bool;
  score : Z;
  maxScore : Z;
  percentage : Z;
  issues : list Issue
}.

Record Results := {
  id : string;
  results_timestamp : string;
  dns : DnsResult;
  http : HttpResult;
  ssl : SslResult;
  propagation : PropagationResult;
  overall : Overall
}.

(** ** The four checks *)

Definition resolve_servers (tgt : string)
           (lookup : string -> Completion (list string))
  : list string -> list DnsResponse * list DnsError :=
  fold_right
    (fun server acc =>
       match lookup server with
       | Normal addresses =>
           ({| response_server := server;
               response_addresses := addresses;
               correct := includes addresses tgt |} :: fst acc, snd acc)
       | Throw msg =>
           (fst acc,
            {| error_server := server; error_message := msg |} :: snd acc)
       end)
    ([], []).

Definition checkDNSResolution (cfg : Config) (p : Probes) : DnsResult :=
  let others := resolve_servers (target cfg) (server_cname p) dnsServers in
  match default_cname p with
  | Normal addresses =>
      let isCorrect := includes addresses (target cfg) in
      {| dns_success := isCorrect;
         responses :=
           {| response_server := "default";
              response_addresses := addresses;
              correct := isCorrect |} :: fst others;
         errors := snd others |}
  | Throw msg =>
      {| dns_success := false;
         responses := fst others;
         errors :=
           {| error_server := "default"; error_message := msg |}
             :: snd others |}
  end.

Definition checkHTTPAccess (p : Probes) : HttpResult :=
  match http_get p with
  | Normal (status, elapsed) =>
      {| http_success := (200 <=? status) && (status <? 400);
         statusCode := Some status;
         responseTime := Some elapsed;
         http_error := None |}
  | Throw msg =>
      {| http_success := false;
         statusCode := None;
         responseTime := None;
         http_error := Some msg |}
  end.

Definition no_certificate (err : option string) : SslResult :=
  {| ssl_success := false; validFrom := None; validTo := None;
     issuer := None; daysUntilExpiry := None; ssl_error := err |}.

Definition checkSSLCertificate (p : Probes) : SslResult :=
  match tls p with
  | TlsResponse (Some cert) =>
      if truthy_string (valid_from cert) then
        {| ssl_success := now p <? expiry cert;
           validFrom := Some (valid_from cert);
           validTo := Some (valid_to cert);
           issuer := Some (issuerCN cert);
           daysUntilExpiry :=
             Some (Math_ceil (inject_Z (expiry cert - now p)
                              / inject_Z (1000 * 60 * 60 * 24)));
           ssl_error := None |}
      else no_certificate None
  | TlsResponse None => no_certificate None
  | TlsError msg => no_certificate (Some msg)
  | TlsTimeout => no_certificate (Some "SSL check timeout")
  end.

Definition checkers : list string := ["Google"; "Cloudflare"].

(** [response.data.Answer.find(a => a.type === 5)?.data] *)
Definition cname_answer (answers : list Answer) : option string :=
  option_map answer_data
             (List.find (fun a => answer_type a =? 5) answers).

Definition check_location (cfg : Config) (p : Probes) (name : string)
  : Location :=
  match doh_get p name with
  | Normal answers =>
      let resolvedValue :=
        match answers with
        | Some l => cname_answer l
        | None => None
        end in
      let isCorrect :=
        match resolvedValue with
        | Some v => String.eqb v (target cfg)
        | None => false
        end in
      {| location_name := name; resolved := resolvedValue;
         location_correct := isCorrect; location_error := None;
         location_success := true |}
  | Throw msg =>
      {| location_name := name; resolved := None;
         location_correct := false; location_error := Some msg;
         location_success := false |}
  end.

Definition checkDNSPropagation (cfg : Config) (p : Probes)
  : PropagationResult :=
  let locs := map (check_location cfg p) checkers in
  let successfulChecks := length (List.filter location_correct locs) in
  let pct :=
    (inject_Z (Z.of_nat successfulChecks)
     / inject_Z (Z.of_nat (length checkers)) * 100)%Q in
  {| propagation_success := Qle_bool 50 pct;
     propagationPercentage := pct;
     locations := locs |}.

(** ** Overall health *)

Definition identifyIssues (d : DnsResult) (h : HttpResult) (s : SslResult)
           (pr : PropagationResult) : list Issue :=
  (if dns_success d then []
   else [{| issue_type := "dns_resolution"; severity := "critical";
            issue_message := "DNS resolution failed" |}])
  ++ (if http_success h then []
      else [{| issue_type := "http_access"; severity := "critical";
               issue_message :=
                 "HTTP access failed ("
                 +:+ match statusCode h with
                     | Some c => if c =? 0 then "no response" else pretty c
                     | None => "no response"
                     end
                 +:+ ")" |}])
  ++ (match daysUntilExpiry s with
      | Some days =>
          if negb (ssl_success s) && (days <? 30) then
            [{| issue_type := "ssl_certificate";
                severity := if days <? 7 then "critical" else "warning";
                issue_message :=
                  "SSL certificate expires in " +:+ pretty days
                  +:+ " days" |}]
          else []
      | None => []
      end)
  ++ (if negb (Qle_bool 50 (propagationPercentage pr)) then
        [{| issue_type := "dns_propagation"; severity := "warning";
            issue_message :=
              "Low DNS propagation: "
              +:+ pretty (Qfloor (propagationPercentage pr)) +:+ "%" |}]
      else []).

Definition score_of (b : bool) : Z := if b then 1 else 0.

Definition calculateOverallHealth (d : DnsResult) (h : HttpResult)
           (s : SslResult) (pr : PropagationResult) : Overall :=
  let scores :=
    [score_of (dns_success d); score_of (http_success h);
     score_of (ssl_success s); score_of (propagation_success pr)] in
  let totalScore := fold_left Z.add scores 0 in
  let maxScore := Z.of_nat (length scores) in
  {| healthy := Qle_bool (inject_Z maxScore * (3 # 4)) (inject_Z totalScore);
     score := totalScore;
     maxScore := maxScore;
     percentage :=
       Math_round (inject_Z totalScore / inject_Z maxScore * 100);
     issues := identifyIssues d h s pr |}.

(** ** Monitor state, alerts and the status-change handler *)

Inductive AlertType := recovery | failure | status_change.

(** The arguments of one [sendAlert] call.  [previousStatus] is present
    on [status_change] alerts only, and may itself be [null]. *)
Record Alert := {
  alert_type : AlertType;
  alert_message : string;
  alert_results : Results;
  alert_issues : option (list Issue);
  previousStatus : option (option Results)
}.

Record State := {
  isRunning : bool;
  consecutiveFailures : Z;
  lastStatus : option Results;
  checks : list Results
}.

Definition initial : State :=
  {| isRunning := false; consecutiveFailures := 0;
     lastStatus := None; checks := [] |}.

(** [keepRecentChecks] *)
Definition keepRecentChecks (st : State) : State :=
  if (100 <? length (checks st))%nat then
    {| isRunning := isRunning st;
       consecutiveFailures := consecutiveFailures st;
       lastStatus := lastStatus st;
       checks := slice_last 100 (checks st) |}
  else st.

(** [handleStatusChange]: the new state and the alerts sent, in order.
    [sendAlert] hands the alert to every channel and swallows channel
    errors, so it never throws. *)
Definition handleStatusChange (cfg : Config) (results : Results)
           (st : State) : State * list Alert :=
  let wasHealthy :=
    match lastStatus st with
    | Some previous => healthy (overall previous)
    | None => false
    end in
  let isHealthy := healthy (overall results) in
  let '(failures, alerts1) :=
    if isHealthy then
      (0,
       if 0 <? consecutiveFailures st then
         [{| alert_type := recovery;
             alert_message :=
               "🎉 DNS service recovered after "
               +:+ pretty (consecutiveFailures st) +:+ " failures";
             alert_results := results;
             alert_issues := None;
             previousStatus := None |}]
       else [])
    else
      let n := consecutiveFailures st + 1 in
      (n,
       if alertThreshold cfg <=? n then
         [{| alert_type := failure;
             alert_message :=
               "🚨 DNS service failure detected (" +:+ pretty n
               +:+ " consecutive failures)";
             alert_results := results;
             alert_issues := Some (issues (overall results));
             previousStatus := None |}]
       else []) in
  let alerts2 :=
    if eqb wasHealthy isHealthy then []
    else
      [{| alert_type := status_change;
          alert_message :=
            "📊 DNS status changed to: "
            +:+ (if isHealthy then "healthy" else "unhealthy");
          alert_results := results;
          alert_issues := None;
          previousStatus := Some (lastStatus st) |}] in
  ({| isRunning := isRunning st;
      consecutiveFailures := failures;
      lastStatus := Some results;
      checks := checks st |},
   alerts1 ++ alerts2).

(** The [results] object of [performHealthCheck], with [overall]
    filled in. *)
Definition check_results (cfg : Config) (p : Probes) : Results :=
  let d := checkDNSResolution cfg p in
  let h := checkHTTPAccess p in
  let s := checkSSLCertificate p in
  let pr := checkDNSPropagation cfg p in
  {| id := checkId p; results_timestamp := timestamp p;
     dns := d; http := h; ssl := s; propagation := pr;
     overall := calculateOverallHealth d h s pr |}.

(** [this.checks.push(results)] *)
Definition push (results : Results) (st : State) : State :=
  {| isRunning := isRunning st;
     consecutiveFailures := consecutiveFailures st;
     lastStatus := lastStatus st;
     checks := checks st ++ [results] |}.

(** [performHealthCheck] *)
Definition performHealthCheck (cfg : Config) (p : Probes) (st : State)
  : Results * State * list Alert :=
  let results := check_results cfg p in
  let st1 := keepRecentChecks (push results st) in
  let '(st2, alerts) := handleStatusChange cfg results st1 in
  (results, st2, alerts).

(** Health checks handled one after another, each to its end before the
    next is taken up: the state after the last one and all alerts sent.
    The timer starts a check whether or not the one before has ended, so
    this is what the monitor does only as long as no two checks overlap;
    [interleaved], below, is the monitor without that proviso. *)
Fixpoint run (cfg : Config) (ps : list Probes) (st : State)
  : State * list Alert :=
  match ps with
  | [] => (st, [])
  | p :: rest =>
      let '(_, st1, alerts) := performHealthCheck cfg p st in
      let '(st2, more) := run cfg rest st1 in
      (st2, alerts ++ more)
  end.

(** ** Health checks that overlap

    [setupMonitoringIntervals] starts a health check at every tick and
    does not wait for it, so the checks under way are handled as their
    answers arrive.  Within [handleStatusChange] a check gives way at
    each [await this.sendAlert(...)]; what lies between two such points
    runs undisturbed. *)

(** Where a check has given way: at the await of its [recovery] or
    [failure] alert, with the [wasHealthy] it read on entry, or at the
    await of its [status_change] alert. *)
Inductive Suspended :=
| AwaitingAlert (results : Results) (wasHealthy : bool)
| AwaitingChange (results : Results).

Definition set_consecutiveFailures (n : Z) (st : State) : State :=
  {| isRunning := isRunning st; consecutiveFailures := n;
     lastStatus := lastStatus st; checks := checks st |}.

Definition set_lastStatus (results : Results) (st : State) : State :=
  {| isRunning := isRunning st;
     consecutiveFailures := consecutiveFailures st;
     lastStatus := Some results; checks := checks st |}.

(** The end of [handleStatusChange], from "Status change detection" on:
    the [status_change] alert is called for and awaited, or the result is
    remembered at once. *)
Definition detect_change (results : Results) (wasHealthy : bool) (st : State)
  : option Suspended * State * list Alert :=
  let isHealthy := healthy (overall results) in
  if eqb wasHealthy isHealthy then (None, set_lastStatus results st, [])
  else
    (Some (AwaitingChange results), st,
     [{| alert_type := status_change;
         alert_message :=
           "📊 DNS status changed to: "
           +:+ (if isHealthy then "healthy" else "unhealthy");
         alert_results := results;
         alert_issues := None;
         previousStatus := Some (lastStatus st) |}]).

(** [handleStatusChange] from its entry to its first await, or to its
    end when it awaits nothing. *)
Definition enter (cfg : Config) (results : Results) (st : State)
  : option Suspended * State * list Alert :=
  let wasHealthy :=
    match lastStatus st with
    | Some previous => healthy (overall previous)
    | None => false
    end in
  if healthy (overall results) then
    if 0 <? consecutiveFailures st then
      (Some (AwaitingAlert results wasHealthy), st,
       [{| alert_type := recovery;
           alert_message :=
             "🎉 DNS service recovered after "
             +:+ pretty (consecutiveFailures st) +:+ " failures";
           alert_results := results;
           alert_issues := None;
           previousStatus := None |}])
    else detect_change results wasHealthy (set_consecutiveFailures 0 st)
  else
    let n := consecutiveFailures st + 1 in
    let st1 := set_consecutiveFailures n st in
    if alertThreshold cfg <=? n then
      (Some (AwaitingAlert results wasHealthy), st1,
       [{| alert_type := failure;
           alert_message :=
             "🚨 DNS service failure detected (" +:+ pretty n
             +:+ " consecutive failures)";
           alert_results := results;
           alert_issues := Some (issues (overall results));
           previousStatus := None |}])
    else detect_change results wasHealthy st1.

(** [handleStatusChange] from an await to the next, or to its end. *)
Definition resume (s : Suspended) (st : State)
  : option Suspended * State * list Alert :=
  match s with
  | AwaitingAlert results wasHealthy =>
      detect_change
        results wasHealthy
        (if healthy (overall results) then set_consecutiveFailures 0 st
         else st)
  | AwaitingChange results => (None, set_lastStatus results st, [])
  end.

(** What happens to the monitor: the answers of a health check are all
    in, as [p], and the check goes on to store its result and to enter
    [handleStatusChange]; or the await at which the [i]-th such check
    gave way returns. *)
Inductive Event :=
| Completed (p : Probes)
| Resumed (i : nat).

(** The monitor with its checks under way: for each check whose answers
    are in, in the order they came in, where it has given way, or [None]
    when it has ended. *)
Record Running := {
  monitor_state : State;
  tasks : list (option Suspended)
}.

Definition started (st : State) : Running :=
  {| monitor_state := st; tasks := [] |}.

Definition advance (cfg : Config) (ev : Event) (r : Running)
  : Running * list Alert :=
  match ev with
  | Completed p =>
      let results := check_results cfg p in
      let st1 := keepRecentChecks (push results (monitor_state r)) in
      let '(s, st2, alerts) := enter cfg results st1 in
      ({| monitor_state := st2; tasks := tasks r ++ [s] |}, alerts)
  | Resumed i =>
      match tasks r !! i with
      | Some (Some s) =>
          let '(s', st', alerts) := resume s (monitor_state r) in
          ({| monitor_state := st'; tasks := <[i := s']> (tasks r) |}, alerts)
      | _ => (r, [])
      end
  end.

(** The monitor over a sequence of events: where it ends up and all
    alerts sent. *)
Fixpoint interleaved (cfg : Config) (events : list Event) (r : Running)
  : Running * list Alert :=
  match events with
  | [] => (r, [])
  | ev :: rest =>
      let '(r1, alerts) := advance cfg ev r in
      let '(r2, more) := interleaved cfg rest r1 in
      (r2, alerts ++ more)
  end.

(** ** getStats *)

Record Stats := {
  totalChecks : Z;
  recentUptime : Z;
  stats_consecutiveFailures : Z;
  lastCheck : option Results;
  stats_isRunning : bool
}.

(** [getStats]: [null] before the first check; else figures over the
    last ten checks.  With at most ten checks the quotient is exact or
    far from a half, so [Math.round] sees what the rationals give. *)
Definition getStats (st : State) : option Stats :=
  match checks st with
  | [] => None
  | _ :: _ =>
      let recent := slice_last 10 (checks st) in
      let healthyCount :=
        length (List.filter (fun c => healthy (overall c)) recent) in
      Some {| totalChecks := Z.of_nat (length (checks st));
              recentUptime :=
                Math_round (inject_Z (Z.of_nat healthyCount)
                            / inject_Z (Z.of_nat (length recent)) * 100);
              stats_consecutiveFailures := consecutiveFailures st;
              lastCheck := last (checks st);
              stats_isRunning := isRunning st |}
  end.

(** ** attemptRecovery *)

Record Recovery := {
  recovery_success : bool;
  recovery_method : option string;
  recovery_endpoint : option string;
  recovery_error : option string
}.

(** The state of a recovery attempt: the URLs requested so far. *)
Definition flushDNSCache : M (list string) Recovery :=
  ret {| recovery_success := true;
         recovery_method := Some "dns_cache_flush";
         recovery_endpoint := None; recovery_error := None |}.

(** [checkAlternativeEndpoints]: [get url] is the outcome of
    [axios.get], the status code of an answer or a failure. *)
Fixpoint try_endpoints (get : string -> Completion Z)
         (alternatives : list string) : M (list string) Recovery :=
  match alternatives with
  | [] =>
      ret {| recovery_success := false; recovery_method := None;
             recovery_endpoint := None;
             recovery_error := Some "No alternative endpoints available" |}
  | endpoint :: rest =>
      let url := "https://" +:+ endpoint in
      do* modify (fun requested => requested ++ [url]) in
      match get url with
      | Normal code =>
          if code =? 200 then
            ret {| recovery_success := true;
                   recovery_method := Some "alternative_endpoint";
                   recovery_endpoint := Some endpoint;
                   recovery_error := None |}
          else try_endpoints get rest
      | Throw _ => try_endpoints get rest
      end
  end.

Definition checkAlternativeEndpoints (cfg : Config)
           (get : string -> Completion Z) : M (list string) Recovery :=
  try_endpoints get
    ["fogg-calendar.netlify.app"; subdomain cfg +:+ "." +:+ domain cfg].

Definition notifyRecoveryTeam : M (list string) Recovery :=
  ret {| recovery_success := true;
         recovery_method := Some "recovery_team_notified";
         recovery_endpoint := None; recovery_error := None |}.

(** The loop of [attemptRecovery] over its strategies. *)
Fixpoint first_recovery (strategies : list (M (list string) Recovery))
  : M (list string) Recovery :=
  match strategies with
  | [] =>
      ret {| recovery_success := false; recovery_method := None;
             recovery_endpoint := None;
             recovery_error := Some "All recovery strategies failed" |}
  | strategy :: rest =>
      let* attempt :=
        catch (let* result := strategy in ret (Some result))
              (fun _ => ret None) in
      match attempt with
      | Some result =>
          if recovery_success result then ret result
          else first_recovery rest
      | None => first_recovery rest
      end
  end.

Definition attemptRecovery (cfg : Config) (get : string -> Completion Z)
  : M (list string) Recovery :=
  first_recovery
    [flushDNSCache; checkAlternativeEndpoints cfg get; notifyRecoveryTeam].

End Monitor.

(* ===================================================================== *)
(** * dns-verifier.js: class DNSVerifier *)
(* ===================================================================== *)

Module Verifier.
Import JS.

Record Config := {
  domain : string;
  subdomain : string;
  target : string;
  timeout : Z;
  checkInterval : Z
}.

Definition fqdn (cfg : Config) : string :=
  subdomain cfg +:+ "." +:+ domain cfg.

Record DnsServer := { server_name : string; address : string }.

Definition dnsServers : list DnsServer :=
  [ {| server_name := "Google Primary"; address := "8.8.8.8" |};
    {| server_name := "Google Secondary"; address := "8.8.4.4" |};
    {| server_name := "Cloudflare Primary"; address := "1.1.1.1" |};
    {| server_name := "Cloudflare Secondary"; address := "1.0.0.1" |};
    {| server_name := "OpenDNS Primary"; address := "208.67.222.222" |};
    {| server_name := "OpenDNS Secondary"; address := "208.67.220.220" |};
    {| server_name := "Quad9"; address := "9.9.9.9" |};
    {| server_name := "Comodo"; address := "8.26.56.26" |} ].

(** ** What one comprehensive check observes *)

Record WhatsMyDnsItem := {
  country : string;
  city : string;
  response : string
}.

(** [response.data] of an online checker: the array whatsmydns.net
    answers with, the object dns.google answers with (its [Answer] array
    of [data] strings, when present), the body [null], or any other
    body. *)
Inductive OnlineData :=
| ItemArray (items : list WhatsMyDnsItem)
| AnswerObject (answer : option (list string))
| NullBody
| OtherBody.

Record Certificate := {
  valid_from : string;
  valid_to : string;
  issuerCN : string;
  expiry : Z
}.

Inductive TlsOutcome :=
| TlsResponse (cert : option Certificate)
| TlsError (message : string)
| TlsTimeout.

Record Probes := {
  timestamp : string;
  now : Z;
  (** how long the whole check takes, in milliseconds *)
  duration : Z;
  (** [dns.resolveCname]: the addresses and the elapsed time *)
  local_cname : Completion (list string * Z);
  (** [resolver.resolveCname] at a server address, raced against 5 s *)
  server_cname : string -> Completion (list string * Z);
  (** [axios.get] of an online checker, by checker name *)
  online_get : string -> Completion OnlineData;
  (** [axios.get] of the site: status code and elapsed time *)
  http_get : Completion (Z * Z);
  tls : TlsOutcome;
  (** the two timed steps of [benchmarkPerformance] *)
  bench_dns : Completion Z;
  bench_http : Completion Z
}.

(** ** Results *)

Record LocalResult := {
  local_success : bool;
  local_addresses : option (list string);
  local_error : option string;
  local_responseTime : option Z
}.

Record ServerResult := {
  name : string;
  server_address : string;
  server_success : bool;
  addresses : option (list string);
  server_error : option string;
  server_responseTime : option Z
}.

Record ServersResult := {
  server_checks : list ServerResult;
  servers_successCount : Z;
  servers_totalCount : Z
}.

Record OnlineLocation := {
  location : string;
  result : string;
  location_success : bool
}.

Record OnlineResult := {
  online_name : string;
  online_success : bool;
  locations : list OnlineLocation;
  online_error : option string
}.

Record OnlineServices := {
  online_checks : list OnlineResult;
  online_successCount : Z;
  online_totalCount : Z
}.

Record HttpResult := {
  http_success : bool;
  statusCode : option Z;
  http_responseTime : option Z;
  http_error : option string
}.

Record SslResult := {
  ssl_success : bool;
  issuer : option string;
  validFrom : option string;
  validTo : option string;
  daysUntilExpiry : option Z;
  ssl_error : option string
}.

Record Performance := {
  dnsLookup : option Z;
  httpResponse : option Z;
  totalLoadTime : option Z;
  performance_error : option string
}.

Record Details := {
  details_local : bool;
  details_servers : bool;
  details_online : bool;
  details_http : bool;
  details_ssl : bool
}.

Record Overall := {
  success : bool;
  score : Z;
  totalChecks : Z;
  percentage : Z;
  details : Details
}.

(** A check before [overall] is filled in, and the finished check. *)
Record Measured := {
  check_timestamp : string;
  local : LocalResult;
  servers : ServersResult;
  online : OnlineServices;
  http : HttpResult;
  ssl : SslResult;
  performance : Performance
}.

Record Check := { measured : Measured; overall : Overall }.

(** ** The individual checks *)

Definition checkLocalDNS (cfg : Config) (p : Probes) : LocalResult :=
  match local_cname p with
  | Normal (addrs, elapsed) =>
      {| local_success := includes addrs (target cfg);
         local_addresses := Some addrs;
         local_error := None;
         local_responseTime := Some elapsed |}
  | Throw msg =>
      {| local_success := false; local_addresses := None;
         local_error := Some msg; local_responseTime := None |}
  end.

Definition checkDNSServer (cfg : Config) (p : Probes) (server : DnsServer)
  : ServerResult :=
  match server_cname p (address server) with
  | Normal (addrs, elapsed) =>
      {| name := server_name server; server_address := address server;
         server_success := includes addrs (target cfg);
         addresses := Some addrs;
         server_error := None;
         server_responseTime := Some elapsed |}
  | Throw msg =>
      {| name := server_name server; server_address := address server;
         server_success := false; addresses := None;
         server_error := Some msg; server_responseTime := None |}
  end.

Definition checkDNSServers (cfg : Config) (p : Probes) : ServersResult :=
  let results := map (checkDNSServer cfg p) dnsServers in
  {| server_checks := results;
     servers_successCount :=
       Z.of_nat (length (List.filter server_success results));
     servers_totalCount := Z.of_nat (length results) |}.

(** The two online checkers and their parsers. *)
Inductive Checker := whatsmydns | google_dns.

Definition onlineCheckers : list Checker := [whatsmydns; google_dns].

Definition checker_name (c : Checker) : string :=
  match c with
  | whatsmydns => "whatsmydns.net"
  | google_dns => "Google DNS"
  end.

Definition parser (cfg : Config) (c : Checker) (data : OnlineData)
  : Completion (list OnlineLocation) :=
  match c, data with
  | whatsmydns, ItemArray items =>
      Normal
        (map (fun item =>
                {| location := country item +:+ " - " +:+ city item;
                   result := response item;
                   location_success :=
                     String.eqb (response item) (target cfg) |})
             items)
  | whatsmydns, NullBody =>
      Throw "Cannot read properties of null (reading 'map')"
  | whatsmydns, _ => Throw "data.map is not a function"
  | google_dns, AnswerObject (Some answers) =>
      Normal
        (map (fun data =>
                {| location := "Google DNS";
                   result := data;
                   location_success := String.eqb data (target cfg) |})
             answers)
  | google_dns, NullBody =>
      Throw "Cannot read properties of null (reading 'Answer')"
  | google_dns, _ => Normal []
  end.

Definition checkOnlineService (cfg : Config) (p : Probes) (c : Checker)
  : OnlineResult :=
  match bind (online_get p (checker_name c)) (parser cfg c) with
  | Normal locs =>
      {| online_name := checker_name c;
         online_success := existsb location_success locs;
         locations := locs;
         online_error := None |}
  | Throw msg =>
      {| online_name := checker_name c; online_success := false;
         locations := []; online_error := Some msg |}
  end.

Definition checkOnlineServices (cfg : Config) (p : Probes)
  : OnlineServices :=
  let results := map (checkOnlineService cfg p) onlineCheckers in
  {| online_checks := results;
     online_successCount :=
       Z.of_nat (length (List.filter online_success results));
     online_totalCount := Z.of_nat (length results) |}.

Definition checkHTTPAccess (p : Probes) : HttpResult :=
  match http_get p with
  | Normal (status, elapsed) =>
      {| http_success := (200 <=? status) && (status <? 400);
         statusCode := Some status;
         http_responseTime := Some elapsed;
         http_error := None |}
  | Throw msg =>
      {| http_success := false; statusCode := None;
         http_responseTime := None; http_error := Some msg |}
  end.

Definition no_certificate (err : option string) : SslResult :=
  {| ssl_success := false; issuer := None; validFrom := None;
     validTo := None; daysUntilExpiry := None; ssl_error := err |}.

Definition checkSSLCertificate (p : Probes) : SslResult :=
  match tls p with
  | TlsResponse (Some cert) =>
      if truthy_string (valid_from cert) then
        {| ssl_success := now p <? expiry cert;
           issuer := Some (issuerCN cert);
           validFrom := Some (valid_from cert);
           validTo := Some (valid_to cert);
           daysUntilExpiry :=
             Some (Math_ceil (inject_Z (expiry cert - now p)
                              / inject_Z (1000 * 60 * 60 * 24)));
           ssl_error := None |}
      else no_certificate None
  | TlsResponse None => no_certificate None
  | TlsError msg => no_certificate (Some msg)
  | TlsTimeout => no_certificate (Some "SSL check timeout")
  end.

Definition benchmarkPerformance (p : Probes) : Performance :=
  match bench_dns p with
  | Normal d =>
      match bench_http p with
      | Normal h =>
          {| dnsLookup := Some d; httpResponse := Some h;
             totalLoadTime := Some (d + h); performance_error := None |}
      | Throw msg =>
          {| dnsLookup := Some d; httpResponse := None;
             totalLoadTime := None; performance_error := Some msg |}
      end
  | Throw msg =>
      {| dnsLookup := None; httpResponse := None;
         totalLoadTime := None; performance_error := Some msg |}
  end.

(** ** calculateOverallSuccess *)

Definition values (d : Details) : list bool :=
  [details_local d; details_servers d; details_online d;
   details_http d; details_ssl d].

Definition calculateOverallSuccess (check : Measured) : Overall :=
  let checks :=
    {| details_local := local_success (local check);
       details_servers :=
         ge (div (servers_successCount (servers check))
                 (servers_totalCount (servers check)))
            (1 # 2);
       details_online := 0 <? online_successCount (online check);
       details_http := http_success (http check);
       details_ssl := ssl_success (ssl check) |} in
  let successCount :=
    Z.of_nat (length (List.filter (fun b : bool => b) (values checks))) in
  let totalChecks := Z.of_nat (length (values checks)) in
  {| success := 3 <=? successCount;
     score := successCount;
     totalChecks := totalChecks;
     percentage :=
       Math_round (inject_Z successCount / inject_Z totalChecks * 100);
     details := checks |}.

(** ** performComprehensiveCheck (the check it returns and pushes onto
    [this.results]) *)
Definition performComprehensiveCheck (cfg : Config) (p : Probes) : Check :=
  let m :=
    {| check_timestamp := timestamp p;
       local := checkLocalDNS cfg p;
       servers := checkDNSServers cfg p;
       online := checkOnlineServices cfg p;
       http := checkHTTPAccess p;
       ssl := checkSSLCertificate p;
       performance := benchmarkPerformance p |} in
  {| measured := m; overall := calculateOverallSuccess m |}.

(** ** Reports *)

Record Recommendation := {
  rec_type : string;
  priority : string;
  message : string;
  action : string
}.

Record Summary := {
  summary_domain : string;
  summary_target : string;
  status : string;
  summary_duration : Z;
  summary_timestamp : Z;
  summary_totalChecks : Z
}.

Record Report := {
  summary : Summary;
  finalState : option Check;
  recommendations : list Recommendation;
  nextSteps : list string
}.

(** [generateRecommendations(check, status)].  Reading [check.local] of
    a [null] check is a [TypeError]. *)
Definition generateRecommendations (check : option Check) (st : string)
  : Completion (list Recommendation) :=
  match check with
  | None => Throw "Cannot read properties of null (reading 'local')"
  | Some c =>
      let m := measured c in
      Normal
        ((if local_success (local m) then []
          else [{| rec_type := "dns_resolution"; priority := "high";
                   message :=
                     "DNS resolution failing locally - check DNS record configuration";
                   action :=
                     "Verify CNAME record points to correct target" |}])
         ++ (if negb (Qle_bool
                        (inject_Z (servers_totalCount (servers m)) * (1 # 2))
                        (inject_Z (servers_successCount (servers m))))
             then [{| rec_type := "dns_propagation"; priority := "medium";
                      message := "Poor DNS propagation across servers";
                      action :=
                        "Wait for full DNS propagation (up to 48 hours)" |}]
             else [])
         ++ (if negb (http_success (http m)) && local_success (local m)
             then [{| rec_type := "http_configuration"; priority := "high";
                      message := "DNS working but HTTP access failing";
                      action :=
                        "Check Netlify site configuration and SSL settings" |}]
             else [])
         ++ (if ssl_success (ssl m) then []
             else [{| rec_type := "ssl_certificate"; priority := "medium";
                      message := "SSL certificate issues detected";
                      action :=
                        "Force SSL certificate provisioning in Netlify dashboard" |}])
         ++ (if String.eqb st "timeout"
             then [{| rec_type := "timeout"; priority := "high";
                      message := "DNS verification timed out";
                      action :=
                        "Consider manual DNS configuration or alternative providers" |}]
             else []))
  end.

(** [generateNextSteps(check, status)] *)
Definition generateNextSteps (check : option Check) (st : string)
  : list string :=
  if String.eqb st "success" then
    ["✅ DNS is fully operational";
     "🔍 Monitor with: node dns-monitor.js";
     "📊 Set up continuous monitoring"]
  else if String.eqb st "timeout" then
    ["⚠️  Consider manual DNS configuration";
     "🔄 Try alternative DNS provider (Cloudflare)";
     "📞 Contact domain registrar support"]
  else
    ["⏳ Continue waiting for DNS propagation";
     "🔍 Run verification again in 30 minutes";
     "📋 Check DNS record configuration"].

(** [generateFinalReport(finalCheck, startTime, status)], called at time
    [at_time] with [results] the contents of [this.results];
    [write_report] is the outcome of creating the reports directory and
    writing the report file. *)
Definition generateFinalReport (cfg : Config) (results : list Check)
           (write_report : Completion unit) (finalCheck : option Check)
           (startTime at_time : Z) (st : string) : Completion Report :=
  let duration := at_time - startTime in
  bind (generateRecommendations finalCheck st) (fun recs =>
  let report :=
    {| summary :=
         {| summary_domain := fqdn cfg;
            summary_target := target cfg;
            status := st;
            summary_duration := Math_round (inject_Z duration / 1000);
            summary_timestamp := at_time;
            summary_totalChecks := Z.of_nat (length results) |};
       finalState := finalCheck;
       recommendations := recs;
       nextSteps := generateNextSteps finalCheck st |} in
  bind write_report (fun _ => Normal report)).

(** ** verify *)

(** What a run of [verify] meets: the clock at entry, what the initial
    check observes, what the check started by the [k]-th firing of the
    interval timer observes, and the outcome of writing the report. *)
Record Env := {
  startTime : Z;
  initial_probes : Probes;
  tick_probes : nat -> Probes;
  write_report : Completion unit
}.

(** [setInterval(callback, delay)]: a delay below 1 ms or above
    2^31 - 1 ms is set to 1 ms. *)
Definition timer_delay (delay : Z) : Z :=
  if (1 <=? delay) && (delay <=? 2147483647) then delay else 1.

(** The interval callback is async and is not awaited by the timer, so
    a check may still be running when the timer fires again.  [pending]
    holds the running checks with their completion times. *)
Definition Pending := list (Z * Check).

(** The checks that complete no later than [T], earliest first. *)
Definition arrivals (T : Z) (pending : Pending) : Pending :=
  sort (fun a b => inject_Z (fst a - fst b))
       (List.filter (fun c => fst c <=? T) pending).

Definition still_running (T : Z) (pending : Pending) : Pending :=
  List.filter (fun c => negb (fst c <=? T)) pending.

(** The continuation of each completed check inside the callback:
    the check has been pushed onto [this.results]; [lastCheck = check];
    a successful check ends the run.  Returns the new [this.results] and
    [lastCheck], and the successful check with its time, if any. *)
Fixpoint deliver (done : Pending) (results : list Check)
         (lastCheck : option Check)
  : list Check * option Check * option (Z * Check) :=
  match done with
  | [] => (results, lastCheck, None)
  | (t, check) :: rest =>
      if success (overall check)
      then (results ++ [check], Some check, Some (t, check))
      else deliver rest (results ++ [check]) (Some check)
  end.

(** The timer firings from the [k]-th on.  [None]: [fuel] firings were
    not enough to reach the end of the run. *)
Fixpoint monitor (cfg : Config) (env : Env) (setup : Z) (fuel : nat)
         (k : nat) (results : list Check) (lastCheck : option Check)
         (pending : Pending) : option (Completion Report) :=
  match fuel with
  | O => None
  | S fuel' =>
      let T := setup + Z.of_nat k * timer_delay (checkInterval cfg) in
      let '(results1, lastCheck1, won) :=
        deliver (arrivals T pending) results lastCheck in
      match won with
      | Some (t, check) =>
          Some (generateFinalReport cfg results1 (write_report env)
                  (Some check) (startTime env) t "success")
      | None =>
          let elapsed := T - startTime env in
          if timeout cfg <=? elapsed then
            Some (generateFinalReport cfg results1 (write_report env)
                    lastCheck1 (startTime env) T "timeout")
          else
            let p := tick_probes env k in
            monitor cfg env setup fuel' (S k) results1 lastCheck1
                    (still_running T pending
                     ++ [(T + duration p, performComprehensiveCheck cfg p)])
      end
  end.

(** The number of timer firings after which the deadline has passed. *)
Definition firings (cfg : Config) (env : Env) : nat :=
  S (Z.to_nat ((timeout cfg - duration (initial_probes env))
               / timer_delay (checkInterval cfg))).

Definition verify (cfg : Config) (env : Env) : option (Completion Report) :=
  let initialCheck := performComprehensiveCheck cfg (initial_probes env) in
  let setup := startTime env + duration (initial_probes env) in
  if success (overall initialCheck) then
    Some (generateFinalReport cfg [initialCheck] (write_report env)
            (Some initialCheck) (startTime env) setup "unknown")
  else
    monitor cfg env setup (firings cfg env) 1 [initialCheck] None [].

(** ** The command line

    [verifier.verify().then(report => process.exit(report.summary.status
    === 'success' ? 0 : 1)).catch(error => process.exit(1))] *)
Definition exit_code (outcome : Completion Report) : Z :=
  match outcome with
  | Normal report =>
      if String.eqb (status (summary report)) "success" then 0 else 1
  | Throw _ => 1
  end.

End Verifier.

(* ===================================================================== *)
(** * performance-optimizer.js: CDN endpoint selection *)
(* ===================================================================== *)

Module Optimizer.
Import JS.

Record Config := {
  domain : string;
  subdomain : string;
  primaryUrl : string
}.

Record Endpoint := {
  endpoint_name : string;
  endpoint_url : string;
  endpoint_priority : Z
}.

Definition cdnEndpoints : list Endpoint :=
  [ {| endpoint_name := "Netlify";
       endpoint_url := "https://fogg-calendar.netlify.app";
       endpoint_priority := 1 |};
    {| endpoint_name := "Cloudflare";
       endpoint_url := "https://fogg.candlefish.ai";
       endpoint_priority := 2 |};
    {| endpoint_name := "Direct";
       endpoint_url := "https://candlefish.ai/fogg";
       endpoint_priority := 3 |} ].

Record Measurement := {
  name : string;
  url : string;
  priority : Z;
  responseTime : Q;
  status : option Z;
  error : option string;
  available : bool
}.

(** One iteration of the loop of [measureCDNPerformance]: [head] is the
    outcome of [axios.head(endpoint.url)], the status code and the time
    [performance.now() - startTime] it took, in milliseconds. *)
Definition measure (endpoint : Endpoint) (head : Completion (Z * Q))
  : Measurement :=
  match head with
  | Normal (code, elapsed) =>
      {| name := endpoint_name endpoint;
         url := endpoint_url endpoint;
         priority := endpoint_priority endpoint;
         responseTime := elapsed;
         status := Some code;
         error := None;
         available := code <? 500 |}
  | Throw msg =>
      {| name := endpoint_name endpoint;
         url := endpoint_url endpoint;
         priority := endpoint_priority endpoint;
         responseTime := -1;
         status := None;
         error := Some msg;
         available := false |}
  end.

(** The comparison function handed to [measurements.sort]. *)
Definition compare (a b : Measurement) : Q :=
  if available a && negb (available b) then -1
  else if negb (available a) && available b then 1
  else if Qeq_bool (responseTime a) (-1) then 1
  else if Qeq_bool (responseTime b) (-1) then -1
  else responseTime a - responseTime b.

(** [measureCDNPerformance], given each endpoint of [this.cdnEndpoints]
    with the outcome of its request. *)
Definition measureCDNPerformance
           (probes : list (Endpoint * Completion (Z * Q)))
  : list Measurement :=
  sort compare (map (fun p => measure (fst p) (snd p)) probes).

Inductive Optimal :=
| Fastest (m : Measurement)
| Primary (name : string) (url : string) (fallback : bool).

(** [getOptimalEndpoint] *)
Definition getOptimalEndpoint (cfg : Config)
           (probes : list (Endpoint * Completion (Z * Q))) : Optimal :=
  match List.filter available (measureCDNPerformance probes) with
  | first :: _ => Fastest first
  | [] => Primary "Primary" (primaryUrl cfg) true
  end.

(** ** Stored metrics and thresholds *)

(** What [measurePerformance] hands on: the time of the DNS resolution
    and the time to first byte, each [-1] when the step failed. *)
Record Measurements := { dns : Q; ttfb : Q }.

(** [this.metrics]: the series [storeMetrics] writes. *)
Record Metrics := { metrics_dns : list Q; metrics_ttfb : list Q }.

(** [series.push(value); if (series.length > 100) series.shift()], done
    only for a value above zero. *)
Definition record_value (value : Q) (series : list Q) : list Q :=
  if negative (0 - value) then
    let pushed := series ++ [value] in
    if (100 <? length pushed)%nat then tail pushed else pushed
  else series.

(** [storeMetrics] *)
Definition storeMetrics (measurements : Measurements) (metrics : Metrics)
  : Metrics :=
  {| metrics_dns := record_value (dns measurements) (metrics_dns metrics);
     metrics_ttfb := record_value (ttfb measurements) (metrics_ttfb metrics) |}.

Record Thresholds := { threshold_dns : Q; threshold_ttfb : Q }.

(** [this.thresholds] as the constructor sets them. *)
Definition thresholds : Thresholds :=
  {| threshold_dns := 50; threshold_ttfb := 800 |}.

Record Violation := {
  metric : string;
  value : Q;
  threshold : Q;
  violation_severity : string
}.

(** [a > b] *)
Definition exceeds (a b : Q) : bool := negative (b - a).

Definition violation_of (name : string) (v limit : Q) : list Violation :=
  if exceeds v limit then
    [{| metric := name; value := v; threshold := limit;
        violation_severity :=
          if exceeds v (limit * 2) then "critical" else "warning" |}]
  else [].

(** [checkThresholds] *)
Definition checkThresholds (limits : Thresholds) (measurements : Measurements)
  : list Violation :=
  violation_of "DNS" (dns measurements) (threshold_dns limits)
  ++ violation_of "TTFB" (ttfb measurements) (threshold_ttfb limits).

(** ** The DNS cache *)

Record CacheEntry := { entry_addresses : list string; entry_timestamp : Z }.

(** [this.dnsCacheTTL] *)
Definition dnsCacheTTL : Z := 300000.

(** [resolveDNSWithCache(domain)] called at time [now]: [resolve4] is
    the outcome of [dns.resolve4(domain)] and the time it takes.  Returns
    the addresses or the error, the cache afterwards, and whether the
    resolver was asked. *)
Definition resolveDNSWithCache (cache : gmap string CacheEntry) (now : Z)
           (resolve4 : Completion (list string) * Z) (name : string)
  : Completion (list string) * gmap string CacheEntry * bool :=
  let fresh :=
    match cache !! name with
    | Some cached =>
        if now - entry_timestamp cached <? dnsCacheTTL
        then Some (entry_addresses cached) else None
    | None => None
    end in
  match fresh with
  | Some addresses => (Normal addresses, cache, false)
  | None =>
      match fst resolve4 with
      | Normal addresses =>
          (Normal addresses,
           <[name := {| entry_addresses := addresses;
                        entry_timestamp := now + snd resolve4 |}]> cache,
           true)
      | Throw msg => (Throw msg, cache, true)
      end
  end.

End Optimizer.

(* ===================================================================== *)
(** * The DNS providers *)
(* ===================================================================== *)

Module Providers.
Import JS.

(** ** JavaScript values held as credentials

    Credentials come from [process.env] or from [JSON.parse] of a file,
    so they are arbitrary JSON values. *)
Local Unset Elimination Schemes.
Inductive Value :=
| VUndefined
| VNull
| VBool (b : bool)
| VNum (z : Z)
| VStr (s : string)
| VObj (fields : gmap string Value).
Local Set Elimination Schemes.

Definition truthy (v : Value) : bool :=
  match v with
  | VUndefined | VNull => false
  | VBool b => b
  | VNum z => negb (z =? 0)
  | VStr s => truthy_string s
  | VObj _ => true
  end.

(** [v.key]: a [TypeError] on [null] and [undefined], [undefined] for a
    missing key and for the keys of primitives. *)
Definition property (v : Value) (key : string) : Completion Value :=
  match v with
  | VUndefined =>
      Throw ("Cannot read properties of undefined (reading '"
             +:+ key +:+ "')")
  | VNull =>
      Throw ("Cannot read properties of null (reading '" +:+ key +:+ "')")
  | VObj fields => Normal (default VUndefined (fields !! key))
  | _ => Normal VUndefined
  end.

(** ** Requests sent to the vendors and their response bodies *)

Inductive Request :=
| PorkbunPing (secretapikey apikey : Value)
| PorkbunCreate (domain : string) (secretapikey apikey : Value)
                (name rtype content : string) (ttl : Z)
| CloudflareVerify (token : Value)
| CloudflareZones (token : Value) (name : string)
| CloudflareListRecords (token : Value) (zone name rtype : string)
| CloudflareCreateRecord (token : Value) (zone rtype name content : string)
                         (ttl : Z)
| CloudflareUpdateRecord (token : Value) (zone recordId rtype content : string)
                         (ttl : Z)
| NetlifyUser (token : Value).

Record PingData := { ping_status : string; ping_message : option string }.

Record CreateData := {
  create_status : string;
  create_id : option string;
  create_message : option string
}.

(** A failed POST: [error.message] and [error.response?.data?.message]. *)
Inductive PostOutcome :=
| PostResponse (data : CreateData)
| PostError (message : string) (response_message : option string).

Record VerifyData := { verify_success : bool; verify_errors : list string }.

Record ZonesData := { zones_success : bool; zones_result : list string }.

Record RemoteRecord := {
  record_id : string;
  record_name : string;
  record_content : string;
  record_ttl : Z
}.

Record RecordsData := {
  records_success : bool;
  records_result : list RemoteRecord
}.

Record WriteData := {
  write_success : bool;
  write_result : option string;
  write_errors : list string
}.

Record UserData := { user_status : Z; error_message : option string }.

(** ** The outside world

    Each vendor answers a request as a function of the requests it has
    received so far. *)
Record Env := {
  process_env : gmap string string;
  (** [JSON.parse(await fs.readFile(path, 'utf8'))]; [None] when
      reading or parsing fails *)
  read_json : string -> option Value;
  (** [fs.mkdir] and [fs.writeFile] of a path *)
  write_file : string -> Completion unit;
  porkbun_ping : list Request -> Request -> Completion PingData;
  porkbun_create : list Request -> Request -> PostOutcome;
  cloudflare_verify : list Request -> Request -> Completion VerifyData;
  cloudflare_zones : list Request -> Request -> Completion ZonesData;
  cloudflare_records : list Request -> Request -> Completion RecordsData;
  cloudflare_write : list Request -> Request -> Completion WriteData;
  netlify_user : list Request -> Request -> Completion UserData;
  (** [dns.resolveCname(fqdn)] asked at a given time: the outcome and
      how long it takes *)
  resolveCname : Z -> Completion (list string) * N;
  (** [axios.get(url)] asked at a given time: status code and time taken *)
  http_get : Z -> Completion Z * N
}.

(** One entry of [DNSMonitoring.checks]. *)
Record MonitoringCheck := {
  check_timestamp : Z;
  check_type : string;
  check_success : bool;
  check_data : Value
}.

(** The mutable state: the clock, the requests sent so far, the fields
    of the provider instances and of the [DNSMonitoring] instance. *)
Record World := {
  clock : Z;
  history : list Request;
  porkbun_credentials : Value;
  cloudflare_credentials : Value;
  cloudflare_zoneId : option string;
  netlify_credentials : Value;
  isMonitoring : bool;
  checks : list MonitoringCheck
}.

Definition fresh : World :=
  {| clock := 0; history := [];
     porkbun_credentials := VNull;
     cloudflare_credentials := VNull; cloudflare_zoneId := None;
     netlify_credentials := VNull;
     isMonitoring := false; checks := [] |}.

Definition set_clock (t : Z) (w : World) : World :=
  {| clock := t; history := history w;
     porkbun_credentials := porkbun_credentials w;
     cloudflare_credentials := cloudflare_credentials w;
     cloudflare_zoneId := cloudflare_zoneId w;
     netlify_credentials := netlify_credentials w;
     isMonitoring := isMonitoring w; checks := checks w |}.

Definition set_history (h : list Request) (w : World) : World :=
  {| clock := clock w; history := h;
     porkbun_credentials := porkbun_credentials w;
     cloudflare_credentials := cloudflare_credentials w;
     cloudflare_zoneId := cloudflare_zoneId w;
     netlify_credentials := netlify_credentials w;
     isMonitoring := isMonitoring w; checks := checks w |}.

Definition set_porkbun_credentials (v : Value) (w : World) : World :=
  {| clock := clock w; history := history w;
     porkbun_credentials := v;
     cloudflare_credentials := cloudflare_credentials w;
     cloudflare_zoneId := cloudflare_zoneId w;
     netlify_credentials := netlify_credentials w;
     isMonitoring := isMonitoring w; checks := checks w |}.

Definition set_cloudflare_credentials (v : Value) (w : World) : World :=
  {| clock := clock w; history := history w;
     porkbun_credentials := porkbun_credentials w;
     cloudflare_credentials := v;
     cloudflare_zoneId := cloudflare_zoneId w;
     netlify_credentials := netlify_credentials w;
     isMonitoring := isMonitoring w; checks := checks w |}.

Definition set_cloudflare_zoneId (z : option string) (w : World) : World :=
  {| clock := clock w; history := history w;
     porkbun_credentials := porkbun_credentials w;
     cloudflare_credentials := cloudflare_credentials w;
     cloudflare_zoneId := z;
     netlify_credentials := netlify_credentials w;
     isMonitoring := isMonitoring w; checks := checks w |}.

Definition set_netlify_credentials (v : Value) (w : World) : World :=
  {| clock := clock w; history := history w;
     porkbun_credentials := porkbun_credentials w;
     cloudflare_credentials := cloudflare_credentials w;
     cloudflare_zoneId := cloudflare_zoneId w;
     netlify_credentials := v;
     isMonitoring := isMonitoring w; checks := checks w |}.

Definition set_isMonitoring (b : bool) (w : World) : World :=
  {| clock := clock w; history := history w;
     porkbun_credentials := porkbun_credentials w;
     cloudflare_credentials := cloudflare_credentials w;
     cloudflare_zoneId := cloudflare_zoneId w;
     netlify_credentials := netlify_credentials w;
     isMonitoring := b; checks := checks w |}.

Definition set_checks (c : list MonitoringCheck) (w : World) : World :=
  {| clock := clock w; history := history w;
     porkbun_credentials := porkbun_credentials w;
     cloudflare_credentials := cloudflare_credentials w;
     cloudflare_zoneId := cloudflare_zoneId w;
     netlify_credentials := netlify_credentials w;
     isMonitoring := isMonitoring w; checks := c |}.

(** Sending a request: the vendor answers from the requests it has
    seen, and the request joins them. *)
Definition send {A} (vendor : list Request -> Request -> Completion A)
           (req : Request) : M World A :=
  fun w => Some (vendor (history w) req, set_history (history w ++ [req]) w).

(** ** Results of the two provider operations *)

Record HealthResult := { healthy : bool; error : option string }.

Record RecordArgs := {
  domain : string;
  subdomain : string;
  target : string;
  ttl : Z
}.

Record RecordResult := {
  success : bool;
  recordId : option string;
  record_error : option string
}.

(** ** Credential sources *)

Inductive Source := Environment | ConfigFile | SecretsManager.

(** [process.env.NAME], a string or [undefined]. *)
Definition env_var (e : Env) (name : string) : Value :=
  match process_env e !! name with
  | Some s => VStr s
  | None => VUndefined
  end.

(** The loop of [loadCredentials]: the sources are asked in turn; the
    first truthy value is returned; a source that throws is skipped.
    Returns the sources asked, in order, and the value found. *)
Fixpoint first_credentials (read : Source -> Completion Value)
         (sources : list Source) : list Source * option Value :=
  match sources with
  | [] => ([], None)
  | source :: rest =>
      match read source with
      | Normal creds =>
          if truthy creds then ([source], Some creds)
          else let '(asked, found) := first_credentials read rest in
               (source :: asked, found)
      | Throw _ =>
          let '(asked, found) := first_credentials read rest in
          (source :: asked, found)
      end
  end.

Definition loadFromFile (e : Env) (path : string) : Completion Value :=
  match read_json e path with
  | Some creds => Normal creds
  | None => Normal VNull
  end.

(** The first element of an error list ([errors?.[0]?.message]). *)
Definition first_error (errors : list string) : option string :=
  head errors.

(** ** The provider interface: what [DNSManager] calls *)
Record Provider := {
  provider_name : string;
  healthCheck : Env -> M World HealthResult;
  createRecord : Env -> RecordArgs -> M World RecordResult
}.

(** ** PorkbunProvider (dns-management-system.js) *)
Module Porkbun.

Definition loadFromEnvironment (e : Env) : Completion Value :=
  if truthy (env_var e "PORKBUN_API_KEY")
     && truthy (env_var e "PORKBUN_SECRET_KEY")
  then Normal (VObj {[ "apiKey" := env_var e "PORKBUN_API_KEY";
                       "secretKey" := env_var e "PORKBUN_SECRET_KEY" ]})
  else Normal VNull.

Definition loadFromAWSSecrets (e : Env) : Completion Value :=
  Normal VNull.

Definition sources : list Source :=
  [Environment; SecretsManager; ConfigFile].

Definition read (e : Env) (source : Source) : Completion Value :=
  match source with
  | Environment => loadFromEnvironment e
  | SecretsManager => loadFromAWSSecrets e
  | ConfigFile => loadFromFile e "config/porkbun-creds.json"
  end.

(** [loadCredentials]: the sources asked and the outcome. *)
Definition loadCredentials (e : Env) : list Source * Completion Value :=
  let '(asked, found) := first_credentials (read e) sources in
  (asked,
   match found with
   | Some creds => Normal creds
   | None => Throw "No valid Porkbun credentials found"
   end).

Definition healthCheck (e : Env) : M World HealthResult :=
  catch
    (let* creds := lift (snd (loadCredentials e)) in
     do* modify (set_porkbun_credentials creds) in
     let* credentials := gets porkbun_credentials in
     let* secretKey := lift (property credentials "secretKey") in
     let* apiKey := lift (property credentials "apiKey") in
     let* data := send (porkbun_ping e) (PorkbunPing secretKey apiKey) in
     ret {| healthy := String.eqb (ping_status data) "SUCCESS";
            error := ping_message data |})
    (fun msg =>
       ret {| healthy := false;
              error := Some ("API unreachable: " +:+ msg) |}).

Definition createRecord (e : Env) (args : RecordArgs)
  : M World RecordResult :=
  fun w =>
    let credentials := porkbun_credentials w in
    match bind (property credentials "secretKey") (fun secretKey =>
          bind (property credentials "apiKey") (fun apiKey =>
          Normal (PorkbunCreate (domain args) secretKey apiKey
                                (subdomain args) "CNAME" (target args)
                                (ttl args)))) with
    | Throw msg =>
        Some (Normal {| success := false; recordId := None;
                        record_error :=
                          Some ("Porkbun API error: " +:+ msg) |},
              w)
    | Normal req =>
        let w' := set_history (history w ++ [req]) w in
        match porkbun_create e (history w) req with
        | PostResponse data =>
            Some (Normal {| success :=
                              String.eqb (create_status data) "SUCCESS";
                            recordId := create_id data;
                            record_error := create_message data |},
                  w')
        | PostError msg detail =>
            Some (Normal {| success := false; recordId := None;
                            record_error :=
                              Some ("Porkbun API error: " +:+ msg
                                    +:+ match detail with
                                        | Some d =>
                                            if truthy_string d
                                            then " - " +:+ d else ""
                                        | None => ""
                                        end) |},
                  w')
        end
    end.

Definition provider : Provider :=
  Build_Provider "Porkbun" healthCheck createRecord.

End Porkbun.

(** ** The CloudflareProvider and NetlifyDNSProvider classes declared in
    dns-management-system.js *)
Module Stub.

Definition healthCheck (e : Env) : M World HealthResult :=
  ret {| healthy := false; error := Some "Not implemented yet" |}.

Definition createRecord (e : Env) (args : RecordArgs)
  : M World RecordResult :=
  ret {| success := false; recordId := None;
         record_error := Some "Not implemented yet" |}.

Definition cloudflare : Provider :=
  Build_Provider "Cloudflare" healthCheck createRecord.

Definition netlify : Provider :=
  Build_Provider "Netlify DNS" healthCheck createRecord.

End Stub.

(** ** CloudflareProvider (dns-providers/cloudflare-provider.js) *)
Module Cloudflare.

Definition loadFromEnvironment (e : Env) : Completion Value :=
  if truthy (env_var e "CLOUDFLARE_API_TOKEN")
  then Normal (VObj {[ "apiToken" := env_var e "CLOUDFLARE_API_TOKEN" ]})
  else Normal VNull.

Definition loadFromAWSSecrets (e : Env) : Completion Value :=
  Normal VNull.

Definition sources : list Source :=
  [Environment; ConfigFile; SecretsManager].

Definition read (e : Env) (source : Source) : Completion Value :=
  match source with
  | Environment => loadFromEnvironment e
  | ConfigFile => loadFromFile e "../config/cloudflare-creds.json"
  | SecretsManager => loadFromAWSSecrets e
  end.

Definition loadCredentials (e : Env) : list Source * Completion Value :=
  let '(asked, found) := first_credentials (read e) sources in
  (asked,
   match found with
   | Some creds => Normal creds
   | None => Throw "No valid Cloudflare credentials found"
   end).

Definition healthCheck (e : Env) : M World HealthResult :=
  catch
    (let* creds := lift (snd (loadCredentials e)) in
     do* modify (set_cloudflare_credentials creds) in
     let* credentials := gets cloudflare_credentials in
     let* token := lift (property credentials "apiToken") in
     let* data := send (cloudflare_verify e) (CloudflareVerify token) in
     ret {| healthy := verify_success data;
            error := first_error (verify_errors data) |})
    (fun msg =>
       ret {| healthy := false;
              error := Some ("Cloudflare API unreachable: " +:+ msg) |}).

Definition zone_known (zoneId : option string) : bool :=
  match zoneId with
  | Some z => truthy_string z
  | None => false
  end.

(** [this.zoneId] as it appears in a request URL *)
Definition zone_of (zoneId : option string) : string :=
  match zoneId with
  | Some z => z
  | None => "null"
  end.

Definition getZoneId (e : Env) (domain : string) : M World unit :=
  let* zoneId := gets cloudflare_zoneId in
  if zone_known zoneId then ret tt
  else
    let* credentials := gets cloudflare_credentials in
    let* token := lift (property credentials "apiToken") in
    let* data := send (cloudflare_zones e) (CloudflareZones token domain) in
    match zones_success data, zones_result data with
    | true, zone :: _ => modify (set_cloudflare_zoneId (Some zone))
    | _, _ =>
        throw ("Zone not found for domain: " +:+ domain
               +:+ ". Ensure domain is managed by Cloudflare.")
    end.

Definition findExistingRecord (e : Env) (subdomain : string)
  : M World (option RemoteRecord) :=
  let* zoneId := gets cloudflare_zoneId in
  let* credentials := gets cloudflare_credentials in
  let* token := lift (property credentials "apiToken") in
  let* data :=
    send (cloudflare_records e)
         (CloudflareListRecords token (zone_of zoneId) subdomain "CNAME") in
  match records_success data, records_result data with
  | true, record :: _ => ret (Some record)
  | _, _ => ret None
  end.

Definition createNewRecord (e : Env) (subdomain target : string) (ttl : Z)
  : M World RecordResult :=
  let* zoneId := gets cloudflare_zoneId in
  let* credentials := gets cloudflare_credentials in
  let* token := lift (property credentials "apiToken") in
  let* data :=
    send (cloudflare_write e)
         (CloudflareCreateRecord token (zone_of zoneId) "CNAME" subdomain
                                 target ttl) in
  ret {| success := write_success data;
         recordId := write_result data;
         record_error := first_error (write_errors data) |}.

Definition updateRecord (e : Env) (id : string) (target : string) (ttl : Z)
  : M World RecordResult :=
  let* zoneId := gets cloudflare_zoneId in
  let* credentials := gets cloudflare_credentials in
  let* token := lift (property credentials "apiToken") in
  let* data :=
    send (cloudflare_write e)
         (CloudflareUpdateRecord token (zone_of zoneId) id "CNAME" target
                                 ttl) in
  ret {| success := write_success data;
         recordId := Some id;
         record_error := first_error (write_errors data) |}.

Definition createRecord (e : Env) (args : RecordArgs)
  : M World RecordResult :=
  catch
    (do* getZoneId e (domain args) in
     let* existingRecord := findExistingRecord e (subdomain args) in
     match existingRecord with
     | Some record =>
         updateRecord e (record_id record) (target args) (ttl args)
     | None =>
         createNewRecord e (subdomain args) (target args) (ttl args)
     end)
    (fun msg =>
       ret {| success := false; recordId := None;
              record_error := Some ("Cloudflare DNS error: " +:+ msg) |}).

Definition provider : Provider :=
  Build_Provider "Cloudflare" healthCheck createRecord.

End Cloudflare.

(** ** NetlifyDNSProvider (dns-providers): credentials and health check *)
Module Netlify.

Definition loadFromEnvironment (e : Env) : Completion Value :=
  if truthy (env_var e "NETLIFY_ACCESS_TOKEN")
  then Normal (VObj {[ "accessToken" := env_var e "NETLIFY_ACCESS_TOKEN" ]})
  else Normal VNull.

Definition loadFromAWSSecrets (e : Env) : Completion Value :=
  Normal VNull.

Definition sources : list Source :=
  [Environment; ConfigFile; SecretsManager].

Definition read (e : Env) (source : Source) : Completion Value :=
  match source with
  | Environment => loadFromEnvironment e
  | ConfigFile => loadFromFile e "../config/netlify-creds.json"
  | SecretsManager => loadFromAWSSecrets e
  end.

Definition loadCredentials (e : Env) : list Source * Completion Value :=
  let '(asked, found) := first_credentials (read e) sources in
  (asked,
   match found with
   | Some creds => Normal creds
   | None => Throw "No valid Netlify credentials found"
   end).

Definition healthCheck (e : Env) : M World HealthResult :=
  catch
    (let* creds := lift (snd (loadCredentials e)) in
     do* modify (set_netlify_credentials creds) in
     let* credentials := gets netlify_credentials in
     let* token := lift (property credentials "accessToken") in
     let* data := send (netlify_user e) (NetlifyUser token) in
     ret {| healthy := user_status data =? 200;
            error := error_message data |})
    (fun msg =>
       ret {| healthy := false;
              error := Some ("Netlify API unreachable: " +:+ msg) |}).

End Netlify.

End Providers.

(* ===================================================================== *)
(** * dns-management-system.js: classes DNSManager and DNSMonitoring *)
(* ===================================================================== *)

Module Manager.
Import JS Providers.

Record Config := {
  domain : string;
  subdomain : string;
  target : string;
  ttl : Z;
  maxRetries : Z;
  verificationTimeout : Z;
  monitoringInterval : Z
}.

(** [this.config] as the constructor sets it. *)
Definition config : Config :=
  {| domain := "candlefish.ai";
     subdomain := "fogg";
     target := "fogg-calendar.netlify.app";
     ttl := 300;
     maxRetries := 3;
     verificationTimeout := 300000;
     monitoringInterval := 60000 |}.

(** [this.providers] as the constructor sets it. *)
Definition providers : list Provider :=
  [Porkbun.provider; Stub.cloudflare; Stub.netlify].

(** The object [configureDNS] and the backup strategies return; absent
    keys are [None]. *)
Record Outcome := {
  success : bool;
  provider : option string;
  method : option string;
  url : option string;
  note : option string;
  alt_subdomain : option string;
  proxy_target : option string;
  file : option string;
  temporaryUrl : option string;
  error : option string
}.

Definition failed (msg : string) : Outcome :=
  {| success := false; provider := None; method := None; url := None;
     note := None; alt_subdomain := None; proxy_target := None;
     file := None; temporaryUrl := None; error := Some msg |}.

Record Verification := {
  verification_success : bool;
  verification_method : option string;
  verification_error : option string
}.

(** [sleep(ms)] and the time a network call takes. *)
Definition sleep (ms : Z) : M World unit :=
  modify (fun w => set_clock (clock w + ms) w).

(** [verifyHTTPAccess]: the [success] field of its result. *)
Definition verifyHTTPAccess (e : Env) : M World bool :=
  let* t := gets clock in
  let '(response, took) := http_get e t in
  do* sleep (Z.of_N took) in
  match response with
  | Normal status => ret (status <? 400)
  | Throw _ => ret false
  end.

(** The [while] loop of [verifyDNSPropagation]; every turn that does not
    return sleeps 10 s.  [fuel] bounds the number of turns. *)
Fixpoint propagation_loop (e : Env) (cfg : Config) (startTime : Z)
         (fuel : nat) : M World Verification :=
  let* t := gets clock in
  if t - startTime <? verificationTimeout cfg then
    match fuel with
    | O => fun _ => None
    | S fuel' =>
        let '(answer, took) := resolveCname e t in
        do* sleep (Z.of_N took) in
        match answer with
        | Normal addresses =>
            if includes addresses (target cfg) then
              let* httpCheck := verifyHTTPAccess e in
              ret {| verification_success := httpCheck;
                     verification_method := Some "dns_cname";
                     verification_error := None |}
            else
              do* sleep 10000 in propagation_loop e cfg startTime fuel'
        | Throw _ =>
            do* sleep 10000 in propagation_loop e cfg startTime fuel'
        end
    end
  else
    ret {| verification_success := false;
           verification_method := None;
           verification_error := Some "DNS propagation timeout" |}.

Definition verifyDNSPropagation (e : Env) (cfg : Config)
  : M World Verification :=
  let* startTime := gets clock in
  propagation_loop e cfg startTime
                   (S (Z.to_nat (verificationTimeout cfg / 10000))).

(** [attemptProvider].  Its handler logs [provider.name] and
    [error.message] and returns [false]; both reads succeed for a
    provider object and a thrown [Error] object, which is all a [Throw]
    stands for. *)
Definition attemptProvider (e : Env) (cfg : Config) (p : Provider)
  : M World bool :=
  catch
    (let* healthCheck := healthCheck p e in
     if negb (healthy healthCheck) then
       throw ("Provider health check failed: "
              +:+ match Providers.error healthCheck with
                  | Some msg => msg
                  | None => "undefined"
                  end)
     else
       let* record :=
         createRecord p e
           {| Providers.domain := domain cfg;
              Providers.subdomain := subdomain cfg;
              Providers.target := target cfg;
              Providers.ttl := ttl cfg |} in
       if negb (Providers.success record) then
         throw match record_error record with
               | Some msg =>
                   if truthy_string msg then msg
                   else "Failed to create DNS record"
               | None => "Failed to create DNS record"
               end
       else
         let* verification := verifyDNSPropagation e cfg in
         ret (verification_success verification))
    (fun _ => ret false).

(** [DNSMonitoring.startMonitoring]: the flag is raised and the interval
    timers are armed. *)
Definition startMonitoring : M World unit :=
  modify (set_isMonitoring true).

(** [logFailure]: creates the logs directory and writes the log file. *)
Definition logFailure (e : Env) (providerName message : string)
  : M World unit :=
  lift (write_file e "logs/dns-failures.json").

(** ** Backup strategies *)

Definition useNetlifyRedirect (e : Env) : M World Outcome :=
  catch
    (do* lift (write_file e "netlify/_redirects") in
     ret {| success := true; provider := None;
            method := Some "netlify_redirect";
            url := Some "https://candlefish.ai/fogg";
            note := Some "Users can access via main domain redirect";
            alt_subdomain := None; proxy_target := None; file := None;
            temporaryUrl := None; error := None |})
    (fun msg => ret (failed msg)).

Fixpoint try_alternatives (e : Env) (cfg : Config)
         (alternatives : list string) : M World Outcome :=
  match alternatives with
  | [] => ret (failed "No alternative subdomains available")
  | alt :: rest =>
      let* configured :=
        catch
          (match head providers with
           | Some primary =>
               let* result :=
                 createRecord primary e
                   {| Providers.domain := domain cfg;
                      Providers.subdomain := alt;
                      Providers.target := target cfg;
                      Providers.ttl := ttl cfg |} in
               ret (Providers.success result)
           | None =>
               throw "Cannot read properties of undefined (reading 'createRecord')"
           end)
          (fun _ => ret false) in
      if configured then
        ret {| success := true; provider := None;
               method := Some "alternative_subdomain";
               url := Some ("https://" +:+ alt +:+ "." +:+ domain cfg);
               note := None; alt_subdomain := Some alt;
               proxy_target := None; file := None;
               temporaryUrl := None; error := None |}
      else try_alternatives e cfg rest
  end.

Definition createAlternativeSubdomain (e : Env) (cfg : Config)
  : M World Outcome :=
  try_alternatives e cfg ["fogg-cal"; "fogg-dashboard"; "calendar-fogg"].

Definition setupProxyServer : M World Outcome :=
  ret {| success := true; provider := None;
         method := Some "proxy_server"; url := None;
         note := Some "Proxy server configuration ready for deployment";
         alt_subdomain := None;
         proxy_target := Some "https://fogg-calendar.netlify.app";
         file := None; temporaryUrl := None; error := None |}.

Definition notifyUserWithInstructions (e : Env) : M World Outcome :=
  do* lift (write_file e "EMERGENCY_DNS_INSTRUCTIONS.md") in
  ret {| success := true; provider := None;
         method := Some "user_instructions"; url := None; note := None;
         alt_subdomain := None; proxy_target := None;
         file := Some "EMERGENCY_DNS_INSTRUCTIONS.md";
         temporaryUrl := Some "https://fogg-calendar.netlify.app";
         error := None |}.

(** The loop of [implementBackupStrategy]: the first strategy whose
    result has [success] set is returned; a strategy that throws is
    skipped. *)
Fixpoint first_successful (strategies : list (M World Outcome))
  : M World Outcome :=
  match strategies with
  | [] => ret (failed "All backup strategies failed")
  | strategy :: rest =>
      let* attempt :=
        catch (let* result := strategy in ret (Some result))
              (fun _ => ret None) in
      match attempt with
      | Some result =>
          if success result then ret result else first_successful rest
      | None => first_successful rest
      end
  end.

Definition implementBackupStrategy (e : Env) (cfg : Config)
  : M World Outcome :=
  first_successful
    [useNetlifyRedirect e;
     createAlternativeSubdomain e cfg;
     setupProxyServer;
     notifyUserWithInstructions e].

(** ** configureDNS *)

(** The [for] loop over [this.providers]: [Some] result when a provider
    configured the record, [None] when the loop ran to its end. *)
Fixpoint provider_chain (e : Env) (cfg : Config) (ps : list Provider)
  : M World (option Outcome) :=
  match ps with
  | [] => ret None
  | p :: rest =>
      let* configured :=
        catch
          (let* ok := attemptProvider e cfg p in
           if ok then
             do* startMonitoring in
             ret (Some {| success := true;
                          provider := Some (provider_name p);
                          method := None; url := None; note := None;
                          alt_subdomain := None; proxy_target := None;
                          file := None; temporaryUrl := None;
                          error := None |})
           else ret None)
          (fun msg =>
             do* logFailure e (provider_name p) msg in ret None) in
      match configured with
      | Some result => ret (Some result)
      | None => provider_chain e cfg rest
      end
  end.

Definition configureDNS (e : Env) (cfg : Config) : M World Outcome :=
  let* configured := provider_chain e cfg providers in
  match configured with
  | Some result => ret result
  | None => implementBackupStrategy e cfg
  end.

(** ** DNSMonitoring.logCheck *)
Definition logCheck (type : string) (ok : bool) (data : Value)
  : M World unit :=
  let* t := gets clock in
  let check :=
    {| check_timestamp := t; check_type := type;
       check_success := ok; check_data := data |} in
  do* modify (fun w => set_checks (checks w ++ [check]) w) in
  let* all := gets checks in
  if (100 <? length all)%nat
  then modify (set_checks (slice_last 100 all))
  else ret tt.

(** ** The command line: [process.exit(result.success ? 0 : 1)], and
    [process.exit(1)] when [configureDNS] rejects. *)
Definition exit_code (result : Completion Outcome) : Z :=
  match result with
  | Normal outcome => if success outcome then 0 else 1
  | Throw _ => 1
  end.

End Manager.

(* ===================================================================== *)
(** * dns-providers: NetlifyDNSProvider.createRecord *)
(* ===================================================================== *)

Module NetlifyDNS.
Import JS Providers.

(** The requests of the provider to the Netlify API; the zone and the
    record id are the texts put into the URL. *)
Inductive Request :=
| ListZones (token : Value)
| CreateZone (token : Value) (name : string)
| ListRecords (token : Value) (zone : string)
| CreateRecord (token : Value) (zone rtype hostname value : string) (ttl : Z)
| UpdateRecord (token : Value) (zone recordId rtype value : string) (ttl : Z).

(** The parts of the response bodies that the provider reads; an id that
    is missing reads as [undefined]. *)
Record Zone := { zone_id : option string; zone_name : string }.

Record DnsRecord := {
  dns_record_id : option string;
  hostname : string;
  dns_record_type : string
}.

Record Written := {
  written_status : Z;
  written_id : option string;
  written_error : option string
}.

(** The Netlify API: each answer is a function of the requests received
    so far. *)
Record Vendor := {
  zones : list Request -> Request -> Completion (list Zone);
  new_zone : list Request -> Request -> Completion (option string);
  records : list Request -> Request -> Completion (list DnsRecord);
  write : list Request -> Request -> Completion Written
}.

(** The fields of the provider instance and the requests sent. *)
Record State := {
  credentials : Value;
  dnsZoneId : Value;
  history : list Request
}.

(** The instance as the constructor leaves it. *)
Definition fresh : State :=
  {| credentials := VNull; dnsZoneId := VNull; history := [] |}.

Definition send {A} (answer : list Request -> Request -> Completion A)
           (req : Request) : M State A :=
  fun st =>
    Some (answer (history st) req,
          {| credentials := credentials st; dnsZoneId := dnsZoneId st;
             history := history st ++ [req] |}).

Definition set_zone (id : Value) : M State unit :=
  modify (fun st => {| credentials := credentials st; dnsZoneId := id;
                       history := history st |}).

Definition id_value (id : option string) : Value :=
  match id with
  | Some s => VStr s
  | None => VUndefined
  end.

(** A value inside a template literal. *)
Definition text (v : Value) : string :=
  match v with
  | VUndefined => "undefined"
  | VNull => "null"
  | VBool b => if b then "true" else "false"
  | VNum z => pretty z
  | VStr s => s
  | VObj _ => "[object Object]"
  end.

(** [this.credentials.accessToken] of the request headers *)
Definition accessToken : M State Value :=
  let* creds := gets credentials in
  lift (property creds "accessToken").

Definition getDNSZones (v : Vendor) : M State (list Zone) :=
  let* token := accessToken in
  send (zones v) (ListZones token).

Definition ensureDNSZone (v : Vendor) (domain : string) : M State unit :=
  catch
    (let* all := getDNSZones v in
     match List.find (fun zone => String.eqb (zone_name zone) domain) all with
     | Some existingZone => set_zone (id_value (zone_id existingZone))
     | None =>
         let* token := accessToken in
         let* id := send (new_zone v) (CreateZone token domain) in
         set_zone (id_value id)
     end)
    (fun msg => throw ("Failed to create/find DNS zone: " +:+ msg)).

Definition findExistingRecord (v : Vendor) (subdomain : string)
  : M State (option DnsRecord) :=
  let* zone := gets dnsZoneId in
  if negb (truthy zone) then ret None
  else
    let* token := accessToken in
    let* all := send (records v) (ListRecords token (text zone)) in
    ret (List.find
           (fun record =>
              String.eqb (hostname record) subdomain
              && String.eqb (dns_record_type record) "CNAME")
           all).

Definition createNewRecord (v : Vendor) (subdomain target : string) (ttl : Z)
  : M State RecordResult :=
  let* zone := gets dnsZoneId in
  let* token := accessToken in
  let* data :=
    send (write v)
         (CreateRecord token (text zone) "CNAME" subdomain target ttl) in
  ret {| success := written_status data =? 201;
         recordId := written_id data;
         record_error := written_error data |}.

Definition updateRecord (v : Vendor) (id : option string) (target : string)
           (ttl : Z) : M State RecordResult :=
  let* zone := gets dnsZoneId in
  let* token := accessToken in
  let* data :=
    send (write v)
         (UpdateRecord token (text zone) (text (id_value id)) "CNAME" target
                       ttl) in
  ret {| success := written_status data =? 200;
         recordId := id;
         record_error := written_error data |}.

Definition createRecord (v : Vendor) (args : RecordArgs)
  : M State RecordResult :=
  catch
    (do* ensureDNSZone v (domain args) in
     let* existingRecord := findExistingRecord v (subdomain args) in
     match existingRecord with
     | Some record =>
         updateRecord v (dns_record_id record) (target args) (ttl args)
     | None =>
         createNewRecord v (subdomain args) (target args) (ttl args)
     end)
    (fun msg =>
       ret {| success := false; recordId := None;
              record_error := Some ("Netlify DNS error: " +:+ msg) |}).

End NetlifyDNS.

(* ===================================================================== *)
(** * Vocabulary of the properties *)
(* ===================================================================== *)

Module Spec.
Import JS.

(** ** The dimensions of a comprehensive check, read off what the check
    observed *)

(** A resolver's answer holds the expected target. *)
Definition holds_target (cfg : Verifier.Config)
           (answer : Completion (list string * Z)) : bool :=
  match answer with
  | Normal (addresses, _) => includes addresses (Verifier.target cfg)
  | Throw _ => false
  end.

Definition local_returned_target (cfg : Verifier.Config)
           (p : Verifier.Probes) : bool :=
  holds_target cfg (Verifier.local_cname p).

Definition resolver_returned_target (cfg : Verifier.Config)
           (p : Verifier.Probes) (server : Verifier.DnsServer) : bool :=
  holds_target cfg (Verifier.server_cname p (Verifier.address server)).

(** An online service succeeded: it answered in its format, and one of
    the responses it lists is the expected target. *)
Definition service_saw_target (cfg : Verifier.Config) (p : Verifier.Probes)
           (c : Verifier.Checker) : bool :=
  match c, Verifier.online_get p (Verifier.checker_name c) with
  | Verifier.whatsmydns, Normal (Verifier.ItemArray items) =>
      existsb
        (fun item => String.eqb (Verifier.response item) (Verifier.target cfg))
        items
  | Verifier.google_dns, Normal (Verifier.AnswerObject (Some answers)) =>
      existsb (fun data => String.eqb data (Verifier.target cfg)) answers
  | _, _ => false
  end.

(** The site answered with a status from 200 to 399. *)
Definition site_answered (p : Verifier.Probes) : bool :=
  match Verifier.http_get p with
  | Normal (status, _) => (200 <=? status) && (status <? 400)
  | Throw _ => false
  end.

(** The server presented a certificate that has not expired. *)
Definition certificate_valid (p : Verifier.Probes) : bool :=
  match Verifier.tls p with
  | Verifier.TlsResponse (Some cert) =>
      truthy_string (Verifier.valid_from cert)
      && (Verifier.now p <? Verifier.expiry cert)
  | _ => false
  end.

(** The number of dimensions that hold. *)
Definition holding (dimensions : list bool) : nat :=
  length (List.filter (fun b : bool => b) dimensions).

(** The directions ([true]: to healthy) of the [status_change] alerts
    among the alerts sent, in order. *)
Definition transitions (alerts : list Monitor.Alert) : list bool :=
  flat_map
    (fun a =>
       match Monitor.alert_type a with
       | Monitor.status_change =>
           [Monitor.healthy (Monitor.overall (Monitor.alert_results a))]
       | _ => []
       end)
    alerts.

(** The health flag the monitor compares a new result with. *)
Definition wasHealthy (st : Monitor.State) : bool :=
  match Monitor.lastStatus st with
  | Some previous => Monitor.healthy (Monitor.overall previous)
  | None => false
  end.


(** Under a comparison function [cmp], [x] goes before [y] when
    [cmp x y < 0]; [y] may stand after [x] when it does not go before
    it. *)
Definition before {A} (cmp : A -> A -> Q) (x y : A) : Prop :=
  JS.negative (cmp x y) = true.

Definition ordered {A} (cmp : A -> A -> Q) (x y : A) : Prop :=
  JS.negative (cmp y x) = false.

(** A complete credential set: an object that holds a non-empty string
    under each of the keys the provider reads. *)
Definition complete (keys : list string) (creds : Providers.Value) : bool :=
  match creds with
  | Providers.VObj fields =>
      forallb
        (fun key =>
           match fields !! key with
           | Some (Providers.VStr s) => truthy_string s
           | _ => false
           end)
        keys
  | _ => false
  end.

(** What a credential source yields ([null] when it throws). *)
Definition yield (c : Completion Providers.Value) : Providers.Value :=
  match c with
  | Normal v => v
  | Throw _ => Providers.VNull
  end.

(** The first complete credential set among what the environment and the
    config file yield, in this order. *)
Definition first_complete (keys : list string)
           (from_env from_file : Providers.Value) : option Providers.Value :=
  if complete keys from_env then Some from_env
  else if complete keys from_file then Some from_file
  else None.

(** A provider's [loadCredentials] returns the first complete set among
    what the environment and the config file yield, and throws [err] when
    there is none.  It asks the environment alone when that yields a
    complete set; else, when the file yields one, the sources
    [through_file], which end with the file; else [all] of its sources. *)
Definition loads_first_complete
           (load : list Providers.Source * Completion Providers.Value)
           (keys : list string)
           (from_env from_file : Providers.Value) (err : string)
           (through_file all : list Providers.Source) : Prop :=
  snd load = match first_complete keys from_env from_file with
             | Some creds => Normal creds
             | None => Throw err
             end
  /\ fst load = if complete keys from_env then [Providers.Environment]
                else if complete keys from_file then through_file
                     else all.

(** The number of alerts of a given type among the alerts sent. *)
Definition sent_of_type (type : Monitor.AlertType)
           (alerts : list Monitor.Alert) : nat :=
  length
    (List.filter
       (fun a =>
          match Monitor.alert_type a, type with
          | Monitor.recovery, Monitor.recovery
          | Monitor.failure, Monitor.failure
          | Monitor.status_change, Monitor.status_change => true
          | _, _ => false
          end)
       alerts).

(** Each element differs from the one before it. *)
Fixpoint alternates (previous : bool) (events : list bool) : Prop :=
  match events with
  | [] => True
  | event :: rest => event <> previous /\ alternates event rest
  end.

(** ** Health checks handled in turn *)

(** No check of the monitor is under way. *)
Definition idle (r : Monitor.Running) : bool :=
  forallb (fun task : option Monitor.Suspended =>
             match task with
             | None => true
             | Some _ => false
             end)
          (Monitor.tasks r).

(** The checks are handled in turn: the answers of a check come in only
    when no other check is under way, and at the end none is. *)
Fixpoint in_turn (cfg : Monitor.Config) (events : list Monitor.Event)
         (r : Monitor.Running) : Prop :=
  match events with
  | [] => idle r = true
  | ev :: rest =>
      match ev with
      | Monitor.Completed _ => idle r = true
      | Monitor.Resumed _ => True
      end
      /\ in_turn cfg rest (fst (Monitor.advance cfg ev r))
  end.

(** The observations of the checks, in the order their answers came
    in. *)
Definition observed (events : list Monitor.Event) : list Monitor.Probes :=
  flat_map (fun ev =>
              match ev with
              | Monitor.Completed p => [p]
              | Monitor.Resumed _ => []
              end)
           events.

(** A check that has given way, carried to its end without another
    check in between: at most two awaits remain. *)
Definition finish (task : option Monitor.Suspended) (st : Monitor.State)
  : Monitor.State * list Monitor.Alert :=
  match task with
  | None => (st, [])
  | Some s =>
      let '(s1, st1, alerts1) := Monitor.resume s st in
      match s1 with
      | None => (st1, alerts1)
      | Some s' =>
          let '(_, st2, alerts2) := Monitor.resume s' st1 in
          (st2, alerts1 ++ alerts2)
      end
  end.

(** The one check that may be under way is the latest, and what it
    waits for. *)
Definition latest_only (r : Monitor.Running) : Prop :=
  forall i s,
    Monitor.tasks r !! i = Some (Some s) -> S i = length (Monitor.tasks r).

Definition pending (r : Monitor.Running) : option Monitor.Suspended :=
  match last (Monitor.tasks r) with
  | Some task => task
  | None => None
  end.

(** A check that does not end the polling of [verify]: none, or one
    that did not succeed. *)
Definition quiet (lastCheck : option Verifier.Check) : Prop :=
  match lastCheck with
  | Some check => Verifier.success (Verifier.overall check) = false
  | None => True
  end.

(** The number of failed checks after the last healthy one. *)
Fixpoint trailing_failures (flags : list bool) : nat :=
  match flags with
  | [] => 0
  | flag :: rest =>
      if forallb negb rest
      then (if flag then length rest else S (length rest))
      else trailing_failures rest
  end.

(** ** The create requests of the alternative subdomains *)

(** The keys [PorkbunProvider.createRecord] reads from the credentials
    it holds, when both can be read. *)
Definition porkbun_keys (w : Providers.World)
  : option (Providers.Value * Providers.Value) :=
  match Providers.property (Providers.porkbun_credentials w) "secretKey",
        Providers.property (Providers.porkbun_credentials w) "apiKey" with
  | Normal secretKey, Normal apiKey => Some (secretKey, apiKey)
  | _, _ => None
  end.

(** The request that creates the CNAME record of a subdomain. *)
Definition create_request (cfg : Manager.Config)
           (keys : Providers.Value * Providers.Value) (name : string)
  : Providers.Request :=
  Providers.PorkbunCreate (Manager.domain cfg) (fst keys) (snd keys) name
                          "CNAME" (Manager.target cfg) (Manager.ttl cfg).

(** Porkbun accepts a create request: it answers, and with the status
    [SUCCESS]. *)
Definition accepted (e : Providers.Env) (history : list Providers.Request)
           (req : Providers.Request) : bool :=
  match Providers.porkbun_create e history req with
  | Providers.PostResponse data =>
      String.eqb (Providers.create_status data) "SUCCESS"
  | Providers.PostError _ _ => false
  end.

(** Asked for each of the names in turn, Porkbun accepts none. *)
Definition all_refused (e : Providers.Env) (cfg : Manager.Config)
           (keys : Providers.Value * Providers.Value)
           (history : list Providers.Request) (names : list string) : Prop :=
  forall before name after,
    names = before ++ name :: after ->
    accepted e (history ++ map (create_request cfg keys) before)
             (create_request cfg keys name)
    = false.

(** A computation that leaves the monitoring flag as it found it. *)
Definition keeps_monitoring {A} (m : M Providers.World A) : Prop :=
  forall w,
    match m w with
    | Some (_, w') => Providers.isMonitoring w' = Providers.isMonitoring w
    | None => True
    end.

(** A backup strategy: it leaves the monitoring flag alone and names no
    provider in its result. *)
Definition backup_step (strategy : M Providers.World Manager.Outcome)
  : Prop :=
  forall w,
    match strategy w with
    | Some (outcome, w') =>
        Providers.isMonitoring w' = Providers.isMonitoring w
        /\ match outcome with
           | Normal o => Manager.provider o = None
           | Throw _ => True
           end
    | None => True
    end.

End Spec.

(* ===================================================================== *)
(** * Concrete observations *)
(* ===================================================================== *)

Module Samples.
Import JS.

Definition monitor_config : Monitor.Config :=
  {| Monitor.domain := "candlefish.ai";
     Monitor.subdomain := "fogg";
     Monitor.target := "fogg-calendar.netlify.app";
     Monitor.checkInterval := 60000;
     Monitor.alertThreshold := 3;
     Monitor.retryInterval := 30000 |}.

(** Everything answers as configured. *)
Definition monitor_up : Monitor.Probes :=
  {| Monitor.checkId := "9f1c2d3e";
     Monitor.timestamp := "2025-01-01T00:00:00.000Z";
     Monitor.now := 1735689600000;
     Monitor.default_cname := Normal ["fogg-calendar.netlify.app"];
     Monitor.server_cname := fun _ => Normal ["fogg-calendar.netlify.app"];
     Monitor.http_get := Normal (200, 120);
     Monitor.tls :=
       Monitor.TlsResponse
         (Some {| Monitor.valid_from := "Dec  1 00:00:00 2024 GMT";
                  Monitor.valid_to := "Mar  1 00:00:00 2025 GMT";
                  Monitor.issuerCN := "R3";
                  Monitor.expiry := 1740787200000 |});
     Monitor.doh_get :=
       fun _ =>
         Normal (Some [{| Monitor.answer_type := 5;
                          Monitor.answer_data :=
                            "fogg-calendar.netlify.app" |}]) |}.

(** Nothing answers. *)
Definition monitor_down : Monitor.Probes :=
  {| Monitor.checkId := "0a0b0c0d";
     Monitor.timestamp := "2025-01-01T00:01:00.000Z";
     Monitor.now := 1735689660000;
     Monitor.default_cname := Throw "queryCname ENOTFOUND fogg.candlefish.ai";
     Monitor.server_cname := fun _ => Throw "Timeout";
     Monitor.http_get := Throw "getaddrinfo ENOTFOUND fogg.candlefish.ai";
     Monitor.tls := Monitor.TlsError "getaddrinfo ENOTFOUND fogg.candlefish.ai";
     Monitor.doh_get := fun _ => Throw "timeout of 5000ms exceeded" |}.

Definition optimizer_config : Optimizer.Config :=
  {| Optimizer.domain := "candlefish.ai";
     Optimizer.subdomain := "fogg";
     Optimizer.primaryUrl := "https://fogg-calendar.netlify.app" |}.

Definition netlify_endpoint : Optimizer.Endpoint :=
  {| Optimizer.endpoint_name := "Netlify";
     Optimizer.endpoint_url := "https://fogg-calendar.netlify.app";
     Optimizer.endpoint_priority := 1 |}.

Definition cloudflare_endpoint : Optimizer.Endpoint :=
  {| Optimizer.endpoint_name := "Cloudflare";
     Optimizer.endpoint_url := "https://fogg.candlefish.ai";
     Optimizer.endpoint_priority := 2 |}.

Definition direct_endpoint : Optimizer.Endpoint :=
  {| Optimizer.endpoint_name := "Direct";
     Optimizer.endpoint_url := "https://candlefish.ai/fogg";
     Optimizer.endpoint_priority := 3 |}.

(** Netlify answers 200 in 180.5 ms, the subdomain does not resolve, the
    redirect answers 301 in 95.25 ms. *)
Definition cdn_probes : list (Optimizer.Endpoint * Completion (Z * Q)) :=
  [ (netlify_endpoint, Normal (200, 361 # 2));
    (cloudflare_endpoint, Throw "getaddrinfo ENOTFOUND fogg.candlefish.ai");
    (direct_endpoint, Normal (301, 381 # 4)) ].

Definition verifier_config : Verifier.Config :=
  {| Verifier.domain := "candlefish.ai";
     Verifier.subdomain := "fogg";
     Verifier.target := "fogg-calendar.netlify.app";
     Verifier.timeout := 5000;
     Verifier.checkInterval := 10000 |}.

(** The record does not exist: no resolver knows the name and nothing
    answers under it.  A check takes 1.2 s. *)
Definition verifier_down : Verifier.Probes :=
  {| Verifier.timestamp := "2025-01-01T00:00:00.000Z";
     Verifier.now := 1735689600000;
     Verifier.duration := 1200;
     Verifier.local_cname := Throw "queryCname ENOTFOUND fogg.candlefish.ai";
     Verifier.server_cname :=
       fun _ => Throw "queryCname ENOTFOUND fogg.candlefish.ai";
     Verifier.online_get := fun _ => Throw "Request failed with status code 403";
     Verifier.http_get := Throw "getaddrinfo ENOTFOUND fogg.candlefish.ai";
     Verifier.tls := Verifier.TlsError "getaddrinfo ENOTFOUND fogg.candlefish.ai";
     Verifier.bench_dns := Throw "queryCname ENOTFOUND fogg.candlefish.ai";
     Verifier.bench_http := Throw "getaddrinfo ENOTFOUND fogg.candlefish.ai" |}.

(** A run started as [node dns-verifier.js candlefish.ai fogg
    fogg-calendar.netlify.app 5000] while the record is missing; the
    report file can be written. *)
Definition verifier_env : Verifier.Env :=
  {| Verifier.startTime := 1735689600000;
     Verifier.initial_probes := verifier_down;
     Verifier.tick_probes := fun _ => verifier_down;
     Verifier.write_report := Normal tt |}.

(** The same run with a deadline of 30 s and checks every 10 s. *)
Definition patient_config : Verifier.Config :=
  {| Verifier.domain := "candlefish.ai";
     Verifier.subdomain := "fogg";
     Verifier.target := "fogg-calendar.netlify.app";
     Verifier.timeout := 30000;
     Verifier.checkInterval := 10000 |}.

(** No credentials in the environment; a complete credential file for
    Porkbun. *)
Definition file_only : Providers.Env :=
  {| Providers.process_env := ∅;
     Providers.read_json :=
       fun path =>
         if String.eqb path "config/porkbun-creds.json"
         then Some (Providers.VObj
                      {[ "apiKey" := Providers.VStr "pk1_4f2a";
                         "secretKey" := Providers.VStr "sk1_9c7e" ]})
         else None;
     Providers.write_file := fun _ => Normal tt;
     Providers.porkbun_ping :=
       fun _ _ => Throw "Request failed with status code 403";
     Providers.porkbun_create :=
       fun _ _ =>
         Providers.PostError "Request failed with status code 403" None;
     Providers.cloudflare_verify := fun _ _ => Throw "timeout of 10000ms exceeded";
     Providers.cloudflare_zones := fun _ _ => Throw "timeout of 10000ms exceeded";
     Providers.cloudflare_records := fun _ _ => Throw "timeout of 10000ms exceeded";
     Providers.cloudflare_write := fun _ _ => Throw "timeout of 10000ms exceeded";
     Providers.netlify_user := fun _ _ => Throw "timeout of 10000ms exceeded";
     Providers.resolveCname := fun _ => (Throw "queryCname ENOTFOUND", 40%N);
     Providers.http_get := fun _ => (Throw "getaddrinfo ENOTFOUND", 40%N) |}.

(** The same, but the credential file lacks the secret key. *)
Definition file_incomplete : Providers.Env :=
  {| Providers.process_env := Providers.process_env file_only;
     Providers.read_json :=
       fun path =>
         if String.eqb path "config/porkbun-creds.json"
         then Some (Providers.VObj {[ "apiKey" := Providers.VStr "pk1_4f2a" ]})
         else None;
     Providers.write_file := Providers.write_file file_only;
     Providers.porkbun_ping := Providers.porkbun_ping file_only;
     Providers.porkbun_create := Providers.porkbun_create file_only;
     Providers.cloudflare_verify := Providers.cloudflare_verify file_only;
     Providers.cloudflare_zones := Providers.cloudflare_zones file_only;
     Providers.cloudflare_records := Providers.cloudflare_records file_only;
     Providers.cloudflare_write := Providers.cloudflare_write file_only;
     Providers.netlify_user := Providers.netlify_user file_only;
     Providers.resolveCname := Providers.resolveCname file_only;
     Providers.http_get := Providers.http_get file_only |}.

(** A Porkbun account that accepts every create request and numbers the
    records it creates. *)
Definition is_create (req : Providers.Request) : bool :=
  match req with
  | Providers.PorkbunCreate _ _ _ _ _ _ _ => true
  | _ => false
  end.

Definition porkbun_accepts : Providers.Env :=
  {| Providers.process_env :=
       {[ "PORKBUN_API_KEY" := "pk1_4f2a";
          "PORKBUN_SECRET_KEY" := "sk1_9c7e" ]};
     Providers.read_json := fun _ => None;
     Providers.write_file := fun _ => Normal tt;
     Providers.porkbun_ping :=
       fun _ _ => Normal {| Providers.ping_status := "SUCCESS";
                            Providers.ping_message := None |};
     Providers.porkbun_create :=
       fun history _ =>
         Providers.PostResponse
           {| Providers.create_status := "SUCCESS";
              Providers.create_id :=
                Some (pretty (Z.of_nat
                                (S (length (List.filter is_create history)))));
              Providers.create_message := None |};
     Providers.cloudflare_verify := fun _ _ => Throw "timeout of 10000ms exceeded";
     Providers.cloudflare_zones := fun _ _ => Throw "timeout of 10000ms exceeded";
     Providers.cloudflare_records := fun _ _ => Throw "timeout of 10000ms exceeded";
     Providers.cloudflare_write := fun _ _ => Throw "timeout of 10000ms exceeded";
     Providers.netlify_user := fun _ _ => Throw "timeout of 10000ms exceeded";
     Providers.resolveCname :=
       fun _ => (Normal ["fogg-calendar.netlify.app"], 40%N);
     Providers.http_get := fun _ => (Normal 200, 150%N) |}.

Definition fogg_record : Providers.RecordArgs :=
  {| Providers.domain := "candlefish.ai";
     Providers.subdomain := "fogg";
     Providers.target := "fogg-calendar.netlify.app";
     Providers.ttl := 300 |}.

(** The record exists and everything answers.  A check takes 0.9 s. *)
Definition verifier_up : Verifier.Probes :=
  {| Verifier.timestamp := "2025-01-01T00:00:00.000Z";
     Verifier.now := 1735689600000;
     Verifier.duration := 900;
     Verifier.local_cname := Normal (["fogg-calendar.netlify.app"], 12);
     Verifier.server_cname :=
       fun _ => Normal (["fogg-calendar.netlify.app"], 30);
     Verifier.online_get :=
       fun _ => Normal (Verifier.AnswerObject
                          (Some ["fogg-calendar.netlify.app"]));
     Verifier.http_get := Normal (200, 140);
     Verifier.tls :=
       Verifier.TlsResponse
         (Some {| Verifier.valid_from := "Dec  1 00:00:00 2024 GMT";
                  Verifier.valid_to := "Mar  1 00:00:00 2025 GMT";
                  Verifier.issuerCN := "R3";
                  Verifier.expiry := 1740787200000 |});
     Verifier.bench_dns := Normal 12;
     Verifier.bench_http := Normal 140 |}.

(** A run started when the record already works. *)
Definition working_env : Verifier.Env :=
  {| Verifier.startTime := 1735689600000;
     Verifier.initial_probes := verifier_up;
     Verifier.tick_probes := fun _ => verifier_up;
     Verifier.write_report := Normal tt |}.

(** Everything answers, but the certificate expired ten days ago. *)
Definition monitor_expired : Monitor.Probes :=
  {| Monitor.checkId := "5e6f7a8b";
     Monitor.timestamp := "2025-03-11T00:00:00.000Z";
     Monitor.now := 1741651200000;
     Monitor.default_cname := Normal ["fogg-calendar.netlify.app"];
     Monitor.server_cname := fun _ => Normal ["fogg-calendar.netlify.app"];
     Monitor.http_get := Throw "certificate has expired";
     Monitor.tls :=
       Monitor.TlsResponse
         (Some {| Monitor.valid_from := "Dec  1 00:00:00 2024 GMT";
                  Monitor.valid_to := "Mar  1 00:00:00 2025 GMT";
                  Monitor.issuerCN := "R3";
                  Monitor.expiry := 1740787200000 |});
     Monitor.doh_get :=
       fun _ =>
         Normal (Some [{| Monitor.answer_type := 5;
                          Monitor.answer_data :=
                            "fogg-calendar.netlify.app" |}]) |}.

(** The default resolver answers as configured while none of the four
    public resolvers answers in time. *)
Definition monitor_resolvers_down : Monitor.Probes :=
  {| Monitor.checkId := "1b2c3d4e";
     Monitor.timestamp := "2025-01-01T00:02:00.000Z";
     Monitor.now := 1735689720000;
     Monitor.default_cname := Normal ["fogg-calendar.netlify.app"];
     Monitor.server_cname := fun _ => Throw "Timeout";
     Monitor.http_get := Normal (200, 120);
     Monitor.tls := Monitor.tls monitor_up;
     Monitor.doh_get := Monitor.doh_get monitor_up |}.

(** A Cloudflare account that manages the domain as zone [z-4c1d],
    holds a CNAME record for the subdomain, and accepts every write. *)
Definition cloudflare_account : Providers.Env :=
  {| Providers.process_env := {[ "CLOUDFLARE_API_TOKEN" := "cf_7d1e" ]};
     Providers.read_json := fun _ => None;
     Providers.write_file := fun _ => Normal tt;
     Providers.porkbun_ping :=
       fun _ _ => Throw "Request failed with status code 403";
     Providers.porkbun_create :=
       fun _ _ =>
         Providers.PostError "Request failed with status code 403" None;
     Providers.cloudflare_verify :=
       fun _ _ => Normal {| Providers.verify_success := true;
                            Providers.verify_errors := [] |};
     Providers.cloudflare_zones :=
       fun _ _ => Normal {| Providers.zones_success := true;
                            Providers.zones_result := ["z-4c1d"] |};
     Providers.cloudflare_records :=
       fun _ _ =>
         Normal {| Providers.records_success := true;
                   Providers.records_result :=
                     [{| Providers.record_id := "r-81aa";
                         Providers.record_name := "fogg";
                         Providers.record_content := "old-site.netlify.app";
                         Providers.record_ttl := 300 |}] |};
     Providers.cloudflare_write :=
       fun _ _ => Normal {| Providers.write_success := true;
                            Providers.write_result := Some "r-81aa";
                            Providers.write_errors := [] |};
     Providers.netlify_user := fun _ _ => Throw "timeout of 10000ms exceeded";
     Providers.resolveCname :=
       fun _ => (Normal ["fogg-calendar.netlify.app"], 40%N);
     Providers.http_get := fun _ => (Normal 200, 150%N) |}.

(** The provider after its health check loaded the token; the zone is
    not yet known. *)
Definition cloudflare_ready : Providers.World :=
  Providers.set_cloudflare_credentials
    (Providers.VObj {[ "apiToken" := Providers.VStr "cf_7d1e" ]})
    Providers.fresh.

(** A Netlify account without a DNS zone for the domain: it creates the
    zone when asked, holds no record, and accepts every write. *)
Definition netlify_account : NetlifyDNS.Vendor :=
  {| NetlifyDNS.zones := fun _ _ => Normal [];
     NetlifyDNS.new_zone := fun _ _ => Normal (Some "zn-52e0");
     NetlifyDNS.records := fun _ _ => Normal [];
     NetlifyDNS.write :=
       fun _ _ => Normal {| NetlifyDNS.written_status := 201;
                            NetlifyDNS.written_id := Some "rc-07b3";
                            NetlifyDNS.written_error := None |} |}.

(** The provider after its health check loaded the token. *)
Definition netlify_ready : NetlifyDNS.State :=
  {| NetlifyDNS.credentials :=
       Providers.VObj {[ "accessToken" := Providers.VStr "nf_19c4" ]};
     NetlifyDNS.dnsZoneId := Providers.VNull;
     NetlifyDNS.history := [] |}.

(** A failed check and then a healthy one, handled in turn: the second
    gives way twice, at its recovery alert and at its status change. *)
Definition checks_in_turn : list Monitor.Event :=
  [Monitor.Completed monitor_down; Monitor.Resumed 0;
   Monitor.Completed monitor_up; Monitor.Resumed 1; Monitor.Resumed 1].

End Samples.

(* ===================================================================== *)
(** * Properties of the JavaScript fragment *)
(* ===================================================================== *)

Lemma slice_last_length {A} (n : nat) (l : list A) :
  (length (JS.slice_last n l) <= n)%nat.
Proof. unfold JS.slice_last. rewrite length_drop. lia. Qed.

Lemma slice_last_short {A} (n : nat) (l : list A) :
  (length l <= n)%nat -> JS.slice_last n l = l.
Proof.
  intros Hle. unfold JS.slice_last.
  replace (length l - n)%nat with 0%nat by lia. reflexivity.
Qed.

(** Pruning after a push keeps the pushed entry. *)
Lemma slice_last_snoc {A} (n : nat) (l : list A) (x : A) :
  (0 < n)%nat -> last (JS.slice_last n (l ++ [x])) = Some x.
Proof.
  intros Hn. unfold JS.slice_last. rewrite length_app. simpl.
  rewrite drop_app_le by lia. apply last_snoc.
Qed.

(** For a positive divisor, [a / b >= 1/2] compares [b] with [2 a]. *)
Lemma half_quorum (a b : Z) :
  0 < b -> JS.ge (JS.div a b) (1 # 2) = (b <=? 2 * a).
Proof.
  intros Hb. unfold JS.div.
  destruct (Z.eqb_spec b 0) as [->|_]; [lia|].
  unfold JS.ge.
  destruct b as [|b|b]; try lia.
  apply eq_true_iff_eq. rewrite Qle_bool_iff, Z.leb_le.
  unfold Qle, Qdiv, Qmult, Qinv, inject_Z. simpl. lia.
Qed.

Lemma some_counted {A} (f : A -> bool) (l : list A) :
  (0 <? Z.of_nat (length (List.filter f l))) = existsb f l.
Proof.
  induction l as [|x l IH]; [reflexivity|].
  simpl. destruct (f x); simpl; [|exact IH].
  apply Z.ltb_lt. lia.
Qed.

(* ===================================================================== *)
(** * dns-monitor.js *)
(* ===================================================================== *)

(** C10.  The monitor reports a healthy check exactly when at least three
    of its four dimensions (DNS resolution, HTTP access, SSL certificate,
    DNS propagation) succeed, which is when the score reaches 75% of the
    maximum score of four; the reported percentage is
    [round (score / 4 * 100)], that is 25 per successful dimension. *)
Theorem calculateOverallHealth_three_of_four
        (d : Monitor.DnsResult) (h : Monitor.HttpResult)
        (s : Monitor.SslResult) (pr : Monitor.PropagationResult) :
  let o := Monitor.calculateOverallHealth d h s pr in
  let dimensions :=
    [Monitor.dns_success d; Monitor.http_success h;
     Monitor.ssl_success s; Monitor.propagation_success pr] in
  Monitor.maxScore o = 4
  /\ Monitor.score o = Z.of_nat (Spec.holding dimensions)
  /\ (Monitor.healthy o = true <-> (3 <= Spec.holding dimensions)%nat)
  /\ (Monitor.healthy o = true
      <-> 75 * Monitor.maxScore o <= 100 * Monitor.score o)
  /\ Monitor.percentage o
     = JS.Math_round (inject_Z (Monitor.score o) / 4 * 100)
  /\ Monitor.percentage o = 25 * Monitor.score o.
Proof.
  destruct d as [[] ? ?], h as [[] ? ? ?], s as [[] ? ? ? ? ?],
           pr as [[] ? ?];
    cbv [Monitor.calculateOverallHealth Monitor.maxScore Monitor.score
         Monitor.healthy Monitor.percentage Monitor.dns_success
         Monitor.http_success Monitor.ssl_success
         Monitor.propagation_success Monitor.score_of Spec.holding];
    simpl;
    (split; [reflexivity|]); (split; [reflexivity|]);
    (split; [split; intros; (lia || reflexivity || discriminate)|]);
    (split; [split; intros; (lia || reflexivity || discriminate)|]);
    split; reflexivity.
Qed.

(** The status handler leaves the history alone. *)
Lemma handleStatusChange_checks cfg results st :
  Monitor.checks (fst (Monitor.handleStatusChange cfg results st))
  = Monitor.checks st.
Proof.
  unfold Monitor.handleStatusChange.
  destruct (Monitor.healthy (Monitor.overall results)); reflexivity.
Qed.

Lemma keepRecentChecks_checks st :
  Monitor.checks (Monitor.keepRecentChecks st)
  = JS.slice_last 100 (Monitor.checks st).
Proof.
  unfold Monitor.keepRecentChecks.
  destruct (Nat.ltb_spec 100 (length (Monitor.checks st))) as [Hgt|Hle].
  - reflexivity.
  - symmetry. apply slice_last_short. exact Hle.
Qed.

Lemma performHealthCheck_checks cfg p st :
  Monitor.checks (snd (fst (Monitor.performHealthCheck cfg p st)))
  = JS.slice_last 100 (Monitor.checks st ++ [Monitor.check_results cfg p]).
Proof.
  unfold Monitor.performHealthCheck.
  pose proof (handleStatusChange_checks cfg (Monitor.check_results cfg p)
                (Monitor.keepRecentChecks
                   (Monitor.push (Monitor.check_results cfg p) st))) as H.
  destruct (Monitor.handleStatusChange cfg (Monitor.check_results cfg p)
              (Monitor.keepRecentChecks
                 (Monitor.push (Monitor.check_results cfg p) st)))
    as [st2 alerts].
  simpl in *. rewrite H. apply keepRecentChecks_checks.
Qed.

Lemma logCheck_checks type ok data w :
  exists w',
    Manager.logCheck type ok data w = Some (JS.Normal tt, w')
    /\ Providers.checks w'
       = JS.slice_last 100
           (Providers.checks w
            ++ [{| Providers.check_timestamp := Providers.clock w;
                   Providers.check_type := type;
                   Providers.check_success := ok;
                   Providers.check_data := data |}]).
Proof.
  unfold Manager.logCheck, JS.mbind, JS.gets, JS.modify, JS.ret. simpl.
  match goal with
  | |- context [Nat.ltb 100 (length ?l)] =>
      destruct (Nat.ltb_spec 100 (length l)) as [Hgt|Hle]
  end.
  - eexists. split; [reflexivity|]. reflexivity.
  - eexists. split; [reflexivity|]. simpl.
    symmetry. apply slice_last_short. exact Hle.
Qed.

(** C8.  Both in-memory histories ([DNSMonitor.checks], maintained by
    [performHealthCheck] with [keepRecentChecks], and
    [DNSMonitoring.checks], maintained by [logCheck]) are append-only up
    to pruning: after a check the history is the old history with the new
    entry added at the end, less a prefix of its oldest entries and
    nothing else; it holds at most 100 entries, exactly the most recent
    ones, the new entry last. *)
Theorem history_append_only_bounded :
  (forall cfg p st,
      let old := Monitor.checks st in
      let entry := Monitor.check_results cfg p in
      let new :=
        Monitor.checks (snd (fst (Monitor.performHealthCheck cfg p st))) in
      new = drop (length old + 1 - 100)%nat (old ++ [entry])
      /\ (length new <= 100)%nat
      /\ length new = Nat.min 100 (length old + 1)
      /\ last new = Some entry)
  /\ (forall type ok data w,
         exists w',
           Manager.logCheck type ok data w = Some (JS.Normal tt, w')
           /\ let old := Providers.checks w in
              let entry :=
                {| Providers.check_timestamp := Providers.clock w;
                   Providers.check_type := type;
                   Providers.check_success := ok;
                   Providers.check_data := data |} in
              let new := Providers.checks w' in
              new = drop (length old + 1 - 100)%nat (old ++ [entry])
              /\ (length new <= 100)%nat
              /\ length new = Nat.min 100 (length old + 1)
              /\ last new = Some entry).
Proof.
  assert (shape : forall (A : Type) (old : list A) (entry : A),
             let new := JS.slice_last 100 (old ++ [entry]) in
             new = drop (length old + 1 - 100)%nat (old ++ [entry])
             /\ (length new <= 100)%nat
             /\ length new = Nat.min 100 (length old + 1)
             /\ last new = Some entry).
  { intros A old entry new. subst new. repeat split.
    - unfold JS.slice_last. rewrite length_app. reflexivity.
    - apply slice_last_length.
    - unfold JS.slice_last. rewrite length_drop, !length_app.
      change (length [entry]) with 1%nat. lia.
    - apply slice_last_snoc. lia. }
  split.
  - intros cfg p st old entry new. subst new.
    rewrite performHealthCheck_checks. apply shape.
  - intros type ok data w.
    destruct (logCheck_checks type ok data w) as [w' [Hrun Hchecks]].
    exists w'. split; [exact Hrun|].
    cbv zeta. rewrite Hchecks. apply shape.
Qed.






(** ** Checks handled in turn amount to checks handled one after
    another *)

(** [handleStatusChange] is its entry followed by what remains. *)
Lemma enter_finish cfg results st :
  let '(s, st1, alerts) := Monitor.enter cfg results st in
  let '(st2, more) := Spec.finish s st1 in
  Monitor.handleStatusChange cfg results st = (st2, alerts ++ more).
Proof.
  unfold Monitor.enter, Monitor.handleStatusChange, Spec.finish,
    Monitor.resume, Monitor.detect_change.
  destruct st as [running failures [previous|] history];
    cbn [Monitor.lastStatus Monitor.consecutiveFailures Monitor.isRunning
         Monitor.checks Monitor.set_consecutiveFailures
         Monitor.set_lastStatus];
    destruct (Monitor.healthy (Monitor.overall results)) eqn:Hnew;
    try destruct (Monitor.healthy (Monitor.overall previous));
    try destruct (0 <? failures);
    try destruct (Monitor.alertThreshold cfg <=? failures + 1);
    cbn; rewrite ?Hnew; cbn; reflexivity.
Qed.

(** What remains of a check is its next stretch followed by what
    remains then. *)
Lemma resume_finish s st :
  let '(s1, st1, alerts) := Monitor.resume s st in
  let '(st2, more) := Spec.finish s1 st1 in
  Spec.finish (Some s) st = (st2, alerts ++ more).
Proof.
  unfold Spec.finish.
  destruct s as [results wasHealthy|results];
    unfold Monitor.resume, Monitor.detect_change.
  - destruct (eqb wasHealthy (Monitor.healthy (Monitor.overall results)));
      cbn; rewrite ?app_nil_r; reflexivity.
  - cbn. reflexivity.
Qed.

Lemma idle_lookup (r : Monitor.Running) i s :
  Spec.idle r = true -> Monitor.tasks r !! i = Some (Some s) -> False.
Proof.
  unfold Spec.idle. rewrite forallb_forall. intros Hall Hi.
  apply list_elem_of_lookup_2, list_elem_of_In in Hi.
  specialize (Hall _ Hi). discriminate.
Qed.

Lemma idle_pending (r : Monitor.Running) :
  Spec.idle r = true -> Spec.pending r = None.
Proof.
  intros Hidle. unfold Spec.pending.
  destruct (last (Monitor.tasks r)) as [[s|]|] eqn:Hlast; try reflexivity.
  rewrite last_lookup in Hlast.
  destruct (idle_lookup r _ s Hidle Hlast).
Qed.

Lemma in_turn_run cfg (events : list Monitor.Event) :
  forall r,
    Spec.latest_only r ->
    Spec.in_turn cfg events r ->
    let '(st0, alerts0) := Spec.finish (Spec.pending r)
                                       (Monitor.monitor_state r) in
    Monitor.monitor_state (fst (Monitor.interleaved cfg events r))
    = fst (Monitor.run cfg (Spec.observed events) st0)
    /\ snd (Monitor.interleaved cfg events r)
       = alerts0 ++ snd (Monitor.run cfg (Spec.observed events) st0).
Proof.
  induction events as [|ev rest IH]; intros r Hlatest Hturn.
  - cbn in Hturn. rewrite (idle_pending r Hturn). cbn. split; reflexivity.
  - destruct Hturn as [Hev Hrest].
    destruct ev as [p|i].
    + rewrite (idle_pending r Hev). cbn [Spec.finish].
      change (Spec.observed (Monitor.Completed p :: rest))
        with (p :: Spec.observed rest).
      cbn [Monitor.interleaved Monitor.run].
      cbn [Monitor.advance] in Hrest |- *.
      unfold Monitor.performHealthCheck.
      pose proof (enter_finish
                    cfg (Monitor.check_results cfg p)
                    (Monitor.keepRecentChecks
                       (Monitor.push (Monitor.check_results cfg p)
                                     (Monitor.monitor_state r)))) as Henter.
      destruct (Monitor.enter _ _ _) as [[s st2] alerts].
      cbn [fst] in Hrest.
      specialize (IH {| Monitor.monitor_state := st2;
                        Monitor.tasks := Monitor.tasks r ++ [s] |}).
      assert (Hlatest1 :
                Spec.latest_only
                  {| Monitor.monitor_state := st2;
                     Monitor.tasks := Monitor.tasks r ++ [s] |}).
      { intros j x. cbn [Monitor.tasks]. rewrite length_app. cbn [length].
        intros Hj. apply lookup_snoc_Some in Hj.
        destruct Hj as [[_ Hj]|[-> _]]; [|lia].
        destruct (idle_lookup r j x Hev Hj). }
      specialize (IH Hlatest1 Hrest).
      unfold Spec.pending in IH. cbn [Monitor.tasks Monitor.monitor_state] in IH.
      rewrite last_snoc in IH.
      destruct (Spec.finish s st2) as [st3 more].
      rewrite Henter.
      destruct (Monitor.interleaved cfg rest _) as [r2 sent].
      destruct (Monitor.run cfg (Spec.observed rest) st3) as [st4 later].
      cbn [fst snd] in *. destruct IH as [-> ->].
      split; [reflexivity|]. rewrite <- app_assoc. reflexivity.
    + change (Spec.observed (Monitor.Resumed i :: rest))
        with (Spec.observed rest).
      cbn [Monitor.interleaved].
      cbn [Monitor.advance] in Hrest |- *.
      destruct (Monitor.tasks r !! i) as [[s|]|] eqn:Hi.
      * pose proof (Hlatest i s Hi) as Hlast.
        assert (Hpending : Spec.pending r = Some s).
        { unfold Spec.pending. rewrite last_lookup.
          replace (Init.Nat.pred (length (Monitor.tasks r))) with i by lia.
          rewrite Hi. reflexivity. }
        rewrite Hpending.
        pose proof (resume_finish s (Monitor.monitor_state r)) as Hresume.
        destruct (Monitor.resume s (Monitor.monitor_state r))
          as [[s1 st1] alerts].
        cbn [fst] in Hrest.
        specialize (IH {| Monitor.monitor_state := st1;
                          Monitor.tasks := <[i := s1]> (Monitor.tasks r) |}).
        assert (Hlatest1 :
                  Spec.latest_only
                    {| Monitor.monitor_state := st1;
                       Monitor.tasks := <[i := s1]> (Monitor.tasks r) |}).
        { intros j x. cbn [Monitor.tasks]. rewrite length_insert.
          destruct (Nat.eq_dec i j) as [<-|Hne]; [intros _; exact Hlast|].
          rewrite list_lookup_insert_ne by exact Hne. apply Hlatest. }
        specialize (IH Hlatest1 Hrest).
        unfold Spec.pending in IH.
        cbn [Monitor.tasks Monitor.monitor_state] in IH.
        rewrite last_lookup, length_insert in IH.
        replace (Init.Nat.pred (length (Monitor.tasks r))) with i in IH by lia.
        rewrite list_lookup_insert_eq in IH by lia.
        destruct (Spec.finish s1 st1) as [st2 more].
        rewrite Hresume.
        destruct (Monitor.interleaved cfg rest _) as [r2 sent].
        destruct (Monitor.run cfg (Spec.observed rest) st2) as [st3 later].
        cbn [fst snd] in *. destruct IH as [-> ->].
        split; [reflexivity|]. rewrite <- app_assoc. reflexivity.
      * cbn [fst] in Hrest. specialize (IH r Hlatest Hrest).
        destruct (Spec.finish (Spec.pending r) (Monitor.monitor_state r))
          as [st0 alerts0].
        destruct (Monitor.interleaved cfg rest r) as [r2 sent].
        cbn [fst snd] in *. exact IH.
      * cbn [fst] in Hrest. specialize (IH r Hlatest Hrest).
        destruct (Spec.finish (Spec.pending r) (Monitor.monitor_state r))
          as [st0 alerts0].
        destruct (Monitor.interleaved cfg rest r) as [r2 sent].
        cbn [fst snd] in *. exact IH.
Qed.

(** From the start of a run: checks handled in turn leave the state and
    send the alerts of the same checks handled one after another. *)
Lemma in_turn_from_start cfg (events : list Monitor.Event) st :
  Spec.in_turn cfg events (Monitor.started st) ->
  Monitor.monitor_state
    (fst (Monitor.interleaved cfg events (Monitor.started st)))
  = fst (Monitor.run cfg (Spec.observed events) st)
  /\ snd (Monitor.interleaved cfg events (Monitor.started st))
     = snd (Monitor.run cfg (Spec.observed events) st).
Proof.
  intros Hturn.
  assert (Hlatest : Spec.latest_only (Monitor.started st)).
  { intros i s Hi. cbn in Hi. discriminate. }
  pose proof (in_turn_run cfg events (Monitor.started st) Hlatest Hturn) as H.
  cbn in H. exact H.
Qed.



(** Without that proviso the property fails.  Two healthy checks whose
    answers come in while the first still awaits its [status_change]
    alert both find no status remembered, and both announce the change
    to healthy: two alerts for one flip, not alternating. *)
Lemma overlap_sends_status_change_twice :
  let events :=
    [Monitor.Completed Samples.monitor_up;
     Monitor.Completed Samples.monitor_up;
     Monitor.Resumed 0; Monitor.Resumed 1] in
  let sent :=
    Spec.transitions
      (snd (Monitor.interleaved Samples.monitor_config events
                                (Monitor.started Monitor.initial))) in
  sent = [true; true]
  /\ ~ Spec.alternates false sent
  /\ ~ Spec.in_turn Samples.monitor_config events
                    (Monitor.started Monitor.initial).
Proof.
  cbv zeta. split; [vm_compute; reflexivity|]. split.
  - vm_compute. intros [_ [H _]]. apply H. reflexivity.
  - vm_compute. intros (_ & Hidle & _). discriminate.
Qed.


(* ===================================================================== *)
(** * dns-verifier.js *)
(* ===================================================================== *)

Lemma holding_values (d : Verifier.Details) :
  length (List.filter (fun b : bool => b) (Verifier.values d))
  = Spec.holding (Verifier.values d).
Proof. reflexivity. Qed.

(** The resolver dimension of a comprehensive check: the division of the
    success count by the number of servers reaches one half exactly when
    twice the count reaches the number of servers. *)
Lemma servers_dimension cfg p :
  let polled := Verifier.server_checks (Verifier.checkDNSServers cfg p) in
  let answered := List.filter Verifier.server_success polled in
  JS.ge (JS.div (Verifier.servers_successCount (Verifier.checkDNSServers cfg p))
                (Verifier.servers_totalCount (Verifier.checkDNSServers cfg p)))
        (1 # 2)
  = (length polled <=? 2 * length answered)%nat.
Proof.
  cbv zeta. unfold Verifier.checkDNSServers.
  cbn [Verifier.servers_successCount Verifier.servers_totalCount
       Verifier.server_checks].
  rewrite half_quorum.
  - apply eq_true_iff_eq. rewrite Z.leb_le, Nat.leb_le. lia.
  - rewrite length_map. simpl. lia.
Qed.

(** The five flags [calculateOverallSuccess] counts, in terms of the
    results of the five checks. *)
Lemma overall_success_flags cfg (p : Verifier.Probes) :
  let check := Verifier.performComprehensiveCheck cfg p in
  let m := Verifier.measured check in
  let polled := Verifier.server_checks (Verifier.servers m) in
  let answered := List.filter Verifier.server_success polled in
  let dimensions :=
    [Verifier.local_success (Verifier.local m);
     (length polled <=? 2 * length answered)%nat;
     existsb Verifier.online_success
             (Verifier.online_checks (Verifier.online m));
     Verifier.http_success (Verifier.http m);
     Verifier.ssl_success (Verifier.ssl m)] in
  Verifier.values (Verifier.details (Verifier.overall check)) = dimensions
  /\ length polled = 8%nat
  /\ Verifier.score (Verifier.overall check)
     = Z.of_nat (Spec.holding dimensions)
  /\ (Verifier.success (Verifier.overall check) = true
      <-> (3 <= Spec.holding dimensions)%nat).
Proof.
  cbv zeta.
  unfold Verifier.performComprehensiveCheck.
  cbn [Verifier.measured Verifier.overall Verifier.local Verifier.servers
       Verifier.online Verifier.http Verifier.ssl].
  unfold Verifier.calculateOverallSuccess.
  cbn [Verifier.details Verifier.success Verifier.score Verifier.local
       Verifier.servers Verifier.online Verifier.http Verifier.ssl].
  rewrite holding_values.
  assert (Hvalues :
            Verifier.values
              {| Verifier.details_local :=
                   Verifier.local_success (Verifier.checkLocalDNS cfg p);
                 Verifier.details_servers :=
                   JS.ge (JS.div
                            (Verifier.servers_successCount
                               (Verifier.checkDNSServers cfg p))
                            (Verifier.servers_totalCount
                               (Verifier.checkDNSServers cfg p)))
                         (1 # 2);
                 Verifier.details_online :=
                   0 <? Verifier.online_successCount
                          (Verifier.checkOnlineServices cfg p);
                 Verifier.details_http :=
                   Verifier.http_success (Verifier.checkHTTPAccess p);
                 Verifier.details_ssl :=
                   Verifier.ssl_success (Verifier.checkSSLCertificate p) |}
            = [Verifier.local_success (Verifier.checkLocalDNS cfg p);
               (length (Verifier.server_checks (Verifier.checkDNSServers cfg p))
                <=? 2 * length
                          (List.filter Verifier.server_success
                             (Verifier.server_checks
                                (Verifier.checkDNSServers cfg p))))%nat;
               existsb Verifier.online_success
                       (Verifier.online_checks
                          (Verifier.checkOnlineServices cfg p));
               Verifier.http_success (Verifier.checkHTTPAccess p);
               Verifier.ssl_success (Verifier.checkSSLCertificate p)]).
  { unfold Verifier.values.
    cbn [Verifier.details_local Verifier.details_servers
         Verifier.details_online Verifier.details_http Verifier.details_ssl].
    rewrite servers_dimension.
    unfold Verifier.checkOnlineServices at 1.
    cbn [Verifier.online_successCount].
    rewrite some_counted. reflexivity. }
  rewrite Hvalues.
  split; [reflexivity|].
  split; [reflexivity|].
  split; [reflexivity|].
  rewrite Z.leb_le. lia.
Qed.

(** What the five checks make of their observations. *)
Lemma existsb_map {A B} (holds : B -> bool) (read : A -> B) (xs : list A) :
  existsb holds (map read xs) = existsb (fun x => holds (read x)) xs.
Proof.
  induction xs as [|x rest IH]; [reflexivity|].
  cbn [map existsb]. rewrite IH. reflexivity.
Qed.

Lemma filter_map_length {A B} (holds : B -> bool) (read : A -> B)
      (xs : list A) :
  length (List.filter holds (map read xs))
  = length (List.filter (fun x => holds (read x)) xs).
Proof.
  induction xs as [|x rest IH]; [reflexivity|].
  cbn [map List.filter]. destruct (holds (read x)); cbn [length]; rewrite IH;
    reflexivity.
Qed.

Lemma checkLocalDNS_flag cfg p :
  Verifier.local_success (Verifier.checkLocalDNS cfg p)
  = Spec.local_returned_target cfg p.
Proof.
  unfold Verifier.checkLocalDNS, Spec.local_returned_target, Spec.holds_target.
  destruct (Verifier.local_cname p) as [[addresses elapsed]|msg]; reflexivity.
Qed.

Lemma checkDNSServer_flag cfg p server :
  Verifier.server_success (Verifier.checkDNSServer cfg p server)
  = Spec.resolver_returned_target cfg p server.
Proof.
  unfold Verifier.checkDNSServer, Spec.resolver_returned_target,
    Spec.holds_target.
  destruct (Verifier.server_cname p (Verifier.address server))
    as [[addresses elapsed]|msg]; reflexivity.
Qed.

Lemma checkOnlineService_flag cfg p c :
  Verifier.online_success (Verifier.checkOnlineService cfg p c)
  = Spec.service_saw_target cfg p c.
Proof.
  unfold Verifier.checkOnlineService, Spec.service_saw_target.
  destruct c;
    destruct (Verifier.online_get p _) as [[items|[answers|]| |]|msg];
    cbn; rewrite ?existsb_map; reflexivity.
Qed.

Lemma checkHTTPAccess_flag p :
  Verifier.http_success (Verifier.checkHTTPAccess p) = Spec.site_answered p.
Proof.
  unfold Verifier.checkHTTPAccess, Spec.site_answered.
  destruct (Verifier.http_get p) as [[status elapsed]|msg]; reflexivity.
Qed.

Lemma checkSSLCertificate_flag p :
  Verifier.ssl_success (Verifier.checkSSLCertificate p)
  = Spec.certificate_valid p.
Proof.
  unfold Verifier.checkSSLCertificate, Spec.certificate_valid.
  destruct (Verifier.tls p) as [[cert|]|msg|]; try reflexivity.
  destruct (JS.truthy_string (Verifier.valid_from cert)); reflexivity.
Qed.

(** C1.  For the check that [performComprehensiveCheck] produces from any
    observations, [calculateOverallSuccess] sets [success] exactly when at
    least three of the five dimensions hold.  The dimensions are read off
    the observations: the local resolver returned the expected target;
    at least half of the eight polled resolvers returned the expected
    target (a resolver that failed or timed out did not); at least one
    online service listed the expected target; the site answered with a
    status from 200 to 399; the certificate presented has not expired.
    The flags kept in the check for the resolvers and the services are
    these very facts. *)
Theorem calculateOverallSuccess_quorum cfg (p : Verifier.Probes) :
  let check := Verifier.performComprehensiveCheck cfg p in
  let m := Verifier.measured check in
  let polled := Verifier.server_checks (Verifier.servers m) in
  let agreeing :=
    List.filter (Spec.resolver_returned_target cfg p) Verifier.dnsServers in
  let dimensions :=
    [Spec.local_returned_target cfg p;
     (length Verifier.dnsServers <=? 2 * length agreeing)%nat;
     existsb (Spec.service_saw_target cfg p) Verifier.onlineCheckers;
     Spec.site_answered p;
     Spec.certificate_valid p] in
  Verifier.values (Verifier.details (Verifier.overall check)) = dimensions
  /\ length polled = 8%nat
  /\ length Verifier.dnsServers = 8%nat
  /\ map Verifier.server_success polled
     = map (Spec.resolver_returned_target cfg p) Verifier.dnsServers
  /\ map Verifier.online_success
         (Verifier.online_checks (Verifier.online m))
     = map (Spec.service_saw_target cfg p) Verifier.onlineCheckers
  /\ Verifier.score (Verifier.overall check)
     = Z.of_nat (Spec.holding dimensions)
  /\ (Verifier.success (Verifier.overall check) = true
      <-> (3 <= Spec.holding dimensions)%nat).
Proof.
  cbv zeta.
  destruct (overall_success_flags cfg p) as (Hvalues & Hpolled & Hscore & Hok).
  cbv zeta in Hvalues, Hpolled, Hscore, Hok.
  assert (Hservers :
            map Verifier.server_success
                (Verifier.server_checks
                   (Verifier.servers
                      (Verifier.measured
                         (Verifier.performComprehensiveCheck cfg p))))
            = map (Spec.resolver_returned_target cfg p) Verifier.dnsServers).
  { cbn. rewrite !checkDNSServer_flag. reflexivity. }
  assert (Honline :
            map Verifier.online_success
                (Verifier.online_checks
                   (Verifier.online
                      (Verifier.measured
                         (Verifier.performComprehensiveCheck cfg p))))
            = map (Spec.service_saw_target cfg p) Verifier.onlineCheckers).
  { cbn [Verifier.performComprehensiveCheck Verifier.measured Verifier.online
         Verifier.checkOnlineServices Verifier.online_checks].
    rewrite map_map. apply map_ext. intros c. apply checkOnlineService_flag. }
  assert (Hdimensions :
            [Verifier.local_success
               (Verifier.local
                  (Verifier.measured
                     (Verifier.performComprehensiveCheck cfg p)));
             (length
                (Verifier.server_checks
                   (Verifier.servers
                      (Verifier.measured
                         (Verifier.performComprehensiveCheck cfg p))))
              <=? 2 * length
                        (List.filter Verifier.server_success
                           (Verifier.server_checks
                              (Verifier.servers
                                 (Verifier.measured
                                    (Verifier.performComprehensiveCheck
                                       cfg p))))))%nat;
             existsb Verifier.online_success
                     (Verifier.online_checks
                        (Verifier.online
                           (Verifier.measured
                              (Verifier.performComprehensiveCheck cfg p))));
             Verifier.http_success
               (Verifier.http
                  (Verifier.measured
                     (Verifier.performComprehensiveCheck cfg p)));
             Verifier.ssl_success
               (Verifier.ssl
                  (Verifier.measured
                     (Verifier.performComprehensiveCheck cfg p)))]
            = [Spec.local_returned_target cfg p;
               (length Verifier.dnsServers
                <=? 2 * length
                          (List.filter (Spec.resolver_returned_target cfg p)
                                       Verifier.dnsServers))%nat;
               existsb (Spec.service_saw_target cfg p) Verifier.onlineCheckers;
               Spec.site_answered p;
               Spec.certificate_valid p]).
  { cbn [Verifier.performComprehensiveCheck Verifier.measured Verifier.local
         Verifier.servers Verifier.online Verifier.http Verifier.ssl].
    rewrite checkLocalDNS_flag, checkHTTPAccess_flag, checkSSLCertificate_flag.
    unfold Verifier.checkDNSServers, Verifier.checkOnlineServices.
    cbn [Verifier.server_checks Verifier.online_checks].
    rewrite filter_map_length, length_map, existsb_map.
    rewrite (List.filter_ext
               (fun server =>
                  Verifier.server_success
                    (Verifier.checkDNSServer cfg p server))
               (Spec.resolver_returned_target cfg p)
               (checkDNSServer_flag cfg p)).
    cbn [Verifier.onlineCheckers existsb].
    rewrite !checkOnlineService_flag. reflexivity. }
  rewrite Hdimensions in Hvalues, Hscore, Hok.
  split; [exact Hvalues|]. split; [exact Hpolled|].
  split; [reflexivity|]. split; [exact Hservers|].
  split; [exact Honline|]. split; [exact Hscore|exact Hok].
Qed.

(* ===================================================================== *)
(** * performance-optimizer.js *)
(* ===================================================================== *)

Lemma negative_iff (q : Q) : JS.negative q = true <-> (q < 0)%Q.
Proof.
  unfold JS.negative. rewrite negb_true_iff.
  destruct (Qle_bool 0 q) eqn:E.
  - apply Qle_bool_iff in E. split; [discriminate|]. intros H. lra.
  - split; [intros _|reflexivity].
    apply Qnot_le_lt. intros H. apply Qle_bool_iff in H. congruence.
Qed.

Lemma not_negative_iff (q : Q) : JS.negative q = false <-> (0 <= q)%Q.
Proof.
  unfold JS.negative. rewrite negb_false_iff. apply Qle_bool_iff.
Qed.

Section InsertionSort.

Context {A : Type} (cmp : A -> A -> Q).

Local Abbreviation before := (Spec.before cmp).
Local Abbreviation ordered := (Spec.ordered cmp).

Hypothesis before_asym : forall x y, before x y -> ordered x y.
Hypothesis before_trans : forall x y z, before x y -> before y z -> before x z.

Lemma In_insert x z l : In z (JS.insert cmp x l) <-> z = x \/ In z l.
Proof.
  induction l as [|y rest IH]; simpl.
  - intuition.
  - destruct (JS.negative (cmp x y)); simpl; [intuition|].
    rewrite IH. intuition.
Qed.

Lemma insert_sorted x l :
  StronglySorted ordered l -> StronglySorted ordered (JS.insert cmp x l).
Proof.
  induction 1 as [|y rest Hsorted IH Hall]; simpl.
  - repeat constructor.
  - destruct (JS.negative (cmp x y)) eqn:Hxy.
    + constructor; [constructor; assumption|].
      constructor; [apply before_asym; exact Hxy|].
      rewrite List.Forall_forall in *. intros z Hz.
      specialize (Hall z Hz). unfold Spec.ordered in *.
      destruct (JS.negative (cmp z x)) eqn:Hzx; [|reflexivity].
      rewrite <- Hall. symmetry.
      apply (before_trans z x y); assumption.
    + constructor; [exact IH|].
      rewrite List.Forall_forall in *. intros z Hz.
      apply In_insert in Hz. destruct Hz as [->|Hz]; [exact Hxy|].
      apply Hall, Hz.
Qed.

Lemma sort_from_sorted (l acc : list A) :
  StronglySorted ordered acc ->
  StronglySorted ordered
    (fold_left (fun sorted x => JS.insert cmp x sorted) l acc)
  /\ (forall z,
         In z (fold_left (fun sorted x => JS.insert cmp x sorted) l acc)
         <-> In z l \/ In z acc).
Proof.
  revert acc. induction l as [|x rest IH]; intros acc Hacc; simpl.
  - split; [exact Hacc|]. intuition.
  - destruct (IH (JS.insert cmp x acc) (insert_sorted x acc Hacc))
      as [Hsorted Hin].
    split; [exact Hsorted|].
    intros z. rewrite Hin, In_insert. intuition.
Qed.

Lemma sort_sorted (l : list A) : StronglySorted ordered (JS.sort cmp l).
Proof. apply sort_from_sorted. constructor. Qed.

Lemma In_sort (l : list A) z : In z (JS.sort cmp l) <-> In z l.
Proof.
  unfold JS.sort.
  destruct (sort_from_sorted l [] (SSorted_nil _)) as [_ Hin].
  rewrite Hin. simpl. intuition.
Qed.

Lemma filter_sorted (f : A -> bool) (l : list A) :
  StronglySorted ordered l -> StronglySorted ordered (List.filter f l).
Proof.
  induction 1 as [|y rest Hsorted IH Hall]; simpl; [constructor|].
  destruct (f y); [|exact IH].
  constructor; [exact IH|].
  rewrite List.Forall_forall in *. intros z Hz.
  apply filter_In in Hz. apply Hall, Hz.
Qed.

End InsertionSort.

(** The comparison of endpoint measurements orders them strictly by
    availability first, then by response time with [-1] last. *)
Lemma compare_asym (x y : Optimizer.Measurement) :
  Spec.before Optimizer.compare x y -> Spec.ordered Optimizer.compare x y.
Proof.
  unfold Spec.before, Spec.ordered, Optimizer.compare.
  destruct (Optimizer.available x), (Optimizer.available y); cbn [andb negb];
    try (intros; reflexivity); try discriminate;
    destruct (Qeq_bool (Optimizer.responseTime x) (-1)) eqn:Ex;
    destruct (Qeq_bool (Optimizer.responseTime y) (-1)) eqn:Ey;
    try (intros; reflexivity); try discriminate;
    rewrite negative_iff, not_negative_iff; intros; lra.
Qed.

Lemma compare_trans (x y z : Optimizer.Measurement) :
  Spec.before Optimizer.compare x y -> Spec.before Optimizer.compare y z ->
  Spec.before Optimizer.compare x z.
Proof.
  unfold Spec.before, Optimizer.compare.
  destruct (Optimizer.available x), (Optimizer.available y),
           (Optimizer.available z); cbn [andb negb];
    try (intros; reflexivity); try discriminate;
    destruct (Qeq_bool (Optimizer.responseTime x) (-1)) eqn:Ex;
    destruct (Qeq_bool (Optimizer.responseTime y) (-1)) eqn:Ey;
    destruct (Qeq_bool (Optimizer.responseTime z) (-1)) eqn:Ez;
    try (intros; reflexivity); try discriminate;
    rewrite !negative_iff; intros; lra.
Qed.

(** A measurement of an answered request carries the time the request
    took; it is available only then. *)
Lemma measure_available endpoint head :
  Optimizer.available (Optimizer.measure endpoint head) = true ->
  exists code elapsed,
    head = JS.Normal (code, elapsed)
    /\ Optimizer.responseTime (Optimizer.measure endpoint head) = elapsed.
Proof.
  destruct head as [[code elapsed]|msg]; simpl; [|discriminate].
  intros _. exists code, elapsed. split; reflexivity.
Qed.

(** The choice depends on the order alone: in every arrangement of the
    measurements in which no measurement stands after one it goes before,
    the first available measurement is a fastest available one. *)
Lemma first_available_is_fastest
      (measurements arranged : list Optimizer.Measurement) first rest :
  (forall m, In m measurements -> Optimizer.available m = true ->
             (0 <= Optimizer.responseTime m)%Q) ->
  (forall m, In m arranged <-> In m measurements) ->
  StronglySorted (Spec.ordered Optimizer.compare) arranged ->
  List.filter Optimizer.available arranged = first :: rest ->
  In first measurements
  /\ Optimizer.available first = true
  /\ forall other,
      In other measurements -> Optimizer.available other = true ->
      (Optimizer.responseTime first <= Optimizer.responseTime other)%Q.
Proof.
  intros Hvalid Hperm Hsorted Hfilter.
  apply (filter_sorted Optimizer.compare Optimizer.available) in Hsorted.
  assert (Hfirst : In first (List.filter Optimizer.available arranged)).
  { rewrite Hfilter. left. reflexivity. }
  apply filter_In in Hfirst. destruct Hfirst as [Hfirst_in Hfirst_avail].
  apply Hperm in Hfirst_in.
  split; [exact Hfirst_in|]. split; [exact Hfirst_avail|].
  intros other Hother Havail.
  assert (Hin : In other (first :: rest)).
  { rewrite <- Hfilter. apply filter_In.
    split; [apply Hperm; exact Hother|exact Havail]. }
  destruct Hin as [<-|Hin]; [lra|].
  rewrite Hfilter in Hsorted.
  inversion Hsorted as [|? ? _ Hall]; subst.
  rewrite List.Forall_forall in Hall. specialize (Hall other Hin).
  pose proof (Hvalid other Hother Havail) as Hpos.
  pose proof (Hvalid first Hfirst_in Hfirst_avail) as Hpos1.
  unfold Spec.ordered, Optimizer.compare in Hall.
  rewrite Havail, Hfirst_avail in Hall. cbn [andb negb] in Hall.
  destruct (Qeq_bool (Optimizer.responseTime other) (-1)) eqn:Eo.
  { apply Qeq_bool_iff in Eo. lra. }
  destruct (Qeq_bool (Optimizer.responseTime first) (-1)) eqn:Ef.
  { apply Qeq_bool_iff in Ef. lra. }
  apply not_negative_iff in Hall. lra.
Qed.

(** C9.  [getOptimalEndpoint] returns one of the measured endpoints that
    is available and whose response time is least among the available
    ones; when no endpoint is available it returns the primary endpoint,
    marked as fallback.  Response times are differences of a monotonic
    clock, hence not negative. *)
Theorem getOptimalEndpoint_fastest_available
        cfg (probes : list (Optimizer.Endpoint * JS.Completion (Z * Q))) :
  (forall endpoint code elapsed,
      In (endpoint, JS.Normal (code, elapsed)) probes -> (0 <= elapsed)%Q) ->
  let measurements :=
    map (fun p => Optimizer.measure (fst p) (snd p)) probes in
  match Optimizer.getOptimalEndpoint cfg probes with
  | Optimizer.Fastest m =>
      In m measurements
      /\ Optimizer.available m = true
      /\ forall other,
          In other measurements -> Optimizer.available other = true ->
          (Optimizer.responseTime m <= Optimizer.responseTime other)%Q
  | Optimizer.Primary name url fallback =>
      (forall other, In other measurements ->
                     Optimizer.available other = false)
      /\ name = "Primary"
      /\ url = Optimizer.primaryUrl cfg
      /\ fallback = true
  end.
Proof.
  intros Hclock measurements.
  assert (Hvalid : forall m, In m measurements ->
                             Optimizer.available m = true ->
                             (0 <= Optimizer.responseTime m)%Q).
  { intros m Hm Havail. apply in_map_iff in Hm.
    destruct Hm as [[endpoint head] [<- Hin]]. simpl in *.
    destruct (measure_available endpoint head Havail)
      as [code [elapsed [-> ->]]].
    apply (Hclock endpoint code elapsed Hin). }
  unfold Optimizer.getOptimalEndpoint, Optimizer.measureCDNPerformance.
  fold measurements.
  pose proof (sort_sorted Optimizer.compare compare_asym compare_trans
                measurements) as Hsorted.
  pose proof (In_sort Optimizer.compare compare_asym compare_trans
                measurements) as Hperm.
  destruct (List.filter Optimizer.available
              (JS.sort Optimizer.compare measurements))
    as [|first rest] eqn:Hfilter.
  - split; [|repeat split].
    intros other Hother.
    destruct (Optimizer.available other) eqn:Havail; [|reflexivity].
    assert (Hin : In other
                     (List.filter Optimizer.available
                        (JS.sort Optimizer.compare measurements))).
    { apply filter_In. split; [apply Hperm; exact Hother|exact Havail]. }
    rewrite Hfilter in Hin. destruct Hin.
  - apply (first_available_is_fastest measurements
             (JS.sort Optimizer.compare measurements) first rest);
      assumption.
Qed.

(** C9 at a concrete measurement round: the redirect, available and
    fastest, is chosen over Netlify; the failed endpoint is not. *)
Lemma getOptimalEndpoint_fastest_available_witness :
  match Optimizer.getOptimalEndpoint Samples.optimizer_config
                                     Samples.cdn_probes with
  | Optimizer.Fastest m =>
      In m (map (fun p => Optimizer.measure (fst p) (snd p))
                Samples.cdn_probes)
      /\ Optimizer.available m = true
      /\ forall other,
          In other (map (fun p => Optimizer.measure (fst p) (snd p))
                        Samples.cdn_probes) ->
          Optimizer.available other = true ->
          (Optimizer.responseTime m <= Optimizer.responseTime other)%Q
  | Optimizer.Primary name url fallback =>
      (forall other,
          In other (map (fun p => Optimizer.measure (fst p) (snd p))
                        Samples.cdn_probes) ->
          Optimizer.available other = false)
      /\ name = "Primary"
      /\ url = Optimizer.primaryUrl Samples.optimizer_config
      /\ fallback = true
  end.
Proof.
  apply (getOptimalEndpoint_fastest_available
           Samples.optimizer_config Samples.cdn_probes).
  intros endpoint code elapsed Hin.
  simpl in Hin.
  destruct Hin as [H|[H|[H|[]]]]; inversion H; subst;
    unfold Qle; simpl; lia.
Defined.

Example getOptimalEndpoint_sample :
  match Optimizer.getOptimalEndpoint Samples.optimizer_config
                                     Samples.cdn_probes with
  | Optimizer.Fastest m => Optimizer.name m = "Direct"
  | Optimizer.Primary _ _ _ => False
  end.
Proof. vm_compute. reflexivity. Qed.

(* ===================================================================== *)
(** * dns-verifier.js: verify *)
(* ===================================================================== *)

Lemma timer_delay_positive (delay : Z) : 0 < Verifier.timer_delay delay.
Proof.
  unfold Verifier.timer_delay.
  destruct (Z.leb_spec 1 delay); simpl; [|lia].
  destruct (Z.leb_spec delay 2147483647); lia.
Qed.

(** The timer fires often enough: once the deadline lies within the
    firings that are left, the run ends. *)
Lemma monitor_ends cfg env setup :
  forall fuel k results lastCheck pending,
    Verifier.timeout cfg
    <= setup - Verifier.startTime env
       + (Z.of_nat k + Z.of_nat fuel - 1)
         * Verifier.timer_delay (Verifier.checkInterval cfg) ->
    (1 <= fuel)%nat ->
    exists outcome,
      Verifier.monitor cfg env setup fuel k results lastCheck pending
      = Some outcome.
Proof.
  pose proof (timer_delay_positive (Verifier.checkInterval cfg)) as Hpos.
  induction fuel as [|fuel IH]; intros k results lastCheck pending Hdeadline Hfuel;
    [lia|].
  cbn [Verifier.monitor].
  destruct (Verifier.deliver _ results lastCheck) as [[results1 lastCheck1] won].
  destruct won as [[t check]|]; [eexists; reflexivity|].
  destruct (Z.leb_spec (Verifier.timeout cfg)
              (setup
               + Z.of_nat k * Verifier.timer_delay (Verifier.checkInterval cfg)
               - Verifier.startTime env)) as [Hpast|Hnot];
    [eexists; reflexivity|].
  apply IH; [|destruct fuel; [nia|lia]].
  nia.
Qed.

(** [verify] ends on every run: the deadline bounds the polling. *)
Lemma verify_ends cfg env :
  exists outcome, Verifier.verify cfg env = Some outcome.
Proof.
  unfold Verifier.verify.
  destruct (Verifier.success _); [eexists; reflexivity|].
  apply monitor_ends; [|unfold Verifier.firings; lia].
  unfold Verifier.firings.
  pose proof (timer_delay_positive (Verifier.checkInterval cfg)) as Hpos.
  set (d := Verifier.timer_delay (Verifier.checkInterval cfg)) in *.
  set (a := Verifier.timeout cfg
            - Verifier.duration (Verifier.initial_probes env)).
  pose proof (Z.mul_succ_div_gt a d Hpos) as Hdiv.
  destruct (Z.le_gt_cases 0 (a / d)) as [Hq|Hq].
  - assert (Hto : Z.of_nat (Z.to_nat (a / d)) = a / d) by lia.
    nia.
  - assert (Hto : Z.of_nat (Z.to_nat (a / d)) = 0) by lia.
    nia.
Qed.

(** Every report [generateFinalReport] returns for the status [timeout]
    carries that status and the three manual next steps. *)
Lemma timeout_report cfg results write finalCheck startTime at_time report :
  Verifier.generateFinalReport cfg results write finalCheck startTime at_time
                               "timeout"
  = JS.Normal report ->
  Verifier.status (Verifier.summary report) = "timeout"
  /\ Verifier.nextSteps report
     = ["⚠️  Consider manual DNS configuration";
        "🔄 Try alternative DNS provider (Cloudflare)";
        "📞 Contact domain registrar support"]
  /\ exists check, finalCheck = Some check.
Proof.
  unfold Verifier.generateFinalReport.
  destruct finalCheck as [check|]; [|discriminate].
  simpl. destruct write as [[]|msg]; [|discriminate].
  simpl. intros [= <-]. simpl. repeat split. exists check. reflexivity.
Qed.

(** C6, where the code fails.  When the initial check does not succeed
    and the deadline passes no later than the first firing of the
    interval timer (the time of the initial check plus one interval),
    [verify] hands the timeout report a [lastCheck] that is still [null],
    and is rejected with a [TypeError] instead of returning the report. *)
Theorem verify_timeout_before_first_cycle cfg env :
  Verifier.success
    (Verifier.overall
       (Verifier.performComprehensiveCheck cfg (Verifier.initial_probes env)))
  = false ->
  Verifier.timeout cfg
  <= Verifier.duration (Verifier.initial_probes env)
     + Verifier.timer_delay (Verifier.checkInterval cfg) ->
  Verifier.verify cfg env
  = Some (JS.Throw "Cannot read properties of null (reading 'local')").
Proof.
  intros Hinitial Hdeadline.
  unfold Verifier.verify. rewrite Hinitial.
  unfold Verifier.firings. cbn [Verifier.monitor].
  change (Verifier.arrivals _ []) with (@nil (Z * Verifier.Check)).
  cbn [Verifier.deliver].
  destruct (Z.leb_spec (Verifier.timeout cfg)
              (Verifier.startTime env
               + Verifier.duration (Verifier.initial_probes env)
               + Z.of_nat 1
                 * Verifier.timer_delay (Verifier.checkInterval cfg)
               - Verifier.startTime env)) as [_|Hnot]; [reflexivity|].
  lia.
Qed.

(** C6 at a concrete run: a deadline of 5 s with the default interval of
    10 s, the record missing throughout. *)
Lemma verify_timeout_before_first_cycle_witness :
  Verifier.verify Samples.verifier_config Samples.verifier_env
  = Some (JS.Throw "Cannot read properties of null (reading 'local')").
Proof.
  apply (verify_timeout_before_first_cycle
           Samples.verifier_config Samples.verifier_env).
  - vm_compute. reflexivity.
  - vm_compute. discriminate.
Defined.

(** With a deadline of 30 s the same run polls twice and returns the
    timeout report. *)
Example verify_patient_run :
  match Verifier.verify Samples.patient_config Samples.verifier_env with
  | Some (JS.Normal report) =>
      Verifier.status (Verifier.summary report) = "timeout"
      /\ Verifier.summary_totalChecks (Verifier.summary report) = 3
      /\ Verifier.summary_duration (Verifier.summary report) = 31
  | _ => False
  end.
Proof. vm_compute. repeat split; reflexivity. Qed.

(* ===================================================================== *)
(** * The providers *)
(* ===================================================================== *)

Ltac run_monad :=
  unfold JS.catch, JS.mbind, JS.lift, JS.gets, JS.modify, JS.ret, JS.throw,
    Providers.send; cbn.

Ltac split_match :=
  match goal with
  | |- context [match ?x with _ => _ end] => destruct x eqn:?; cbn
  end.

(** What a health check does with a failure of credential loading: an
    unhealthy result, the message kept. *)
Lemma porkbun_healthCheck_returns e w :
  exists r w',
    Providers.Porkbun.healthCheck e w = Some (JS.Normal r, w')
    /\ (forall msg,
           snd (Providers.Porkbun.loadCredentials e) = JS.Throw msg ->
           r = {| Providers.healthy := false;
                  Providers.error := Some ("API unreachable: " +:+ msg) |})
    /\ (Providers.healthy r = true ->
        exists req data,
          Providers.porkbun_ping e (Providers.history w) req = JS.Normal data
          /\ Providers.ping_status data = "SUCCESS").
Proof.
  unfold Providers.Porkbun.healthCheck. run_monad.
  destruct (snd (Providers.Porkbun.loadCredentials e)) as [creds|msg]; cbn.
  - destruct (Providers.property creds "secretKey") as [sk|m1]; cbn;
      [destruct (Providers.property creds "apiKey") as [ak|m2]; cbn|];
      [destruct (Providers.porkbun_ping e (Providers.history w)
                   (Providers.PorkbunPing sk ak)) as [data|m3] eqn:Hping;
       cbn|..];
      do 2 eexists; (split; [reflexivity|]); (split; [discriminate|]);
      cbn; try discriminate.
    intros Hok. exists (Providers.PorkbunPing sk ak), data.
    split; [exact Hping|]. apply String.eqb_eq, Hok.
  - do 2 eexists. split; [reflexivity|]. split.
    + intros ? [= <-]. reflexivity.
    + discriminate.
Qed.

Lemma cloudflare_healthCheck_returns e w :
  exists r w',
    Providers.Cloudflare.healthCheck e w = Some (JS.Normal r, w')
    /\ (forall msg,
           snd (Providers.Cloudflare.loadCredentials e) = JS.Throw msg ->
           r = {| Providers.healthy := false;
                  Providers.error :=
                    Some ("Cloudflare API unreachable: " +:+ msg) |})
    /\ (Providers.healthy r = true ->
        exists req data,
          Providers.cloudflare_verify e (Providers.history w) req
          = JS.Normal data
          /\ Providers.verify_success data = true).
Proof.
  unfold Providers.Cloudflare.healthCheck. run_monad.
  destruct (snd (Providers.Cloudflare.loadCredentials e)) as [creds|msg]; cbn.
  - destruct (Providers.property creds "apiToken") as [token|m1]; cbn;
      [destruct (Providers.cloudflare_verify e (Providers.history w)
                   (Providers.CloudflareVerify token)) as [data|m3] eqn:Hreq;
       cbn|];
      do 2 eexists; (split; [reflexivity|]); (split; [discriminate|]);
      cbn; try discriminate.
    intros Hok. exists (Providers.CloudflareVerify token), data.
    split; [exact Hreq|exact Hok].
  - do 2 eexists. split; [reflexivity|]. split.
    + intros ? [= <-]. reflexivity.
    + discriminate.
Qed.

Lemma netlify_healthCheck_returns e w :
  exists r w',
    Providers.Netlify.healthCheck e w = Some (JS.Normal r, w')
    /\ (forall msg,
           snd (Providers.Netlify.loadCredentials e) = JS.Throw msg ->
           r = {| Providers.healthy := false;
                  Providers.error :=
                    Some ("Netlify API unreachable: " +:+ msg) |})
    /\ (Providers.healthy r = true ->
        exists req data,
          Providers.netlify_user e (Providers.history w) req = JS.Normal data
          /\ Providers.user_status data = 200).
Proof.
  unfold Providers.Netlify.healthCheck. run_monad.
  destruct (snd (Providers.Netlify.loadCredentials e)) as [creds|msg]; cbn.
  - destruct (Providers.property creds "accessToken") as [token|m1]; cbn;
      [destruct (Providers.netlify_user e (Providers.history w)
                   (Providers.NetlifyUser token)) as [data|m3] eqn:Hreq;
       cbn|];
      do 2 eexists; (split; [reflexivity|]); (split; [discriminate|]);
      cbn; try discriminate.
    intros Hok. exists (Providers.NetlifyUser token), data.
    split; [exact Hreq|]. apply Z.eqb_eq, Hok.
  - do 2 eexists. split; [reflexivity|]. split.
    + intros ? [= <-]. reflexivity.
    + discriminate.
Qed.

(** C5.  No health check throws: for every provider (Porkbun, the two
    providers declared beside it, and the Cloudflare and Netlify
    providers of dns-providers), whatever the environment, the credential
    sources and the vendor do (answer, refuse, fail, time out), the call
    returns a result [{healthy, error}].  A failure of credential loading
    comes back as [healthy = false] with the message in [error], and
    [healthy] is set only on a positive answer of the vendor. *)
Theorem healthCheck_never_throws (e : Providers.Env) (w : Providers.World) :
  (forall hc,
      In hc [Providers.Porkbun.healthCheck; Providers.Stub.healthCheck;
             Providers.Cloudflare.healthCheck; Providers.Netlify.healthCheck] ->
      exists r w', hc e w = Some (JS.Normal r, w'))
  /\ (forall p, In p Manager.providers ->
                exists r w', Providers.healthCheck p e w = Some (JS.Normal r, w'))
  /\ (forall msg r w',
         snd (Providers.Porkbun.loadCredentials e) = JS.Throw msg ->
         Providers.Porkbun.healthCheck e w = Some (JS.Normal r, w') ->
         Providers.healthy r = false
         /\ Providers.error r = Some ("API unreachable: " +:+ msg))
  /\ (forall msg r w',
         snd (Providers.Cloudflare.loadCredentials e) = JS.Throw msg ->
         Providers.Cloudflare.healthCheck e w = Some (JS.Normal r, w') ->
         Providers.healthy r = false
         /\ Providers.error r
            = Some ("Cloudflare API unreachable: " +:+ msg))
  /\ (forall r w',
         Providers.Porkbun.healthCheck e w = Some (JS.Normal r, w') ->
         Providers.healthy r = true ->
         exists req data,
           Providers.porkbun_ping e (Providers.history w) req = JS.Normal data
           /\ Providers.ping_status data = "SUCCESS").
Proof.
  destruct (porkbun_healthCheck_returns e w) as [rp [wp [Hp [Hp_err Hp_ok]]]].
  destruct (cloudflare_healthCheck_returns e w) as [rc [wc [Hc [Hc_err _]]]].
  destruct (netlify_healthCheck_returns e w) as [rn [wn [Hn _]]].
  split; [|split; [|split; [|split]]].
  - intros hc [<-|[<-|[<-|[<-|[]]]]]; eauto; do 2 eexists; reflexivity.
  - intros p [<-|[<-|[<-|[]]]]; cbn; eauto; do 2 eexists; reflexivity.
  - intros msg r w' Hload Hrun. rewrite Hp in Hrun.
    injection Hrun as <- <-. rewrite (Hp_err msg Hload). split; reflexivity.
  - intros msg r w' Hload Hrun. rewrite Hc in Hrun.
    injection Hrun as <- <-. rewrite (Hc_err msg Hload). split; reflexivity.
  - intros r w' Hrun Hok. rewrite Hp in Hrun.
    injection Hrun as <- <-. apply Hp_ok, Hok.
Qed.

(** The environment source yields a complete set or nothing. *)
Lemma env_var_truthy e name :
  Providers.truthy (Providers.env_var e name) = true ->
  exists s, Providers.env_var e name = Providers.VStr s
            /\ JS.truthy_string s = true.
Proof.
  unfold Providers.env_var.
  destruct (Providers.process_env e !! name) as [s|]; cbn; [|discriminate].
  intros H. exists s. split; [reflexivity|exact H].
Qed.

Lemma porkbun_environment e :
  let from_env := Spec.yield (Providers.Porkbun.loadFromEnvironment e) in
  Providers.truthy from_env = Spec.complete ["apiKey"; "secretKey"] from_env.
Proof.
  cbv zeta. unfold Providers.Porkbun.loadFromEnvironment.
  destruct (Providers.truthy (Providers.env_var e "PORKBUN_API_KEY")) eqn:Ha;
    [|reflexivity].
  destruct (Providers.truthy (Providers.env_var e "PORKBUN_SECRET_KEY")) eqn:Hs;
    [|reflexivity].
  destruct (env_var_truthy e _ Ha) as [a [-> Hta]].
  destruct (env_var_truthy e _ Hs) as [b [-> Htb]].
  cbn [andb Spec.yield Providers.truthy].
  unfold Spec.complete. cbn [forallb].
  rewrite lookup_insert_eq.
  rewrite lookup_insert_ne by discriminate.
  rewrite lookup_singleton_eq.
  rewrite Hta, Htb. reflexivity.
Qed.

Lemma cloudflare_environment e :
  let from_env := Spec.yield (Providers.Cloudflare.loadFromEnvironment e) in
  Providers.truthy from_env = Spec.complete ["apiToken"] from_env.
Proof.
  cbv zeta. unfold Providers.Cloudflare.loadFromEnvironment.
  destruct (Providers.truthy (Providers.env_var e "CLOUDFLARE_API_TOKEN")) eqn:Ha;
    [|reflexivity].
  destruct (env_var_truthy e _ Ha) as [a [-> Hta]].
  cbn [Spec.yield Providers.truthy].
  unfold Spec.complete. cbn [forallb].
  rewrite lookup_singleton_eq, Hta. reflexivity.
Qed.

Lemma netlify_environment e :
  let from_env := Spec.yield (Providers.Netlify.loadFromEnvironment e) in
  Providers.truthy from_env = Spec.complete ["accessToken"] from_env.
Proof.
  cbv zeta. unfold Providers.Netlify.loadFromEnvironment.
  destruct (Providers.truthy (Providers.env_var e "NETLIFY_ACCESS_TOKEN")) eqn:Ha;
    [|reflexivity].
  destruct (env_var_truthy e _ Ha) as [a [-> Hta]].
  cbn [Spec.yield Providers.truthy].
  unfold Spec.complete. cbn [forallb].
  rewrite lookup_singleton_eq, Hta. reflexivity.
Qed.

Lemma source_yields (c : JS.Completion Providers.Value) :
  (exists v, c = JS.Normal v) -> c = JS.Normal (Spec.yield c).
Proof. intros [v ->]. reflexivity. Qed.

Lemma loadFromFile_returns e path :
  Providers.loadFromFile e path
  = JS.Normal (Spec.yield (Providers.loadFromFile e path)).
Proof.
  apply source_yields. unfold Providers.loadFromFile.
  destruct (Providers.read_json e path); eexists; reflexivity.
Qed.

Lemma complete_truthy keys v :
  Spec.complete keys v = true -> Providers.truthy v = true.
Proof. destruct v; cbn; try discriminate. reflexivity. Qed.

Lemma porkbun_loads e :
  let from_env := Spec.yield (Providers.Porkbun.loadFromEnvironment e) in
  let from_file :=
    Spec.yield (Providers.loadFromFile e "config/porkbun-creds.json") in
  (Providers.truthy from_file = true ->
   Spec.complete ["apiKey"; "secretKey"] from_file = true) ->
  Spec.loads_first_complete
    (Providers.Porkbun.loadCredentials e)
    ["apiKey"; "secretKey"] from_env from_file
    "No valid Porkbun credentials found"
    [Providers.Environment; Providers.SecretsManager; Providers.ConfigFile]
    [Providers.Environment; Providers.SecretsManager; Providers.ConfigFile].
Proof.
  intros from_env from_file Hfile.
  pose proof (porkbun_environment e) as Henv. cbv zeta in Henv.
  fold from_env in Henv.
  unfold Spec.loads_first_complete, Spec.first_complete,
    Providers.Porkbun.loadCredentials, Providers.Porkbun.sources.
  cbn [Providers.first_credentials Providers.Porkbun.read].
  rewrite (source_yields (Providers.Porkbun.loadFromEnvironment e))
    by (unfold Providers.Porkbun.loadFromEnvironment;
        destruct (_ && _); eexists; reflexivity).
  fold from_env. rewrite Henv.
  destruct (Spec.complete ["apiKey"; "secretKey"] from_env).
  { cbn. split; reflexivity. }
  cbn [Providers.Porkbun.loadFromAWSSecrets Providers.truthy].
  rewrite loadFromFile_returns. fold from_file.
  destruct (Providers.truthy from_file) eqn:Htruthy.
  - rewrite (Hfile eq_refl). cbn. split; reflexivity.
  - destruct (Spec.complete ["apiKey"; "secretKey"] from_file) eqn:Hc.
    + apply complete_truthy in Hc. congruence.
    + cbn. split; reflexivity.
Qed.

Lemma cloudflare_loads e :
  let from_env := Spec.yield (Providers.Cloudflare.loadFromEnvironment e) in
  let from_file :=
    Spec.yield (Providers.loadFromFile e "../config/cloudflare-creds.json") in
  (Providers.truthy from_file = true ->
   Spec.complete ["apiToken"] from_file = true) ->
  Spec.loads_first_complete
    (Providers.Cloudflare.loadCredentials e)
    ["apiToken"] from_env from_file "No valid Cloudflare credentials found"
    [Providers.Environment; Providers.ConfigFile]
    [Providers.Environment; Providers.ConfigFile; Providers.SecretsManager].
Proof.
  intros from_env from_file Hfile.
  pose proof (cloudflare_environment e) as Henv. cbv zeta in Henv.
  fold from_env in Henv.
  unfold Spec.loads_first_complete, Spec.first_complete,
    Providers.Cloudflare.loadCredentials, Providers.Cloudflare.sources.
  cbn [Providers.first_credentials Providers.Cloudflare.read].
  rewrite (source_yields (Providers.Cloudflare.loadFromEnvironment e))
    by (unfold Providers.Cloudflare.loadFromEnvironment;
        destruct (Providers.truthy (Providers.env_var _ _));
        eexists; reflexivity).
  fold from_env. rewrite Henv.
  destruct (Spec.complete ["apiToken"] from_env).
  { cbn. split; reflexivity. }
  rewrite loadFromFile_returns. fold from_file.
  destruct (Providers.truthy from_file) eqn:Htruthy.
  - rewrite (Hfile eq_refl). cbn. split; reflexivity.
  - destruct (Spec.complete ["apiToken"] from_file) eqn:Hc.
    + apply complete_truthy in Hc. congruence.
    + cbn. split; reflexivity.
Qed.

Lemma netlify_loads e :
  let from_env := Spec.yield (Providers.Netlify.loadFromEnvironment e) in
  let from_file :=
    Spec.yield (Providers.loadFromFile e "../config/netlify-creds.json") in
  (Providers.truthy from_file = true ->
   Spec.complete ["accessToken"] from_file = true) ->
  Spec.loads_first_complete
    (Providers.Netlify.loadCredentials e)
    ["accessToken"] from_env from_file "No valid Netlify credentials found"
    [Providers.Environment; Providers.ConfigFile]
    [Providers.Environment; Providers.ConfigFile; Providers.SecretsManager].
Proof.
  intros from_env from_file Hfile.
  pose proof (netlify_environment e) as Henv. cbv zeta in Henv.
  fold from_env in Henv.
  unfold Spec.loads_first_complete, Spec.first_complete,
    Providers.Netlify.loadCredentials, Providers.Netlify.sources.
  cbn [Providers.first_credentials Providers.Netlify.read].
  rewrite (source_yields (Providers.Netlify.loadFromEnvironment e))
    by (unfold Providers.Netlify.loadFromEnvironment;
        destruct (Providers.truthy (Providers.env_var _ _));
        eexists; reflexivity).
  fold from_env. rewrite Henv.
  destruct (Spec.complete ["accessToken"] from_env).
  { cbn. split; reflexivity. }
  rewrite loadFromFile_returns. fold from_file.
  destruct (Providers.truthy from_file) eqn:Htruthy.
  - rewrite (Hfile eq_refl). cbn. split; reflexivity.
  - destruct (Spec.complete ["accessToken"] from_file) eqn:Hc.
    + apply complete_truthy in Hc. congruence.
    + cbn. split; reflexivity.
Qed.

(** A provider whose health check is unhealthy is given up by
    [attemptProvider]: no record is created with it. *)
Lemma attemptProvider_unhealthy e cfg p w r w1 :
  Providers.healthCheck p e w = Some (JS.Normal r, w1) ->
  Providers.healthy r = false ->
  Manager.attemptProvider e cfg p w = Some (JS.Normal false, w1).
Proof.
  intros Hrun Hunhealthy. unfold Manager.attemptProvider. run_monad.
  rewrite Hrun. cbn. rewrite Hunhealthy. reflexivity.
Qed.

(** C4 (as the code has it).  Every provider asks the environment first
    and stops at the first source that yields; Cloudflare and Netlify ask
    the config file and then the secret manager, Porkbun the secret
    manager and then the config file.  The secret manager never yields,
    so with a config file that holds a complete credential set or
    nothing, [loadCredentials] returns the first complete set among
    environment and file, in this order, and throws when there is none.
    The sources it has asked by then are given exactly: the environment
    alone when that yields; else, when the file yields, the sources up
    to the file (for Porkbun the secret manager is among them, for
    Cloudflare and Netlify it is not asked); else all three.  When no
    source yields, the health check reports the provider unhealthy and
    [attemptProvider] gives the provider up, for each of the three
    providers and whatever the configuration is. *)
Theorem credentials_first_complete_source (e : Providers.Env) :
  let porkbun_env := Spec.yield (Providers.Porkbun.loadFromEnvironment e) in
  let porkbun_file :=
    Spec.yield (Providers.loadFromFile e "config/porkbun-creds.json") in
  let cloudflare_env :=
    Spec.yield (Providers.Cloudflare.loadFromEnvironment e) in
  let cloudflare_file :=
    Spec.yield (Providers.loadFromFile e "../config/cloudflare-creds.json") in
  let netlify_env := Spec.yield (Providers.Netlify.loadFromEnvironment e) in
  let netlify_file :=
    Spec.yield (Providers.loadFromFile e "../config/netlify-creds.json") in
  (Providers.truthy porkbun_file = true ->
   Spec.complete ["apiKey"; "secretKey"] porkbun_file = true) ->
  (Providers.truthy cloudflare_file = true ->
   Spec.complete ["apiToken"] cloudflare_file = true) ->
  (Providers.truthy netlify_file = true ->
   Spec.complete ["accessToken"] netlify_file = true) ->
  Providers.Porkbun.sources
  = [Providers.Environment; Providers.SecretsManager; Providers.ConfigFile]
  /\ Providers.Cloudflare.sources
     = [Providers.Environment; Providers.ConfigFile; Providers.SecretsManager]
  /\ Providers.Netlify.sources
     = [Providers.Environment; Providers.ConfigFile; Providers.SecretsManager]
  /\ Spec.loads_first_complete
       (Providers.Porkbun.loadCredentials e)
       ["apiKey"; "secretKey"] porkbun_env porkbun_file
       "No valid Porkbun credentials found"
       [Providers.Environment; Providers.SecretsManager;
        Providers.ConfigFile]
       Providers.Porkbun.sources
  /\ Spec.loads_first_complete
       (Providers.Cloudflare.loadCredentials e)
       ["apiToken"] cloudflare_env cloudflare_file
       "No valid Cloudflare credentials found"
       [Providers.Environment; Providers.ConfigFile]
       Providers.Cloudflare.sources
  /\ Spec.loads_first_complete
       (Providers.Netlify.loadCredentials e)
       ["accessToken"] netlify_env netlify_file
       "No valid Netlify credentials found"
       [Providers.Environment; Providers.ConfigFile]
       Providers.Netlify.sources
  /\ (Spec.first_complete ["apiKey"; "secretKey"] porkbun_env porkbun_file
      = None ->
      forall cfg w, exists r w',
          Providers.Porkbun.healthCheck e w = Some (JS.Normal r, w')
          /\ Providers.healthy r = false
          /\ Manager.attemptProvider e cfg Providers.Porkbun.provider w
             = Some (JS.Normal false, w'))
  /\ (Spec.first_complete ["apiToken"] cloudflare_env cloudflare_file = None ->
      forall cfg w, exists r w',
          Providers.Cloudflare.healthCheck e w = Some (JS.Normal r, w')
          /\ Providers.healthy r = false
          /\ Manager.attemptProvider e cfg Providers.Cloudflare.provider w
             = Some (JS.Normal false, w'))
  /\ (Spec.first_complete ["accessToken"] netlify_env netlify_file = None ->
      forall cfg createRecord w, exists r w',
          Providers.Netlify.healthCheck e w = Some (JS.Normal r, w')
          /\ Providers.healthy r = false
          /\ Manager.attemptProvider
               e cfg
               (Providers.Build_Provider "Netlify DNS"
                                         Providers.Netlify.healthCheck
                                         createRecord)
               w
             = Some (JS.Normal false, w')).
Proof.
  intros porkbun_env porkbun_file cloudflare_env cloudflare_file
         netlify_env netlify_file Hp Hc Hn.
  pose proof (porkbun_loads e Hp) as Lp.
  pose proof (cloudflare_loads e Hc) as Lc.
  pose proof (netlify_loads e Hn) as Ln.
  cbv zeta in Lp, Lc, Ln.
  fold porkbun_env porkbun_file in Lp.
  fold cloudflare_env cloudflare_file in Lc.
  fold netlify_env netlify_file in Ln.
  do 3 (split; [reflexivity|]).
  do 3 (split; [assumption|]).
  split; [|split].
  - intros Hnone cfg w. destruct Lp as [Hload _]. rewrite Hnone in Hload.
    destruct (porkbun_healthCheck_returns e w) as [r [w' [Hrun [Herr _]]]].
    exists r, w'. rewrite (Herr _ Hload). repeat split.
    + rewrite Hrun, (Herr _ Hload). reflexivity.
    + apply attemptProvider_unhealthy
        with (r := {| Providers.healthy := false;
                      Providers.error :=
                        Some ("API unreachable: "
                              +:+ "No valid Porkbun credentials found") |});
        [|reflexivity].
      cbn. rewrite Hrun, (Herr _ Hload). reflexivity.
  - intros Hnone cfg w. destruct Lc as [Hload _]. rewrite Hnone in Hload.
    destruct (cloudflare_healthCheck_returns e w) as [r [w' [Hrun [Herr _]]]].
    exists r, w'. rewrite (Herr _ Hload). repeat split.
    + rewrite Hrun, (Herr _ Hload). reflexivity.
    + apply attemptProvider_unhealthy
        with (r := {| Providers.healthy := false;
                      Providers.error :=
                        Some ("Cloudflare API unreachable: "
                              +:+ "No valid Cloudflare credentials found") |});
        [|reflexivity].
      cbn. rewrite Hrun, (Herr _ Hload). reflexivity.
  - intros Hnone cfg createRecord w.
    destruct Ln as [Hload _]. rewrite Hnone in Hload.
    destruct (netlify_healthCheck_returns e w) as [r [w' [Hrun [Herr _]]]].
    exists r, w'. rewrite (Herr _ Hload). repeat split.
    + rewrite Hrun, (Herr _ Hload). reflexivity.
    + apply attemptProvider_unhealthy
        with (r := {| Providers.healthy := false;
                      Providers.error :=
                        Some ("Netlify API unreachable: "
                              +:+ "No valid Netlify credentials found") |});
        [|reflexivity].
      cbn. rewrite Hrun, (Herr _ Hload). reflexivity.
Qed.

(** C4 at a concrete environment: nothing in [process.env], a complete
    Porkbun credential file and no other file.  Porkbun asks all three
    of its sources, the file last. *)
Lemma credentials_first_complete_source_witness :
  snd (Providers.Porkbun.loadCredentials Samples.file_only)
  = JS.Normal (Providers.VObj {[ "apiKey" := Providers.VStr "pk1_4f2a";
                                 "secretKey" := Providers.VStr "sk1_9c7e" ]})
  /\ fst (Providers.Porkbun.loadCredentials Samples.file_only)
     = [Providers.Environment; Providers.SecretsManager; Providers.ConfigFile]
  /\ snd (Providers.Cloudflare.loadCredentials Samples.file_only)
     = JS.Throw "No valid Cloudflare credentials found"
  /\ fst (Providers.Cloudflare.loadCredentials Samples.file_only)
     = [Providers.Environment; Providers.ConfigFile; Providers.SecretsManager].
Proof.
  destruct (credentials_first_complete_source Samples.file_only)
    as (_ & _ & _ & [Hp Hp_asked] & [Hc Hc_asked] & _).
  - intros _. vm_compute. reflexivity.
  - vm_compute. discriminate.
  - vm_compute. discriminate.
  - split; [rewrite Hp; vm_compute; reflexivity|].
    split; [rewrite Hp_asked; vm_compute; reflexivity|].
    split; [rewrite Hc; vm_compute; reflexivity|].
    rewrite Hc_asked. vm_compute. reflexivity.
Defined.

(** C4, the claim as stated fails.  Porkbun asks the secret manager
    before the config file, so the sources it asks are not taken in the
    order environment, file, secret manager; and a credential file that
    lacks the secret key is returned as the credentials all the same. *)
Lemma porkbun_asks_secrets_before_file :
  fst (Providers.Porkbun.loadCredentials Samples.file_only)
  = [Providers.Environment; Providers.SecretsManager; Providers.ConfigFile]
  /\ ~ (exists rest,
           [Providers.Environment; Providers.ConfigFile;
            Providers.SecretsManager]
           = fst (Providers.Porkbun.loadCredentials Samples.file_only) ++ rest)
  /\ (exists creds,
         snd (Providers.Porkbun.loadCredentials Samples.file_incomplete)
         = JS.Normal creds
         /\ Spec.complete ["apiKey"; "secretKey"] creds = false).
Proof.
  split; [vm_compute; reflexivity|]. split.
  - intros [rest H]. vm_compute in H. discriminate.
  - eexists. split; [vm_compute; reflexivity|]. vm_compute. reflexivity.
Qed.

(** C3, where the code fails.  [PorkbunProvider.createRecord] never looks
    for an existing record: whatever requests the account has seen, it
    either sends nothing (no credentials loaded) or sends exactly one
    request, the creation of a new CNAME record.  An existing record is
    therefore never updated in place. *)
Theorem porkbun_createRecord_always_creates
        (e : Providers.Env) (args : Providers.RecordArgs)
        (w : Providers.World) :
  exists r w',
    Providers.Porkbun.createRecord e args w = Some (JS.Normal r, w')
    /\ ((Providers.history w' = Providers.history w
         /\ Providers.success r = false)
        \/ exists secretKey apiKey,
            Providers.history w'
            = Providers.history w
              ++ [Providers.PorkbunCreate
                    (Providers.domain args) secretKey apiKey
                    (Providers.subdomain args) "CNAME"
                    (Providers.target args) (Providers.ttl args)]).
Proof.
  unfold Providers.Porkbun.createRecord.
  destruct (Providers.property (Providers.porkbun_credentials w) "secretKey")
    as [secretKey|m1]; cbn;
    [destruct (Providers.property (Providers.porkbun_credentials w) "apiKey")
       as [apiKey|m2]; cbn|].
  - destruct (Providers.porkbun_create e _ _) as [data|msg detail];
      do 2 eexists; (split; [reflexivity|]); right;
      exists secretKey, apiKey; reflexivity.
  - do 2 eexists. split; [reflexivity|]. left. split; reflexivity.
  - do 2 eexists. split; [reflexivity|]. left. split; reflexivity.
Qed.

(** The failing input: the record for [fogg] is created, then created
    again.  The account receives two creation requests and holds two
    records, numbered 1 and 2. *)
Example porkbun_creates_twice :
  let e := Samples.porkbun_accepts in
  let run :=
    (let* health := Providers.Porkbun.healthCheck e in
     let* first := Providers.Porkbun.createRecord e Samples.fogg_record in
     let* second := Providers.Porkbun.createRecord e Samples.fogg_record in
     JS.ret (Providers.recordId first, Providers.recordId second)) in
  exists w',
    run Providers.fresh = Some (JS.Normal (Some "1", Some "2"), w')
    /\ length (List.filter Samples.is_create (Providers.history w')) = 2%nat.
Proof. eexists. split; vm_compute; reflexivity. Qed.

(** The sibling provider does look: when the zone is known and the
    listing of CNAME records for the subdomain answers with a record,
    [CloudflareProvider.createRecord] sends an update of that record and
    no creation, and reports the id of the record it updated. *)
Lemma cloudflare_createRecord_updates_in_place
      (e : Providers.Env) (args : Providers.RecordArgs) (w : Providers.World)
      zone fields record others :
  Providers.cloudflare_zoneId w = Some zone ->
  JS.truthy_string zone = true ->
  Providers.cloudflare_credentials w = Providers.VObj fields ->
  let token := default Providers.VUndefined (fields !! "apiToken") in
  let listing :=
    Providers.CloudflareListRecords token zone (Providers.subdomain args)
                                    "CNAME" in
  Providers.cloudflare_records e (Providers.history w) listing
  = JS.Normal {| Providers.records_success := true;
                 Providers.records_result := record :: others |} ->
  exists r w',
    Providers.Cloudflare.createRecord e args w = Some (JS.Normal r, w')
    /\ Providers.history w'
       = Providers.history w
         ++ [listing;
             Providers.CloudflareUpdateRecord
               token zone (Providers.record_id record) "CNAME"
               (Providers.target args) (Providers.ttl args)]
    /\ (Providers.success r = true ->
        Providers.recordId r = Some (Providers.record_id record)).
Proof.
  intros Hzone Hknown Hcreds token listing Hlist.
  unfold Providers.Cloudflare.createRecord, Providers.Cloudflare.getZoneId,
    Providers.Cloudflare.findExistingRecord, Providers.Cloudflare.updateRecord.
  run_monad. rewrite Hzone. cbn. rewrite Hknown. cbn.
  rewrite Hzone, Hcreds. cbn. fold token. fold listing. rewrite Hlist. cbn.
  rewrite Hzone, Hcreds. cbn. fold token.
  destruct (Providers.cloudflare_write e _ _) as [data|msg]; cbn;
    do 2 eexists; (split; [reflexivity|]); cbn;
    rewrite <- app_assoc; (split; [reflexivity|]); cbn;
    [reflexivity|discriminate].
Qed.

(* ===================================================================== *)
(** * dns-management-system.js: configureDNS *)
(* ===================================================================== *)

Lemma porkbun_createRecord_returns e args w :
  exists r w', Providers.Porkbun.createRecord e args w = Some (JS.Normal r, w').
Proof.
  unfold Providers.Porkbun.createRecord.
  destruct (JS.bind _ _) as [req|msg]; [|do 2 eexists; reflexivity].
  destruct (Providers.porkbun_create e _ _); do 2 eexists; reflexivity.
Qed.

(** The alternative subdomains: the strategy always returns a result, and
    never one with a temporary URL. *)
Lemma try_alternatives_returns e cfg alternatives :
  forall w, exists o w',
      Manager.try_alternatives e cfg alternatives w = Some (JS.Normal o, w')
      /\ Manager.temporaryUrl o = None.
Proof.
  induction alternatives as [|alt rest IH]; intros w.
  - do 2 eexists. split; reflexivity.
  - cbn [Manager.try_alternatives]. run_monad.
    match goal with
    | |- context [Providers.Porkbun.createRecord e ?a w] =>
        destruct (porkbun_createRecord_returns e a w) as [r [w1 Hrun]];
        rewrite Hrun
    end.
    cbn. destruct (Providers.success r); cbn.
    + do 2 eexists. split; reflexivity.
    + apply IH.
Qed.

Lemma try_alternatives_method e cfg alternatives :
  forall w o w',
    Manager.try_alternatives e cfg alternatives w = Some (JS.Normal o, w') ->
    Manager.success o = true ->
    Manager.method o = Some "alternative_subdomain".
Proof.
  induction alternatives as [|alt rest IH]; intros w o w'.
  - cbn. intros [= <- <-]. discriminate.
  - cbn [Manager.try_alternatives]. run_monad.
    match goal with
    | |- context [Providers.Porkbun.createRecord e ?a w] =>
        destruct (porkbun_createRecord_returns e a w) as [r [w1 Hrun]];
        rewrite Hrun
    end.
    cbn. destruct (Providers.success r); cbn.
    + intros [= <- <-]. reflexivity.
    + apply IH.
Qed.

(** One turn of the loop over the backup strategies. *)
Lemma first_successful_cons strategy rest w :
  Manager.first_successful (strategy :: rest) w
  = match strategy w with
    | Some (JS.Normal result, w') =>
        if Manager.success result then Some (JS.Normal result, w')
        else Manager.first_successful rest w'
    | Some (JS.Throw _, w') => Manager.first_successful rest w'
    | None => None
    end.
Proof.
  cbn [Manager.first_successful].
  unfold JS.mbind at 1. unfold JS.catch. unfold JS.mbind at 1.
  destruct (strategy w) as [[[result|msg] w']|]; cbn; [|reflexivity..].
  destruct (Manager.success result); reflexivity.
Qed.

(** The backup strategies always end with a result that reports success:
    the redirect when its file can be written, else an alternative
    subdomain or the proxy configuration.  The manual instructions with
    their temporary URL are never reached. *)
Lemma implementBackupStrategy_succeeds e cfg w :
  exists o w',
    Manager.implementBackupStrategy e cfg w = Some (JS.Normal o, w')
    /\ Manager.success o = true
    /\ Manager.temporaryUrl o = None
    /\ In (Manager.method o)
          [Some "netlify_redirect"; Some "alternative_subdomain";
           Some "proxy_server"].
Proof.
  unfold Manager.implementBackupStrategy.
  rewrite first_successful_cons.
  assert (Hredirect :
            Manager.useNetlifyRedirect e w
            = match Providers.write_file e "netlify/_redirects" with
              | JS.Normal _ =>
                  Some (JS.Normal
                          {| Manager.success := true;
                             Manager.provider := None;
                             Manager.method := Some "netlify_redirect";
                             Manager.url := Some "https://candlefish.ai/fogg";
                             Manager.note :=
                               Some "Users can access via main domain redirect";
                             Manager.alt_subdomain := None;
                             Manager.proxy_target := None;
                             Manager.file := None;
                             Manager.temporaryUrl := None;
                             Manager.error := None |}, w)
              | JS.Throw msg => Some (JS.Normal (Manager.failed msg), w)
              end).
  { unfold Manager.useNetlifyRedirect. run_monad.
    destruct (Providers.write_file e "netlify/_redirects"); reflexivity. }
  rewrite Hredirect.
  destruct (Providers.write_file e "netlify/_redirects") as [[]|msg].
  { do 2 eexists. split; [reflexivity|]. cbn. intuition. }
  cbn [Manager.failed Manager.success].
  rewrite first_successful_cons.
  unfold Manager.createAlternativeSubdomain.
  destruct (try_alternatives_returns e cfg
              ["fogg-cal"; "fogg-dashboard"; "calendar-fogg"] w)
    as [o [w1 [Hrun Htemp]]].
  rewrite Hrun.
  destruct (Manager.success o) eqn:Hok.
  - do 2 eexists. split; [reflexivity|]. split; [exact Hok|].
    split; [exact Htemp|].
    rewrite (try_alternatives_method _ _ _ _ _ _ Hrun Hok). cbn. intuition.
  - rewrite first_successful_cons. cbn.
    do 2 eexists. split; [reflexivity|]. cbn. intuition.
Qed.

(** With every provider unhealthy the provider chain runs to its end and
    configures nothing. *)
Lemma provider_chain_unhealthy e cfg (ps : list Providers.Provider) :
  (forall p, In p ps ->
             forall w, exists r w',
                 Providers.healthCheck p e w = Some (JS.Normal r, w')
                 /\ Providers.healthy r = false) ->
  forall w, exists w',
      Manager.provider_chain e cfg ps w = Some (JS.Normal None, w').
Proof.
  induction ps as [|p rest IH]; intros Hall w.
  - eexists. reflexivity.
  - cbn [Manager.provider_chain].
    destruct (Hall p (or_introl eq_refl) w) as [r [w1 [Hrun Hunhealthy]]].
    pose proof (attemptProvider_unhealthy e cfg p w r w1 Hrun Hunhealthy)
      as Hattempt.
    unfold JS.mbind at 1. unfold JS.catch at 1. unfold JS.mbind at 1.
    rewrite Hattempt. cbn.
    apply IH. intros q Hq. apply Hall. right. exact Hq.
Qed.

(** C2, where the code fails.  When the health check of every configured
    provider reports unavailable, [configureDNS] does not throw, but the
    object it returns has [success = true]: it is the result of the first
    backup strategy that reports success (the redirect, an alternative
    subdomain or the proxy configuration), never [{success: false}], and
    it carries no temporary URL. *)
Theorem configureDNS_all_unavailable (e : Providers.Env) (w : Providers.World) :
  (forall p, In p Manager.providers ->
             forall w0 r w1,
               Providers.healthCheck p e w0 = Some (JS.Normal r, w1) ->
               Providers.healthy r = false) ->
  exists outcome w',
    Manager.configureDNS e Manager.config w = Some (JS.Normal outcome, w')
    /\ Manager.success outcome = true
    /\ Manager.temporaryUrl outcome = None
    /\ In (Manager.method outcome)
          [Some "netlify_redirect"; Some "alternative_subdomain";
           Some "proxy_server"].
Proof.
  intros Hunavailable.
  assert (Hall : forall p, In p Manager.providers ->
                           forall w0, exists r w1,
                               Providers.healthCheck p e w0
                               = Some (JS.Normal r, w1)
                               /\ Providers.healthy r = false).
  { intros p Hp w0.
    assert (Hreturns : exists r w1,
               Providers.healthCheck p e w0 = Some (JS.Normal r, w1)).
    { destruct Hp as [<-|[<-|[<-|[]]]]; cbn.
      - destruct (porkbun_healthCheck_returns e w0) as [r [w1 [H _]]]. eauto.
      - do 2 eexists. reflexivity.
      - do 2 eexists. reflexivity. }
    destruct Hreturns as [r [w1 Hrun]]. exists r, w1.
    split; [exact Hrun|]. apply (Hunavailable p Hp w0 r w1 Hrun). }
  unfold Manager.configureDNS.
  destruct (provider_chain_unhealthy e Manager.config Manager.providers Hall w)
    as [w1 Hchain].
  unfold JS.mbind. rewrite Hchain.
  apply implementBackupStrategy_succeeds.
Qed.

(** C2 at a concrete run: no credentials for Porkbun that its API
    accepts, the two other providers not implemented, the working
    directory writable. *)
Lemma configureDNS_all_unavailable_witness :
  exists outcome w',
    Manager.configureDNS Samples.file_only Manager.config Providers.fresh
    = Some (JS.Normal outcome, w')
    /\ Manager.success outcome = true
    /\ Manager.temporaryUrl outcome = None
    /\ In (Manager.method outcome)
          [Some "netlify_redirect"; Some "alternative_subdomain";
           Some "proxy_server"].
Proof.
  apply (configureDNS_all_unavailable Samples.file_only Providers.fresh).
  intros p [<-|[<-|[<-|[]]]] w0 r w1; cbn.
  - intros Hrun.
    destruct (porkbun_healthCheck_returns Samples.file_only w0)
      as [r0 [w2 [Hrun0 [_ Hok]]]].
    rewrite Hrun0 in Hrun. injection Hrun as <- <-.
    destruct (Providers.healthy r0); [|reflexivity].
    destruct (Hok eq_refl) as [req [data [Hping _]]]. discriminate.
  - intros [= <- <-]. reflexivity.
  - intros [= <- <-]. reflexivity.
Defined.

Example configureDNS_redirect :
  match Manager.configureDNS Samples.file_only Manager.config
                             Providers.fresh with
  | Some (JS.Normal outcome, _) =>
      Manager.success outcome = true
      /\ Manager.method outcome = Some "netlify_redirect"
      /\ Manager.url outcome = Some "https://candlefish.ai/fogg"
  | _ => False
  end.
Proof. vm_compute. repeat split; reflexivity. Qed.

(** ** The propagation wait always ends *)

Lemma propagation_loop_ends e cfg startTime :
  forall fuel w,
    Manager.verificationTimeout cfg - (Providers.clock w - startTime)
    <= 10000 * Z.of_nat fuel ->
    exists v w',
      Manager.propagation_loop e cfg startTime fuel w
      = Some (JS.Normal v, w').
Proof.
  induction fuel as [|fuel IH]; intros w Hleft.
  - cbn. run_monad.
    destruct (Z.ltb_spec (Providers.clock w - startTime)
                (Manager.verificationTimeout cfg)); [lia|].
    do 2 eexists. reflexivity.
  - cbn [Manager.propagation_loop]. run_monad.
    destruct (Z.ltb_spec (Providers.clock w - startTime)
                (Manager.verificationTimeout cfg)) as [Hin|Hout];
      [|do 2 eexists; reflexivity].
    destruct (Providers.resolveCname e (Providers.clock w))
      as [[addresses|msg] took]; run_monad.
    + destruct (JS.includes addresses (Manager.target cfg)).
      * destruct (Providers.http_get e _) as [[status|msg] took2];
          do 2 eexists; reflexivity.
      * run_monad. apply IH. cbn. lia.
    + apply IH. cbn. lia.
Qed.

Lemma verifyDNSPropagation_ends e cfg w :
  exists v w', Manager.verifyDNSPropagation e cfg w = Some (JS.Normal v, w').
Proof.
  unfold Manager.verifyDNSPropagation.
  unfold JS.mbind at 1. unfold JS.gets at 1.
  apply propagation_loop_ends.
  pose proof (Z.mul_succ_div_gt (Manager.verificationTimeout cfg) 10000
                ltac:(lia)) as Hdiv.
  destruct (Z.le_gt_cases 0 (Manager.verificationTimeout cfg / 10000)).
  - rewrite Nat2Z.inj_succ, Z2Nat.id by assumption. lia.
  - replace (Z.to_nat (Manager.verificationTimeout cfg / 10000)) with 0%nat
      by lia.
    destruct (Z.le_gt_cases 0 (Manager.verificationTimeout cfg)) as [Hpos|Hneg].
    + pose proof (Z.div_pos (Manager.verificationTimeout cfg) 10000 Hpos
                    ltac:(lia)). lia.
    + lia.
Qed.

(** ** configureDNS never throws *)

Lemma catch_returns {S A} (body : JS.M S A) (a : A) (s : S) :
  (exists c s', body s = Some (c, s')) ->
  exists r s', JS.catch body (fun _ => JS.ret a) s = Some (JS.Normal r, s').
Proof.
  intros [[r|msg] [s' H]]; unfold JS.catch; rewrite H;
    do 2 eexists; reflexivity.
Qed.

Lemma attemptProvider_returns e cfg p w :
  In p Manager.providers ->
  exists ok w', Manager.attemptProvider e cfg p w = Some (JS.Normal ok, w').
Proof.
  intros Hp. unfold Manager.attemptProvider. apply catch_returns.
  unfold JS.mbind at 1.
  assert (Hhealth : exists r w1,
             Providers.healthCheck p e w = Some (JS.Normal r, w1)).
  { destruct Hp as [<-|[<-|[<-|[]]]]; cbn.
    - destruct (porkbun_healthCheck_returns e w) as [r [w1 [H _]]]. eauto.
    - do 2 eexists. reflexivity.
    - do 2 eexists. reflexivity. }
  destruct Hhealth as [r [w1 ->]].
  destruct (Providers.healthy r); cbn [negb];
    [|unfold JS.throw; do 2 eexists; reflexivity].
  unfold JS.mbind at 1.
  match goal with
  | |- context [Providers.createRecord p e ?a w1] =>
      assert (Hcreate : exists rec w2,
                 Providers.createRecord p e a w1 = Some (JS.Normal rec, w2))
  end.
  { destruct Hp as [<-|[<-|[<-|[]]]]; cbn.
    - apply porkbun_createRecord_returns.
    - do 2 eexists. reflexivity.
    - do 2 eexists. reflexivity. }
  destruct Hcreate as [rec [w2 ->]].
  destruct (Providers.success rec); cbn [negb];
    [|unfold JS.throw; do 2 eexists; reflexivity].
  unfold JS.mbind.
  destruct (verifyDNSPropagation_ends e cfg w2) as [v [w3 ->]].
  do 2 eexists. reflexivity.
Qed.

Lemma provider_chain_returns e cfg (ps : list Providers.Provider) :
  (forall p, In p ps -> In p Manager.providers) ->
  forall w, exists r w',
      Manager.provider_chain e cfg ps w = Some (JS.Normal r, w').
Proof.
  induction ps as [|p rest IH]; intros Hsub w.
  - do 2 eexists. reflexivity.
  - cbn [Manager.provider_chain].
    destruct (attemptProvider_returns e cfg p w (Hsub p (or_introl eq_refl)))
      as [ok [w1 Hattempt]].
    unfold JS.mbind at 1. unfold JS.catch at 1. unfold JS.mbind at 1.
    rewrite Hattempt. destruct ok; cbn.
    + do 2 eexists. reflexivity.
    + apply IH. intros q Hq. apply Hsub. right. exact Hq.
Qed.

(** Whatever the providers, the network and the file system do,
    [configureDNS] returns an object; it never throws. *)
Lemma configureDNS_never_throws e w :
  exists outcome w',
    Manager.configureDNS e Manager.config w = Some (JS.Normal outcome, w').
Proof.
  unfold Manager.configureDNS.
  destruct (provider_chain_returns e Manager.config Manager.providers
              (fun p H => H) w) as [r [w1 Hchain]].
  unfold JS.mbind. rewrite Hchain.
  destruct r as [result|].
  - do 2 eexists. reflexivity.
  - destruct (implementBackupStrategy_succeeds e Manager.config w1)
      as [o [w2 [H _]]].
    eauto.
Qed.

(* ===================================================================== *)
(** * Further properties of dns-verifier.js *)
(* ===================================================================== *)

(** A report that [generateFinalReport] returns is built from a check
    that is there, carries the status asked for and the next steps that
    go with it, and counts the checks run so far. *)
Lemma generateFinalReport_report cfg results write finalCheck startTime
      at_time st report :
  Verifier.generateFinalReport cfg results write finalCheck startTime at_time st
  = JS.Normal report ->
  Verifier.status (Verifier.summary report) = st
  /\ Verifier.finalState report = finalCheck
  /\ finalCheck <> None
  /\ Verifier.nextSteps report = Verifier.generateNextSteps finalCheck st
  /\ Verifier.summary_totalChecks (Verifier.summary report)
     = Z.of_nat (length results).
Proof.
  unfold Verifier.generateFinalReport.
  destruct finalCheck as [check|]; [|discriminate].
  cbn [Verifier.generateRecommendations JS.bind].
  destruct write as [[]|msg]; [|discriminate].
  cbn [JS.bind]. intros [= <-]. cbn. repeat split. discriminate.
Qed.

Lemma deliver_quiet done :
  forall results lastCheck,
    Spec.quiet lastCheck ->
    match Verifier.deliver done results lastCheck with
    | (_, lastCheck', Some (_, check)) =>
        lastCheck' = Some check
        /\ Verifier.success (Verifier.overall check) = true
    | (_, lastCheck', None) => Spec.quiet lastCheck'
    end.
Proof.
  induction done as [|[t check] rest IH]; intros results lastCheck Hquiet.
  - exact Hquiet.
  - cbn [Verifier.deliver].
    destruct (Verifier.success (Verifier.overall check)) eqn:Hok.
    + split; [reflexivity|exact Hok].
    + apply IH. exact Hok.
Qed.

Lemma monitor_report cfg env setup :
  forall fuel k results lastCheck pending,
    Spec.quiet lastCheck ->
    match Verifier.monitor cfg env setup fuel k results lastCheck pending with
    | Some (JS.Normal report) =>
        exists check,
          Verifier.finalState report = Some check
          /\ ((Verifier.status (Verifier.summary report) = "success"
               /\ Verifier.success (Verifier.overall check) = true
               /\ Verifier.nextSteps report
                  = Verifier.generateNextSteps (Some check) "success")
              \/ (Verifier.status (Verifier.summary report) = "timeout"
                  /\ Verifier.success (Verifier.overall check) = false
                  /\ Verifier.nextSteps report
                     = Verifier.generateNextSteps (Some check) "timeout"))
    | _ => True
    end.
Proof.
  induction fuel as [|fuel IH]; intros k results lastCheck pending Hquiet;
    [exact I|].
  cbn [Verifier.monitor].
  pose proof (deliver_quiet
                (Verifier.arrivals
                   (setup + Z.of_nat k
                            * Verifier.timer_delay (Verifier.checkInterval cfg))
                   pending)
                results lastCheck Hquiet) as Hdeliver.
  destruct (Verifier.deliver _ results lastCheck)
    as [[results1 lastCheck1] won].
  destruct won as [[t check]|].
  - destruct Hdeliver as [_ Hok].
    destruct (Verifier.generateFinalReport _ _ _ _ _ _ _) as [report|msg] eqn:Hrep;
      [|exact I].
    apply generateFinalReport_report in Hrep.
    destruct Hrep as (Hst & Hfinal & _ & Hsteps & _).
    exists check. split; [exact Hfinal|]. left. repeat split; assumption.
  - destruct (Verifier.timeout cfg <=? _).
    + destruct (Verifier.generateFinalReport _ _ _ _ _ _ _)
        as [report|msg] eqn:Hrep; [|exact I].
      apply generateFinalReport_report in Hrep.
      destruct Hrep as (Hst & Hfinal & Hsome & Hsteps & _).
      destruct lastCheck1 as [check|]; [|congruence].
      exists check. split; [exact Hfinal|]. right.
      repeat split; assumption.
    + apply IH. exact Hdeliver.
Qed.

(** X1.  Whatever [verify] meets, a report it returns carries the check
    it was built from, and its status tells what that check found:
    [unknown] for an initial check that already succeeded, [success] for
    a polled check that succeeded (with the next steps for success),
    [timeout] for a last polled check that did not (with the manual next
    steps).  No other status occurs. *)
Theorem verify_report_status cfg env :
  match Verifier.verify cfg env with
  | Some (JS.Normal report) =>
      exists check,
        Verifier.finalState report = Some check
        /\ ((Verifier.status (Verifier.summary report) = "unknown"
             /\ Verifier.success (Verifier.overall check) = true
             /\ check = Verifier.performComprehensiveCheck
                          cfg (Verifier.initial_probes env))
            \/ (Verifier.status (Verifier.summary report) = "success"
                /\ Verifier.success (Verifier.overall check) = true
                /\ Verifier.nextSteps report
                   = ["✅ DNS is fully operational";
                      "🔍 Monitor with: node dns-monitor.js";
                      "📊 Set up continuous monitoring"])
            \/ (Verifier.status (Verifier.summary report) = "timeout"
                /\ Verifier.success (Verifier.overall check) = false
                /\ Verifier.nextSteps report
                   = ["⚠️  Consider manual DNS configuration";
                      "🔄 Try alternative DNS provider (Cloudflare)";
                      "📞 Contact domain registrar support"]))
  | _ => True
  end.
Proof.
  unfold Verifier.verify.
  destruct (Verifier.success
              (Verifier.overall
                 (Verifier.performComprehensiveCheck
                    cfg (Verifier.initial_probes env)))) eqn:Hinitial.
  - destruct (Verifier.generateFinalReport _ _ _ _ _ _ _) as [report|msg] eqn:Hrep;
      [|exact I].
    apply generateFinalReport_report in Hrep.
    destruct Hrep as (Hst & Hfinal & _).
    eexists. split; [exact Hfinal|]. left. repeat split; assumption.
  - pose proof (monitor_report cfg env
                  (Verifier.startTime env
                   + Verifier.duration (Verifier.initial_probes env))
                  (Verifier.firings cfg env) 1
                  [Verifier.performComprehensiveCheck
                     cfg (Verifier.initial_probes env)]
                  None [] I) as H.
    destruct (Verifier.monitor _ _ _ _ _ _ _ _) as [[report|msg]|]; try exact I.
    destruct H as [check [Hfinal [H|H]]]; exists check;
      (split; [exact Hfinal|]); right; [left|right]; exact H.
Qed.

(** X2.  When the initial check already succeeds, [verify] returns at
    once, after that one check, with the status [unknown] (the default of
    [generateFinalReport]) and the next steps for a verification still
    under way; the command line, which exits with 0 for the status
    [success] only, exits with 1. *)
Theorem verify_already_working cfg env :
  Verifier.success
    (Verifier.overall
       (Verifier.performComprehensiveCheck cfg (Verifier.initial_probes env)))
  = true ->
  exists outcome,
    Verifier.verify cfg env = Some outcome
    /\ Verifier.exit_code outcome = 1
    /\ forall report,
        outcome = JS.Normal report ->
        Verifier.status (Verifier.summary report) = "unknown"
        /\ Verifier.summary_totalChecks (Verifier.summary report) = 1
        /\ Verifier.nextSteps report
           = ["⏳ Continue waiting for DNS propagation";
              "🔍 Run verification again in 30 minutes";
              "📋 Check DNS record configuration"].
Proof.
  intros Hinitial. unfold Verifier.verify. rewrite Hinitial.
  eexists. split; [reflexivity|].
  destruct (Verifier.generateFinalReport _ _ _ _ _ _ _) as [report|msg] eqn:Hrep.
  - apply generateFinalReport_report in Hrep.
    destruct Hrep as (Hst & _ & _ & Hsteps & Hcount).
    split.
    + unfold Verifier.exit_code. rewrite Hst. reflexivity.
    + intros ? [= <-]. repeat split; assumption.
  - split; [reflexivity|]. discriminate.
Qed.

(** X2 at a concrete run: the record resolves everywhere from the
    start. *)
Lemma verify_already_working_witness :
  exists outcome,
    Verifier.verify Samples.patient_config Samples.working_env = Some outcome
    /\ Verifier.exit_code outcome = 1
    /\ forall report,
        outcome = JS.Normal report ->
        Verifier.status (Verifier.summary report) = "unknown"
        /\ Verifier.summary_totalChecks (Verifier.summary report) = 1
        /\ Verifier.nextSteps report
           = ["⏳ Continue waiting for DNS propagation";
              "🔍 Run verification again in 30 minutes";
              "📋 Check DNS record configuration"].
Proof.
  apply (verify_already_working Samples.patient_config Samples.working_env).
  vm_compute. reflexivity.
Defined.

Lemma length_js_insert {A} (cmp : A -> A -> Q) x l :
  length (JS.insert cmp x l) = S (length l).
Proof.
  induction l as [|y rest IH]; cbn; [reflexivity|].
  destruct (JS.negative (cmp x y)); cbn; [reflexivity|]. rewrite IH. reflexivity.
Qed.

Lemma length_js_sort {A} (cmp : A -> A -> Q) (l : list A) :
  length (JS.sort cmp l) = length l.
Proof.
  unfold JS.sort.
  assert (H : forall l acc,
             length (fold_left (fun sorted x => JS.insert cmp x sorted) l acc)
             = (length l + length acc)%nat).
  { clear. induction l as [|x rest IH]; intros acc; cbn; [reflexivity|].
    rewrite IH, length_js_insert. lia. }
  rewrite H. cbn. lia.
Qed.

Lemma length_partition {A} (f : A -> bool) (l : list A) :
  (length (List.filter f l) + length (List.filter (fun x => negb (f x)) l)
   = length l)%nat.
Proof.
  induction l as [|x rest IH]; cbn; [reflexivity|].
  destruct (f x); cbn; lia.
Qed.

Lemma deliver_length done :
  forall results lastCheck,
    let '(results', _, won) := Verifier.deliver done results lastCheck in
    (length results <= length results')%nat
    /\ (length results' <= length results + length done)%nat
    /\ (won = None ->
        length results' = (length results + length done)%nat).
Proof.
  induction done as [|[t check] rest IH]; intros results lastCheck.
  - cbn. lia.
  - cbn [Verifier.deliver].
    destruct (Verifier.success (Verifier.overall check)).
    + rewrite length_app. cbn. repeat split; try lia. discriminate.
    + specialize (IH (results ++ [check]) (Some check)).
      destruct (Verifier.deliver rest (results ++ [check]) (Some check))
        as [[results' lastCheck'] won].
      rewrite length_app in IH. cbn in *.
      destruct IH as (Hlow & Hup & Hexact).
      repeat split; [lia|lia|].
      intros Hnone. specialize (Hexact Hnone). lia.
Qed.

Lemma monitor_counts cfg env setup :
  forall fuel k results lastCheck pending,
    (1 <= length results)%nat ->
    (length results + length pending <= k)%nat ->
    match Verifier.monitor cfg env setup fuel k results lastCheck pending with
    | Some (JS.Normal report) =>
        1 <= Verifier.summary_totalChecks (Verifier.summary report)
        <= Z.of_nat k + Z.of_nat fuel - 1
    | _ => True
    end.
Proof.
  induction fuel as [|fuel IH]; intros k results lastCheck pending Hone Hsum;
    [exact I|].
  cbn [Verifier.monitor].
  set (T := setup + Z.of_nat k
                    * Verifier.timer_delay (Verifier.checkInterval cfg)).
  pose proof (deliver_length (Verifier.arrivals T pending) results lastCheck)
    as Hlen.
  pose proof (length_partition (fun c : Z * Verifier.Check => fst c <=? T)
                pending) as Hpart.
  assert (Harr : length (Verifier.arrivals T pending)
                 = length (List.filter
                             (fun c : Z * Verifier.Check => fst c <=? T)
                             pending)).
  { unfold Verifier.arrivals. apply length_js_sort. }
  destruct (Verifier.deliver _ results lastCheck)
    as [[results1 lastCheck1] won].
  destruct Hlen as (Hlow & Hup & Hexact).
  cbn beta in Hpart.
  destruct won as [[t check]|].
  - clear Hexact.
    destruct (Verifier.generateFinalReport _ _ _ _ _ _ _) as [report|msg] eqn:Hrep;
      [|exact I].
    apply generateFinalReport_report in Hrep.
    destruct Hrep as (_ & _ & _ & _ & ->). lia.
  - specialize (Hexact eq_refl).
    destruct (Verifier.timeout cfg <=? _).
    + destruct (Verifier.generateFinalReport _ _ _ _ _ _ _)
        as [report|msg] eqn:Hrep; [|exact I].
      apply generateFinalReport_report in Hrep.
      destruct Hrep as (_ & _ & _ & _ & ->). lia.
    + set (launched :=
             (T + Verifier.duration (Verifier.tick_probes env k),
              Verifier.performComprehensiveCheck
                cfg (Verifier.tick_probes env k))).
      specialize (IH (S k) results1 lastCheck1
                     (Verifier.still_running T pending ++ [launched])).
      assert (H1 : (1 <= length results1)%nat) by lia.
      assert (H2 : (length results1
                    + length (Verifier.still_running T pending ++ [launched])
                    <= S k)%nat).
      { rewrite length_app. cbn [length].
        unfold Verifier.still_running. lia. }
      specialize (IH H1 H2).
      destruct (Verifier.monitor _ _ _ _ _ _ _ _) as [[report|msg]|];
        try exact I.
      lia.
Qed.

(** X3.  The deadline bounds the polling: every run of [verify] ends,
    and a report it returns counts at least the initial check and at most
    one check more than the intervals that fit between the end of the
    initial check and the deadline. *)
Theorem verify_polling_bounded cfg env :
  exists outcome,
    Verifier.verify cfg env = Some outcome
    /\ match outcome with
       | JS.Normal report =>
           1 <= Verifier.summary_totalChecks (Verifier.summary report)
           <= 1 + Z.max 0
                    ((Verifier.timeout cfg
                      - Verifier.duration (Verifier.initial_probes env))
                     / Verifier.timer_delay (Verifier.checkInterval cfg))
       | JS.Throw _ => True
       end.
Proof.
  destruct (verify_ends cfg env) as [outcome Hrun].
  exists outcome. split; [exact Hrun|].
  destruct outcome as [report|msg]; [|exact I].
  unfold Verifier.verify in Hrun.
  destruct (Verifier.success _).
  - injection Hrun as Hrep. apply generateFinalReport_report in Hrep.
    destruct Hrep as (_ & _ & _ & _ & ->). cbn. lia.
  - pose proof (monitor_counts cfg env
                  (Verifier.startTime env
                   + Verifier.duration (Verifier.initial_probes env))
                  (Verifier.firings cfg env) 1
                  [Verifier.performComprehensiveCheck
                     cfg (Verifier.initial_probes env)]
                  None [] ltac:(cbn; lia) ltac:(cbn; lia)) as H.
    rewrite Hrun in H. unfold Verifier.firings in H. lia.
Qed.

Lemma half_of_total (total count : Z) :
  Qle_bool (inject_Z total * (1 # 2)) (inject_Z count) = (total <=? 2 * count).
Proof.
  apply eq_true_iff_eq. rewrite Qle_bool_iff, Z.leb_le.
  unfold Qle, Qmult, inject_Z. cbn. lia.
Qed.

(** X4.  For every check and status, [generateRecommendations] returns at
    most four recommendations, each of priority high or medium: the one
    for failing local DNS and the one for failing HTTP exclude each
    other, since the latter is given only when local DNS works.  There
    is none at all exactly when the status is not [timeout], local DNS,
    HTTP and SSL succeeded and at least half of the DNS servers agreed;
    under the status [timeout] the last one is the timeout
    recommendation. *)
Theorem generateRecommendations_shape (check : Verifier.Check) (st : string) :
  exists recs,
    Verifier.generateRecommendations (Some check) st = JS.Normal recs
    /\ (length recs <= 4)%nat
    /\ (forall r, In r recs ->
                  Verifier.priority r = "high"
                  \/ Verifier.priority r = "medium")
    /\ (recs = []
        <-> st <> "timeout"
            /\ Verifier.local_success
                 (Verifier.local (Verifier.measured check)) = true
            /\ Verifier.servers_totalCount
                 (Verifier.servers (Verifier.measured check))
               <= 2 * Verifier.servers_successCount
                        (Verifier.servers (Verifier.measured check))
            /\ Verifier.http_success
                 (Verifier.http (Verifier.measured check)) = true
            /\ Verifier.ssl_success
                 (Verifier.ssl (Verifier.measured check)) = true)
    /\ (st = "timeout" ->
        exists r, last recs = Some r /\ Verifier.rec_type r = "timeout").
Proof.
  unfold Verifier.generateRecommendations.
  eexists. split; [reflexivity|].
  rewrite half_of_total.
  destruct (Verifier.local_success _), (Verifier.http_success _),
           (Verifier.ssl_success _);
    destruct (Z.leb_spec
                (Verifier.servers_totalCount
                   (Verifier.servers (Verifier.measured check)))
                (2 * Verifier.servers_successCount
                       (Verifier.servers (Verifier.measured check))));
    destruct (String.eqb_spec st "timeout") as [->|Hst];
    cbn [negb andb app length];
    (split; [lia|]);
    (split; [intros r Hr; cbn in Hr;
             repeat (destruct Hr as [<-|Hr]; [cbn; auto|]); destruct Hr|]);
    (split; [split; [try discriminate; intros _; repeat split; (lia || auto)
                    |intros (H1 & H2 & H3 & H4 & H5);
                     try reflexivity; try discriminate; try lia;
                     try (exfalso; apply H1; reflexivity)]|]);
    try (intros _; eexists; split; reflexivity);
    try (intros Heq; exfalso; apply Hst; exact Heq).
Qed.

(** Whole days until a moment [ms] milliseconds away, rounded up: at
    least one exactly when the moment lies ahead. *)
Lemma days_ahead (ms : Z) :
  (0 <? ms) = (1 <=? JS.Math_ceil (inject_Z ms / inject_Z (1000 * 60 * 60 * 24))).
Proof.
  unfold JS.Math_ceil.
  change (1000 * 60 * 60 * 24) with 86400000.
  set (x := (inject_Z ms / inject_Z 86400000)%Q).
  pose proof (Qle_ceiling x) as Hup.
  pose proof (Qceiling_lt x) as Hlow.
  assert (Hx : (x == ms # 86400000)%Q).
  { unfold x, Qdiv, Qmult, Qinv, inject_Z, Qeq. cbn. lia. }
  clearbody x.
  unfold Qle, Qlt, Qeq, inject_Z in *. cbn in Hup, Hlow, Hx.
  pose proof (Pos2Z.is_pos (Qden x)) as Hden.
  apply eq_true_iff_eq. rewrite Z.ltb_lt, Z.leb_le. split; intros H; nia.
Qed.

Lemma verifier_ssl_days (p : Verifier.Probes) :
  match Verifier.daysUntilExpiry (Verifier.checkSSLCertificate p) with
  | Some days =>
      Verifier.ssl_success (Verifier.checkSSLCertificate p) = (1 <=? days)
  | None => Verifier.ssl_success (Verifier.checkSSLCertificate p) = false
  end.
Proof.
  unfold Verifier.checkSSLCertificate.
  destruct (Verifier.tls p) as [[cert|]|msg|]; try reflexivity.
  destruct (JS.truthy_string (Verifier.valid_from cert)); [|reflexivity].
  cbn [Verifier.daysUntilExpiry Verifier.ssl_success].
  rewrite <- days_ahead.
  apply eq_true_iff_eq. rewrite !Z.ltb_lt. lia.
Qed.

Lemma monitor_ssl_days (p : Monitor.Probes) :
  match Monitor.daysUntilExpiry (Monitor.checkSSLCertificate p) with
  | Some days =>
      Monitor.ssl_success (Monitor.checkSSLCertificate p) = (1 <=? days)
  | None => Monitor.ssl_success (Monitor.checkSSLCertificate p) = false
  end.
Proof.
  unfold Monitor.checkSSLCertificate.
  destruct (Monitor.tls p) as [[cert|]|msg|]; try reflexivity.
  destruct (JS.truthy_string (Monitor.valid_from cert)); [|reflexivity].
  cbn [Monitor.daysUntilExpiry Monitor.ssl_success].
  rewrite <- days_ahead.
  apply eq_true_iff_eq. rewrite !Z.ltb_lt. lia.
Qed.

(** X5.  In both the verifier and the monitor, the certificate check
    succeeds exactly when the number of days to expiry it reports is at
    least one; when it reports no number (no certificate, an error, a
    timeout) it has failed.  A certificate that expires within the day
    still counts one day, one that has expired counts zero or less. *)
Theorem checkSSLCertificate_days :
  (forall p : Verifier.Probes,
      match Verifier.daysUntilExpiry (Verifier.checkSSLCertificate p) with
      | Some days =>
          Verifier.ssl_success (Verifier.checkSSLCertificate p) = (1 <=? days)
      | None => Verifier.ssl_success (Verifier.checkSSLCertificate p) = false
      end)
  /\ (forall p : Monitor.Probes,
         match Monitor.daysUntilExpiry (Monitor.checkSSLCertificate p) with
         | Some days =>
             Monitor.ssl_success (Monitor.checkSSLCertificate p) = (1 <=? days)
         | None => Monitor.ssl_success (Monitor.checkSSLCertificate p) = false
         end).
Proof. split; [exact verifier_ssl_days|exact monitor_ssl_days]. Qed.

(* ===================================================================== *)
(** * Further properties of dns-monitor.js *)
(* ===================================================================== *)

Lemma performHealthCheck_failures cfg p st :
  Monitor.consecutiveFailures (snd (fst (Monitor.performHealthCheck cfg p st)))
  = if Monitor.healthy (Monitor.overall (Monitor.check_results cfg p))
    then 0 else Monitor.consecutiveFailures st + 1.
Proof.
  unfold Monitor.performHealthCheck, Monitor.handleStatusChange.
  assert (Hkeep : forall s,
             Monitor.consecutiveFailures (Monitor.keepRecentChecks s)
             = Monitor.consecutiveFailures s).
  { intros s. unfold Monitor.keepRecentChecks.
    destruct (_ <? _)%nat; reflexivity. }
  destruct (Monitor.healthy (Monitor.overall (Monitor.check_results cfg p)));
    cbn; [reflexivity|].
  rewrite Hkeep. reflexivity.
Qed.

Lemma performHealthCheck_alerts cfg p st :
  let unhealthy :=
    negb (Monitor.healthy (Monitor.overall (Monitor.check_results cfg p))) in
  let alerts := snd (Monitor.performHealthCheck cfg p st) in
  Spec.sent_of_type Monitor.failure alerts
  = (if unhealthy
        && (Monitor.alertThreshold cfg <=? Monitor.consecutiveFailures st + 1)
     then 1%nat else 0%nat)
  /\ Spec.sent_of_type Monitor.recovery alerts
     = (if negb unhealthy && (0 <? Monitor.consecutiveFailures st)
        then 1%nat else 0%nat).
Proof.
  cbv zeta. unfold Monitor.performHealthCheck, Monitor.handleStatusChange.
  assert (Hkeep : forall s,
             Monitor.consecutiveFailures (Monitor.keepRecentChecks s)
             = Monitor.consecutiveFailures s).
  { intros s. unfold Monitor.keepRecentChecks.
    destruct (_ <? _)%nat; reflexivity. }
  rewrite Hkeep. cbn [Monitor.push Monitor.consecutiveFailures].
  destruct (Monitor.healthy (Monitor.overall (Monitor.check_results cfg p)));
    cbn [negb andb];
    repeat match goal with
           | |- context [if ?c then _ else _] => destruct c
           end;
    split; reflexivity.
Qed.

Lemma trailing_all_failed flags :
  forallb negb flags = true ->
  Spec.trailing_failures flags = length flags.
Proof.
  induction flags as [|flag rest IH]; [reflexivity|].
  cbn. destruct flag; cbn; [discriminate|].
  intros H. rewrite H. reflexivity.
Qed.

Lemma run_failures cfg ps :
  forall st,
    let flags :=
      map (fun p =>
             Monitor.healthy (Monitor.overall (Monitor.check_results cfg p)))
          ps in
    Monitor.consecutiveFailures (fst (Monitor.run cfg ps st))
    = if forallb negb flags
      then Monitor.consecutiveFailures st + Z.of_nat (length flags)
      else Z.of_nat (Spec.trailing_failures flags).
Proof.
  induction ps as [|p rest IH]; intros st; cbn zeta.
  - cbn. lia.
  - cbn [Monitor.run map forallb Spec.trailing_failures].
    pose proof (performHealthCheck_failures cfg p st) as Hstep.
    destruct (Monitor.performHealthCheck cfg p st) as [[r st1] alerts].
    cbn [fst snd] in Hstep.
    specialize (IH st1). cbv zeta in IH.
    destruct (Monitor.run cfg rest st1) as [st2 more].
    cbn [fst] in *. rewrite IH, Hstep.
    rewrite !length_map.
    destruct (Monitor.healthy (Monitor.overall (Monitor.check_results cfg p)));
      cbn [negb andb];
      destruct (forallb negb _); cbn [length]; rewrite ?length_map; lia.
Qed.

(** X6.  Provided the health checks are handled in turn, none taken up
    while another is under way (the timer does not see to this; see
    [overlap_loses_a_failure]), the failure counter is, from the start
    of the monitor, the number of failed checks since the last healthy
    one.  A check handled next on its own then sends a [failure] alert
    exactly when it fails and is at least the [alertThreshold]-th
    failure in a row (so again at every further one), and a [recovery]
    alert exactly when it is healthy and follows a failure. *)
Theorem consecutiveFailures_counts_trailing cfg
        (events : list Monitor.Event) (p : Monitor.Probes)
        (Hturn : Spec.in_turn cfg events (Monitor.started Monitor.initial)) :
  let flags :=
    map (fun q =>
           Monitor.healthy (Monitor.overall (Monitor.check_results cfg q)))
        (Spec.observed events) in
  let st :=
    Monitor.monitor_state
      (fst (Monitor.interleaved cfg events
                                (Monitor.started Monitor.initial))) in
  let unhealthy :=
    negb (Monitor.healthy (Monitor.overall (Monitor.check_results cfg p))) in
  let alerts := snd (Monitor.performHealthCheck cfg p st) in
  Monitor.consecutiveFailures st = Z.of_nat (Spec.trailing_failures flags)
  /\ Spec.sent_of_type Monitor.failure alerts
     = (if unhealthy
           && (Monitor.alertThreshold cfg
               <=? Z.of_nat (Spec.trailing_failures flags) + 1)
        then 1%nat else 0%nat)
  /\ Spec.sent_of_type Monitor.recovery alerts
     = (if negb unhealthy && (0 <? Z.of_nat (Spec.trailing_failures flags))
        then 1%nat else 0%nat).
Proof.
  cbv zeta.
  destruct (in_turn_from_start cfg events Monitor.initial Hturn) as [-> _].
  assert (Hcount :
            Monitor.consecutiveFailures
              (fst (Monitor.run cfg (Spec.observed events) Monitor.initial))
            = Z.of_nat
                (Spec.trailing_failures
                   (map (fun q =>
                           Monitor.healthy
                             (Monitor.overall (Monitor.check_results cfg q)))
                        (Spec.observed events)))).
  { pose proof (run_failures cfg (Spec.observed events) Monitor.initial) as H.
    cbv zeta in H. rewrite H.
    destruct (forallb negb _) eqn:Hall; [|reflexivity].
    rewrite (trailing_all_failed _ Hall). cbn. lia. }
  split; [exact Hcount|].
  rewrite <- Hcount. apply performHealthCheck_alerts.
Qed.

(** X6 at a concrete run: a failed check and a healthy one, handled in
    turn, leave the counter at zero. *)
Lemma consecutiveFailures_counts_trailing_witness :
  Monitor.consecutiveFailures
    (Monitor.monitor_state
       (fst (Monitor.interleaved Samples.monitor_config Samples.checks_in_turn
                                 (Monitor.started Monitor.initial))))
  = 0.
Proof.
  destruct (consecutiveFailures_counts_trailing
              Samples.monitor_config Samples.checks_in_turn
              Samples.monitor_down)
    as [Hcount _].
  - vm_compute. repeat split; reflexivity.
  - rewrite Hcount. vm_compute. reflexivity.
Defined.

(** Without that proviso the property fails.  A healthy check that
    follows a failure awaits its recovery alert; a failed check whose
    answers come in meanwhile is counted; then the healthy check goes on
    and sets the counter to zero.  The check handled last has failed,
    and the counter does not show it. *)
Lemma overlap_loses_a_failure :
  let events :=
    [Monitor.Completed Samples.monitor_down;
     Monitor.Completed Samples.monitor_up;
     Monitor.Completed Samples.monitor_down;
     Monitor.Resumed 1; Monitor.Resumed 1] in
  let final :=
    fst (Monitor.interleaved Samples.monitor_config events
                             (Monitor.started Monitor.initial)) in
  Spec.idle final = true
  /\ map (fun q =>
            Monitor.healthy
              (Monitor.overall
                 (Monitor.check_results Samples.monitor_config q)))
         (Spec.observed events)
     = [false; true; false]
  /\ Monitor.consecutiveFailures (Monitor.monitor_state final) = 0
  /\ Spec.trailing_failures [false; true; false] = 1%nat.
Proof. vm_compute. repeat split; reflexivity. Qed.

(** The certificate part of the issues of a check. *)
Lemma ssl_issues (p : Monitor.Probes) :
  let s := Monitor.checkSSLCertificate p in
  match Monitor.daysUntilExpiry s with
  | Some days =>
      (if negb (Monitor.ssl_success s) && (days <? 30)
       then [{| Monitor.issue_type := "ssl_certificate";
                Monitor.severity :=
                  if days <? 7 then "critical" else "warning";
                Monitor.issue_message :=
                  "SSL certificate expires in " +:+ pretty days +:+ " days" |}]
       else [])
      = (if Monitor.ssl_success s then []
         else [{| Monitor.issue_type := "ssl_certificate";
                  Monitor.severity := "critical";
                  Monitor.issue_message :=
                    "SSL certificate expires in " +:+ pretty days
                    +:+ " days" |}])
      /\ (Monitor.ssl_success s = false -> days <= 0)
  | None => True
  end.
Proof.
  cbv zeta. pose proof (monitor_ssl_days p) as H.
  destruct (Monitor.daysUntilExpiry (Monitor.checkSSLCertificate p))
    as [days|]; [|exact I].
  rewrite H.
  destruct (Z.leb_spec 1 days) as [Hvalid|Hexpired]; cbn [negb andb].
  - split; [reflexivity|discriminate].
  - destruct (Z.ltb_spec days 30); [|lia].
    destruct (Z.ltb_spec days 7); [|lia].
    split; [reflexivity|]. intros _. lia.
Qed.

(** X7.  The monitor raises a certificate issue only for a certificate
    that has already expired, and then always with severity [critical]:
    a certificate that is still valid never raises one, however close
    its expiry, so the severity [warning] is never used for a
    certificate. *)
Theorem ssl_issue_only_when_expired cfg (p : Monitor.Probes) :
  let results := Monitor.check_results cfg p in
  forall issue,
    In issue (Monitor.issues (Monitor.overall results)) ->
    Monitor.issue_type issue = "ssl_certificate" ->
    Monitor.severity issue = "critical"
    /\ Monitor.ssl_success (Monitor.ssl results) = false
    /\ exists days,
        Monitor.daysUntilExpiry (Monitor.ssl results) = Some days
        /\ days <= 0.
Proof.
  cbv zeta. intros issue Hin Htype.
  unfold Monitor.check_results in *.
  cbn [Monitor.overall Monitor.ssl Monitor.issues
       Monitor.calculateOverallHealth] in *.
  unfold Monitor.identifyIssues in Hin.
  pose proof (ssl_issues p) as Hssl. cbv zeta in Hssl.
  apply in_app_or in Hin. destruct Hin as [Hin|Hin].
  { destruct (Monitor.dns_success _); [destruct Hin|].
    destruct Hin as [<-|[]]. discriminate. }
  apply in_app_or in Hin. destruct Hin as [Hin|Hin].
  { destruct (Monitor.http_success _); [destruct Hin|].
    destruct Hin as [<-|[]]. discriminate. }
  apply in_app_or in Hin. destruct Hin as [Hin|Hin].
  - destruct (Monitor.daysUntilExpiry (Monitor.checkSSLCertificate p))
      as [days|]; [|destruct Hin].
    destruct Hssl as [Heq Hexpired]. rewrite Heq in Hin.
    destruct (Monitor.ssl_success (Monitor.checkSSLCertificate p));
      [destruct Hin|].
    destruct Hin as [<-|[]].
    split; [reflexivity|]. split; [reflexivity|].
    exists days. split; [reflexivity|]. apply Hexpired. reflexivity.
  - destruct (negb _); [|destruct Hin].
    destruct Hin as [<-|[]]. discriminate.
Qed.

(** X7 at a concrete check: the certificate expired ten days ago. *)
Lemma ssl_issue_only_when_expired_witness :
  exists issue,
    In issue (Monitor.issues
                (Monitor.overall
                   (Monitor.check_results Samples.monitor_config
                                          Samples.monitor_expired)))
    /\ Monitor.issue_type issue = "ssl_certificate"
    /\ Monitor.severity issue = "critical".
Proof.
  eexists. split; [|split].
  - right. left. reflexivity.
  - vm_compute. reflexivity.
  - apply (ssl_issue_only_when_expired Samples.monitor_config
             Samples.monitor_expired).
    + right. left. reflexivity.
    + vm_compute. reflexivity.
Defined.

(** X8.  The issues of a health check are one per failed dimension: one
    for DNS resolution, one for HTTP access and one for propagation
    whenever these failed, and one for the certificate when its check
    failed on a certificate it could read.  A certificate check that
    failed without a certificate (no answer, an error, a timeout) lowers
    the score without raising an issue; a check with all four dimensions
    passed has no issue. *)
Theorem issues_per_failed_dimension cfg (p : Monitor.Probes) :
  let results := Monitor.check_results cfg p in
  let failed (ok : bool) : nat := if ok then 0%nat else 1%nat in
  length (Monitor.issues (Monitor.overall results))
  = (failed (Monitor.dns_success (Monitor.dns results))
     + failed (Monitor.http_success (Monitor.http results))
     + match Monitor.daysUntilExpiry (Monitor.ssl results) with
       | Some _ => failed (Monitor.ssl_success (Monitor.ssl results))
       | None => 0
       end
     + failed (Monitor.propagation_success (Monitor.propagation results)))%nat
  /\ Z.of_nat (length (Monitor.issues (Monitor.overall results)))
     <= Monitor.maxScore (Monitor.overall results)
        - Monitor.score (Monitor.overall results)
  /\ (Monitor.score (Monitor.overall results) = 4 ->
      Monitor.issues (Monitor.overall results) = []).
Proof.
  cbv zeta.
  assert (Hlen :
            length (Monitor.issues
                      (Monitor.overall (Monitor.check_results cfg p)))
            = ((if Monitor.dns_success (Monitor.checkDNSResolution cfg p)
                then 0 else 1)
               + (if Monitor.http_success (Monitor.checkHTTPAccess p)
                  then 0 else 1)
               + match Monitor.daysUntilExpiry (Monitor.checkSSLCertificate p)
                 with
                 | Some _ =>
                     if Monitor.ssl_success (Monitor.checkSSLCertificate p)
                     then 0 else 1
                 | None => 0
                 end
               + (if Monitor.propagation_success
                       (Monitor.checkDNSPropagation cfg p)
                  then 0 else 1))%nat).
  { unfold Monitor.check_results.
    cbn [Monitor.overall Monitor.issues Monitor.calculateOverallHealth].
    unfold Monitor.identifyIssues. rewrite !length_app.
    pose proof (ssl_issues p) as Hssl. cbv zeta in Hssl.
    destruct (Monitor.daysUntilExpiry (Monitor.checkSSLCertificate p))
      as [days|].
    - destruct Hssl as [-> _].
      unfold Monitor.checkDNSPropagation at 1.
      cbn [Monitor.propagationPercentage].
      unfold Monitor.checkDNSPropagation at 2.
      cbn [Monitor.propagation_success].
      destruct (Monitor.dns_success _), (Monitor.http_success _),
               (Monitor.ssl_success _), (Qle_bool 50 _); reflexivity.
    - unfold Monitor.checkDNSPropagation at 1.
      cbn [Monitor.propagationPercentage].
      unfold Monitor.checkDNSPropagation at 2.
      cbn [Monitor.propagation_success].
      destruct (Monitor.dns_success _), (Monitor.http_success _),
               (Qle_bool 50 _); reflexivity. }
  split; [exact Hlen|].
  assert (Hscore :
            Monitor.score (Monitor.overall (Monitor.check_results cfg p))
            = Monitor.score_of
                (Monitor.dns_success (Monitor.checkDNSResolution cfg p))
              + Monitor.score_of
                  (Monitor.http_success (Monitor.checkHTTPAccess p))
              + Monitor.score_of
                  (Monitor.ssl_success (Monitor.checkSSLCertificate p))
              + Monitor.score_of
                  (Monitor.propagation_success
                     (Monitor.checkDNSPropagation cfg p))).
  { unfold Monitor.check_results.
    cbn [Monitor.overall Monitor.score Monitor.calculateOverallHealth
         fold_left]. lia. }
  assert (Hmax :
            Monitor.maxScore (Monitor.overall (Monitor.check_results cfg p))
            = 4) by reflexivity.
  assert (Hbound :
            Z.of_nat
              (length (Monitor.issues
                         (Monitor.overall (Monitor.check_results cfg p))))
            <= 4 - Monitor.score
                     (Monitor.overall (Monitor.check_results cfg p))).
  { rewrite Hlen, Hscore. unfold Monitor.score_of.
    destruct (Monitor.dns_success _), (Monitor.http_success _),
             (Monitor.ssl_success _), (Monitor.propagation_success _),
             (Monitor.daysUntilExpiry _); cbn; lia. }
  split; [rewrite Hmax; exact Hbound|].
  intros Hfull. rewrite Hfull in Hbound.
  destruct (Monitor.issues _); [reflexivity|]. cbn in Hbound. lia.
Qed.

Lemma resolve_servers_count tgt lookup (servers : list string) :
  (length (fst (Monitor.resolve_servers tgt lookup servers))
   + length (snd (Monitor.resolve_servers tgt lookup servers)))%nat
  = length servers.
Proof.
  induction servers as [|server rest IH]; [reflexivity|].
  cbn [Monitor.resolve_servers fold_right].
  fold (Monitor.resolve_servers tgt lookup rest).
  destruct (lookup server); cbn [fst snd length]; lia.
Qed.

(** X9.  The DNS dimension of the monitor is decided by the default
    resolver alone: two checks whose default resolver answers alike agree
    on it, whatever the four public resolvers say, although each of the
    five resolvers leaves either a response or an error in the result. *)
Theorem checkDNSResolution_default_decides cfg (p q : Monitor.Probes)
        (Hsame : Monitor.default_cname p = Monitor.default_cname q) :
  Monitor.dns_success (Monitor.checkDNSResolution cfg p)
  = Monitor.dns_success (Monitor.checkDNSResolution cfg q)
  /\ (length (Monitor.responses (Monitor.checkDNSResolution cfg p))
      + length (Monitor.errors (Monitor.checkDNSResolution cfg p)))%nat
     = 5%nat.
Proof.
  unfold Monitor.checkDNSResolution. rewrite <- Hsame.
  pose proof (resolve_servers_count (Monitor.target cfg)
                (Monitor.server_cname p) Monitor.dnsServers) as Hcount.
  change (length Monitor.dnsServers) with 4%nat in Hcount.
  destruct (Monitor.default_cname p);
    cbn [Monitor.dns_success Monitor.responses Monitor.errors length];
    (split; [reflexivity|lia]).
Qed.

(** X9 at two concrete checks: all resolvers answer, or the default one
    only. *)
Lemma checkDNSResolution_default_decides_witness :
  Monitor.dns_success
    (Monitor.checkDNSResolution Samples.monitor_config Samples.monitor_up)
  = Monitor.dns_success
      (Monitor.checkDNSResolution Samples.monitor_config
                                  Samples.monitor_resolvers_down)
  /\ length (Monitor.errors
               (Monitor.checkDNSResolution Samples.monitor_config
                                           Samples.monitor_resolvers_down))
     = 4%nat.
Proof.
  split.
  - apply (checkDNSResolution_default_decides Samples.monitor_config
             Samples.monitor_up Samples.monitor_resolvers_down).
    reflexivity.
  - reflexivity.
Defined.

Lemma check_location_correct cfg p name :
  Monitor.location_correct (Monitor.check_location cfg p name) = true ->
  Monitor.location_success (Monitor.check_location cfg p name) = true
  /\ Monitor.resolved (Monitor.check_location cfg p name)
     = Some (Monitor.target cfg).
Proof.
  unfold Monitor.check_location.
  destruct (Monitor.doh_get p name) as [answers|msg];
    cbn [Monitor.location_correct Monitor.location_success Monitor.resolved];
    [|discriminate].
  destruct (match answers with
            | Some l => Monitor.cname_answer l
            | None => None
            end) as [v|]; [|discriminate].
  intros Heq. apply String.eqb_eq in Heq. subst v. split; reflexivity.
Qed.

(** X10.  The propagation check of the monitor asks two checkers, so the
    percentage it reports is 0, 50 or 100, and it passes exactly when at
    least one of the two saw a CNAME record with the configured target; a
    checker counts only when its request was answered and the answer
    holds that record. *)
Theorem checkDNSPropagation_one_of_two cfg (p : Monitor.Probes) :
  let r := Monitor.checkDNSPropagation cfg p in
  length (Monitor.locations r) = 2%nat
  /\ Monitor.propagation_success r
     = existsb Monitor.location_correct (Monitor.locations r)
  /\ (Monitor.propagationPercentage r
      == inject_Z (50 * Z.of_nat
                          (length (List.filter Monitor.location_correct
                                               (Monitor.locations r)))))%Q
  /\ (forall l,
         In l (Monitor.locations r) ->
         Monitor.location_correct l = true ->
         Monitor.location_success l = true
         /\ Monitor.resolved l = Some (Monitor.target cfg)).
Proof.
  cbv zeta. unfold Monitor.checkDNSPropagation.
  cbn [Monitor.locations Monitor.propagation_success
       Monitor.propagationPercentage Monitor.checkers map].
  split; [reflexivity|].
  repeat split.
  - cbn [List.filter existsb].
    destruct (Monitor.location_correct
                (Monitor.check_location cfg p "Google")),
             (Monitor.location_correct
                (Monitor.check_location cfg p "Cloudflare")); reflexivity.
  - cbn [List.filter].
    destruct (Monitor.location_correct
                (Monitor.check_location cfg p "Google")),
             (Monitor.location_correct
                (Monitor.check_location cfg p "Cloudflare")); reflexivity.
  - destruct H as [<-|[<-|[]]]; apply check_location_correct in H0;
      apply H0.
  - destruct H as [<-|[<-|[]]]; apply check_location_correct in H0;
      apply H0.
Qed.

(** [Math.round] of a percentage [count / total * 100]. *)
Lemma round_percentage (count : Z) (total : positive) :
  JS.Math_round (inject_Z count / inject_Z (Z.pos total) * 100)
  = (200 * count + Z.pos total) / (2 * Z.pos total).
Proof.
  unfold JS.Math_round, Qfloor, Qdiv, Qmult, Qplus, Qinv, inject_Z.
  cbn [Qnum Qden].
  f_equal; lia.
Qed.

(** X11.  [getStats] has nothing to report exactly before the first
    check.  After it, the uptime over the last ten checks lies between 0
    and 100, is 100 exactly when all of them were healthy and 0 exactly
    when none was, and the last check reported is the latest one. *)
Theorem getStats_recent_uptime (st : Monitor.State) :
  let recent := JS.slice_last 10 (Monitor.checks st) in
  let is_healthy c := Monitor.healthy (Monitor.overall c) in
  match Monitor.getStats st with
  | None => Monitor.checks st = []
  | Some stats =>
      Monitor.checks st <> []
      /\ Monitor.totalChecks stats = Z.of_nat (length (Monitor.checks st))
      /\ 0 <= Monitor.recentUptime stats <= 100
      /\ (Monitor.recentUptime stats = 100 <-> forallb is_healthy recent = true)
      /\ (Monitor.recentUptime stats = 0 <-> existsb is_healthy recent = false)
      /\ Monitor.lastCheck stats = last (Monitor.checks st)
      /\ exists latest, last (Monitor.checks st) = Some latest
  end.
Proof.
  cbv zeta. unfold Monitor.getStats.
  destruct (Monitor.checks st) as [|c rest] eqn:Hchecks; [reflexivity|].
  rewrite <- Hchecks.
  assert (Hne : Monitor.checks st <> []) by (rewrite Hchecks; discriminate).
  clear Hchecks c rest.
  cbn [Monitor.totalChecks Monitor.recentUptime Monitor.lastCheck].
  set (recent := JS.slice_last 10 (Monitor.checks st)).
  set (is_healthy := fun c : Monitor.Results =>
                       Monitor.healthy (Monitor.overall c)).
  assert (Hlen : (1 <= length recent <= 10)%nat).
  { subst recent. unfold JS.slice_last. rewrite length_drop.
    destruct (Monitor.checks st); [congruence|]. cbn [length]. lia. }
  assert (Hcount :
            (length (List.filter is_healthy recent) <= length recent)%nat)
    by apply List.filter_length_le.
  assert (Hall :
            length (List.filter is_healthy recent) = length recent
            <-> forallb is_healthy recent = true).
  { clear. induction recent as [|c rest IH]; [cbn; tauto|].
    cbn [List.filter forallb].
    pose proof (List.filter_length_le is_healthy rest).
    destruct (is_healthy c); cbn [length andb].
    - rewrite <- IH. lia.
    - split; [lia|discriminate]. }
  assert (Hnone :
            length (List.filter is_healthy recent) = 0%nat
            <-> existsb is_healthy recent = false).
  { clear. induction recent as [|c rest IH]; [cbn; tauto|].
    cbn [List.filter existsb].
    destruct (is_healthy c); cbn [length orb].
    - split; [lia|discriminate].
    - exact IH. }
  destruct (Z.of_nat (length recent)) as [|total|total] eqn:Htotal; [lia| |lia].
  rewrite round_percentage.
  set (count := Z.of_nat (length (List.filter is_healthy recent))) in *.
  assert (Hrange : 0 <= count <= Z.pos total) by lia.
  assert (Hsmall : Z.pos total <= 10) by lia.
  split; [exact Hne|]. split; [reflexivity|].
  split.
  { split.
    - apply Z.div_pos; lia.
    - assert ((200 * count + Z.pos total) / (2 * Z.pos total) < 101);
        [|lia].
      apply Z.div_lt_upper_bound; lia. }
  split.
  { rewrite <- Hall.
    split.
    - intros Hfull.
      assert (count = Z.pos total); [|lia].
      assert (100 * (2 * Z.pos total) <= 200 * count + Z.pos total)
        by (rewrite <- Hfull at 1; rewrite Z.mul_comm;
            apply Z.mul_div_le; lia).
      lia.
    - intros Hfull.
      assert (count = Z.pos total) as -> by lia.
      replace (200 * Z.pos total + Z.pos total)
        with (100 * (2 * Z.pos total) + Z.pos total) by lia.
      rewrite Z.div_add_l by lia.
      rewrite Z.div_small by lia. lia. }
  split.
  { rewrite <- Hnone.
    split.
    - intros Hzero.
      assert (count = 0); [|lia].
      assert (200 * count + Z.pos total < 2 * Z.pos total).
      { apply Z.div_small_iff in Hzero; lia. }
      lia.
    - intros Hzero.
      assert (count = 0) as -> by lia.
      apply Z.div_small. lia. }
  split; [reflexivity|].
  destruct (Monitor.checks st) as [|c rest] using rev_ind; [congruence|].
  exists c. apply last_snoc.
Qed.

(** X12.  [attemptRecovery] never gets past its first strategy: the
    cache flush reports success without doing anything, so the recovery
    always answers [dns_cache_flush], requests no alternative endpoint
    and notifies nobody, whatever strategies follow the flush. *)
Theorem attemptRecovery_stops_at_flush cfg (get : string -> JS.Completion Z)
        (requested : list string) :
  exists result,
    Monitor.attemptRecovery cfg get requested
    = Some (JS.Normal result, requested)
    /\ Monitor.recovery_success result = true
    /\ Monitor.recovery_method result = Some "dns_cache_flush"
    /\ forall strategies,
        Monitor.first_recovery (Monitor.flushDNSCache :: strategies) requested
        = Monitor.attemptRecovery cfg get requested.
Proof.
  eexists. split; [reflexivity|]. repeat split.
Qed.

Lemma try_endpoints_first (get : string -> JS.Completion Z)
      (alternatives : list string) :
  forall requested,
    let url endpoint := "https://" +:+ endpoint in
    let ok endpoint :=
      match get (url endpoint) with
      | JS.Normal code => code =? 200
      | JS.Throw _ => false
      end in
    exists result asked,
      Monitor.try_endpoints get alternatives requested
      = Some (JS.Normal result, requested ++ map url asked)
      /\ match List.find ok alternatives with
         | Some endpoint =>
             Monitor.recovery_success result = true
             /\ Monitor.recovery_method result = Some "alternative_endpoint"
             /\ Monitor.recovery_endpoint result = Some endpoint
             /\ exists skipped rest,
                 alternatives = skipped ++ endpoint :: rest
                 /\ asked = skipped ++ [endpoint]
                 /\ existsb ok skipped = false
         | None =>
             Monitor.recovery_success result = false
             /\ Monitor.recovery_endpoint result = None
             /\ asked = alternatives
         end.
Proof.
  cbv zeta.
  induction alternatives as [|endpoint rest IH]; intros requested.
  - exists {| Monitor.recovery_success := false;
              Monitor.recovery_method := None;
              Monitor.recovery_endpoint := None;
              Monitor.recovery_error :=
                Some "No alternative endpoints available" |}, [].
    cbn. rewrite app_nil_r. repeat split.
  - cbn [Monitor.try_endpoints List.find].
    unfold JS.mbind at 1. unfold JS.modify.
    destruct (get ("https://" +:+ endpoint)) as [code|msg] eqn:Hget.
    + destruct (code =? 200) eqn:Hcode.
      * eexists _, [endpoint]. split; [reflexivity|].
        cbn [Monitor.recovery_success Monitor.recovery_method
             Monitor.recovery_endpoint].
        repeat split. exists [], rest. repeat split.
      * destruct (IH (requested ++ ["https://" +:+ endpoint]))
          as (result & asked & Hrun & Hfind).
        exists result, (endpoint :: asked).
        split.
        { rewrite Hrun. cbn [map]. rewrite <- app_assoc. reflexivity. }
        destruct (List.find _ rest) as [found|].
        -- destruct Hfind as (? & ? & ? & skipped & more & -> & -> & Hskip).
           repeat split; try assumption.
           exists (endpoint :: skipped), more.
           repeat split. cbn [existsb]. rewrite Hget, Hcode. exact Hskip.
        -- destruct Hfind as (? & ? & ->). repeat split; assumption.
    + destruct (IH (requested ++ ["https://" +:+ endpoint]))
        as (result & asked & Hrun & Hfind).
      exists result, (endpoint :: asked).
      split.
      { rewrite Hrun. cbn [map]. rewrite <- app_assoc. reflexivity. }
      destruct (List.find _ rest) as [found|].
      * destruct Hfind as (? & ? & ? & skipped & more & -> & -> & Hskip).
        repeat split; try assumption.
        exists (endpoint :: skipped), more.
        repeat split. cbn [existsb]. rewrite Hget. exact Hskip.
      * destruct Hfind as (? & ? & ->). repeat split; assumption.
Qed.

(** X13.  [checkAlternativeEndpoints] asks the Netlify address and then
    the configured name, in this order, and stops at the first that
    answers with status 200, which it reports; an endpoint that answers
    with another status or not at all is passed over, and when both are
    the result is a failure after both were asked. *)
Theorem checkAlternativeEndpoints_first_ok cfg
        (get : string -> JS.Completion Z) (requested : list string) :
  let netlify := "fogg-calendar.netlify.app" in
  let own := Monitor.subdomain cfg +:+ "." +:+ Monitor.domain cfg in
  let url endpoint := "https://" +:+ endpoint in
  let ok endpoint :=
    match get (url endpoint) with
    | JS.Normal code => code =? 200
    | JS.Throw _ => false
    end in
  exists result asked,
    Monitor.checkAlternativeEndpoints cfg get requested
    = Some (JS.Normal result, requested ++ map url asked)
    /\ if ok netlify then
         asked = [netlify]
         /\ Monitor.recovery_success result = true
         /\ Monitor.recovery_endpoint result = Some netlify
       else if ok own then
         asked = [netlify; own]
         /\ Monitor.recovery_success result = true
         /\ Monitor.recovery_endpoint result = Some own
       else
         asked = [netlify; own]
         /\ Monitor.recovery_success result = false
         /\ Monitor.recovery_endpoint result = None.
Proof.
  cbv zeta. unfold Monitor.checkAlternativeEndpoints.
  destruct (try_endpoints_first get
              ["fogg-calendar.netlify.app";
               Monitor.subdomain cfg +:+ "." +:+ Monitor.domain cfg]
              requested) as (result & asked & Hrun & Hfind).
  cbv zeta in Hrun, Hfind. exists result, asked. split; [exact Hrun|].
  cbn [List.find] in Hfind.
  set (ok := fun endpoint : string =>
               match get ("https://" +:+ endpoint) with
               | JS.Normal code => code =? 200
               | JS.Throw _ => false
               end) in *.
  change (match get ("https://" +:+ "fogg-calendar.netlify.app") with
          | JS.Normal code => code =? 200
          | JS.Throw _ => false
          end) with (ok "fogg-calendar.netlify.app") in Hfind |- *.
  change (match get ("https://"
                     +:+ (Monitor.subdomain cfg +:+ "." +:+ Monitor.domain cfg))
          with
          | JS.Normal code => code =? 200
          | JS.Throw _ => false
          end)
    with (ok (Monitor.subdomain cfg +:+ "." +:+ Monitor.domain cfg))
    in Hfind |- *.
  destruct (ok "fogg-calendar.netlify.app") eqn:Hfirst.
  - destruct Hfind as (Hs & _ & He & skipped & rest & Hsplit & -> & Hskip).
    destruct skipped as [|first skipped].
    + repeat split; assumption.
    + cbn in Hsplit. injection Hsplit as <- _.
      cbn [existsb] in Hskip. rewrite Hfirst in Hskip. discriminate.
  - destruct (ok (Monitor.subdomain cfg +:+ "." +:+ Monitor.domain cfg))
      eqn:Hsecond.
    + destruct Hfind as (Hs & _ & He & skipped & rest & Hsplit & -> & Hskip).
      destruct skipped as [|first [|second skipped]].
      * cbn in Hsplit. injection Hsplit as Heq _.
        rewrite Heq in Hfirst. rewrite Hfirst in Hsecond. discriminate.
      * cbn in Hsplit.
        assert (first = "fogg-calendar.netlify.app") as -> by congruence.
        repeat split; assumption.
      * cbn in Hsplit.
        assert (Hrest : [] = skipped ++
                          (Monitor.subdomain cfg +:+ "." +:+ Monitor.domain cfg)
                          :: rest) by congruence.
        destruct skipped; discriminate.
    + destruct Hfind as (Hs & He & ->). repeat split; assumption.
Qed.

(* ===================================================================== *)
(** * Further properties of performance-optimizer.js *)
(* ===================================================================== *)

Lemma insert_permutation {A} (cmp : A -> A -> Q) (x : A) (l : list A) :
  Permutation (JS.insert cmp x l) (x :: l).
Proof.
  induction l as [|y rest IH]; cbn [JS.insert]; [reflexivity|].
  destruct (JS.negative (cmp x y)); [reflexivity|].
  rewrite IH. apply perm_swap.
Qed.

Lemma sort_permutation {A} (cmp : A -> A -> Q) (l : list A) :
  Permutation (JS.sort cmp l) l.
Proof.
  unfold JS.sort.
  assert (Hgen : forall acc,
             Permutation
               (fold_left (fun sorted x => JS.insert cmp x sorted) l acc)
               (l ++ acc)).
  { induction l as [|x rest IH]; intros acc; cbn [fold_left app];
      [reflexivity|].
    rewrite IH, insert_permutation.
    symmetry. apply Permutation_middle. }
  rewrite Hgen, app_nil_r. reflexivity.
Qed.

(** A list of measurements in which none stands after one it goes
    before: the available ones first, by ascending response time, then
    the others. *)
Lemma sorted_measurements (results : list Optimizer.Measurement) :
  (forall m, In m results -> Optimizer.available m = true ->
             (0 <= Optimizer.responseTime m)%Q) ->
  StronglySorted (Spec.ordered Optimizer.compare) results ->
  exists up down,
    results = up ++ down
    /\ forallb Optimizer.available up = true
    /\ existsb Optimizer.available down = false
    /\ StronglySorted
         (fun a b => (Optimizer.responseTime a <= Optimizer.responseTime b)%Q)
         up.
Proof.
  intros Hvalid Hsorted.
  induction Hsorted as [|y rest Hsorted IH Hall].
  - exists [], []. repeat split. constructor.
  - destruct IH as (up & down & -> & Hup & Hdown & Hasc).
    { intros m Hm. apply Hvalid. right. exact Hm. }
    rewrite List.Forall_forall in Hall.
    destruct (Optimizer.available y) eqn:Hy.
    + exists (y :: up), down. split; [reflexivity|].
      split; [cbn [forallb]; rewrite Hy; exact Hup|].
      split; [exact Hdown|].
      constructor; [exact Hasc|].
      rewrite List.Forall_forall. intros z Hz.
      assert (Hz_avail : Optimizer.available z = true).
      { rewrite forallb_forall in Hup. apply Hup, Hz. }
      assert (Hz_in : In z (up ++ down)) by (apply in_or_app; left; exact Hz).
      pose proof (Hall z Hz_in) as Hord.
      pose proof (Hvalid y (or_introl eq_refl) Hy) as Hy_pos.
      pose proof (Hvalid z (or_intror Hz_in) Hz_avail) as Hz_pos.
      unfold Spec.ordered, Optimizer.compare in Hord.
      rewrite Hy, Hz_avail in Hord. cbn [andb negb] in Hord.
      destruct (Qeq_bool (Optimizer.responseTime z) (-1)) eqn:Ez.
      { apply Qeq_bool_iff in Ez. lra. }
      destruct (Qeq_bool (Optimizer.responseTime y) (-1)) eqn:Ey.
      { apply Qeq_bool_iff in Ey. lra. }
      apply not_negative_iff in Hord. lra.
    + assert (Hnone : forall z, In z (up ++ down) ->
                                Optimizer.available z = false).
      { intros z Hz. specialize (Hall z Hz).
        unfold Spec.ordered, Optimizer.compare in Hall.
        rewrite Hy in Hall.
        destruct (Optimizer.available z); [|reflexivity].
        cbn in Hall. discriminate. }
      destruct up as [|u up].
      * exists [], (y :: down). split; [reflexivity|].
        split; [reflexivity|].
        split; [cbn [existsb]; rewrite Hy; exact Hdown|constructor].
      * cbn [forallb] in Hup.
        rewrite (Hnone u (or_introl eq_refl)) in Hup. discriminate.
Qed.

(** X14.  [measureCDNPerformance] returns the measurements it took, each
    once, in this order: the available endpoints first, by ascending
    response time, then the unavailable ones.  Response times are
    differences of a monotonic clock, hence not negative. *)
Theorem measureCDNPerformance_order
        (probes : list (Optimizer.Endpoint * JS.Completion (Z * Q)))
        (Hclock : forall endpoint code elapsed,
            In (endpoint, JS.Normal (code, elapsed)) probes ->
            (0 <= elapsed)%Q) :
  let results := Optimizer.measureCDNPerformance probes in
  Permutation results
              (map (fun p => Optimizer.measure (fst p) (snd p)) probes)
  /\ exists up down,
      results = up ++ down
      /\ forallb Optimizer.available up = true
      /\ existsb Optimizer.available down = false
      /\ StronglySorted
           (fun a b =>
              (Optimizer.responseTime a <= Optimizer.responseTime b)%Q)
           up.
Proof.
  cbv zeta. unfold Optimizer.measureCDNPerformance.
  split; [apply sort_permutation|].
  apply sorted_measurements.
  - intros m Hm Havail.
    apply (proj1 (In_sort Optimizer.compare compare_asym compare_trans _ m))
      in Hm.
    apply in_map_iff in Hm.
    destruct Hm as [[endpoint head] [<- Hin]]. cbn [fst snd] in *.
    destruct (measure_available endpoint head Havail)
      as [code [elapsed [-> ->]]].
    apply (Hclock endpoint code elapsed Hin).
  - apply (sort_sorted Optimizer.compare compare_asym compare_trans).
Qed.

(** X14 at a concrete measurement round: the redirect comes first, then
    Netlify, then the endpoint that did not answer. *)
Lemma measureCDNPerformance_order_witness :
  map Optimizer.name (Optimizer.measureCDNPerformance Samples.cdn_probes)
  = ["Direct"; "Netlify"; "Cloudflare"]
  /\ Permutation
       (Optimizer.measureCDNPerformance Samples.cdn_probes)
       (map (fun p => Optimizer.measure (fst p) (snd p)) Samples.cdn_probes).
Proof.
  split; [reflexivity|].
  apply (measureCDNPerformance_order Samples.cdn_probes).
  intros endpoint code elapsed Hin.
  destruct Hin as [Heq|[Heq|[Heq|[]]]]; inversion Heq; discriminate.
Defined.

(** [v > 0] *)
Lemma positive_iff (v : Q) : JS.negative (0 - v) = true <-> (0 < v)%Q.
Proof. rewrite negative_iff. split; intros; lra. Qed.

(** Pushing onto the last hundred and pruning gives the last hundred. *)
Lemma record_value_slice (v : Q) (l : list Q) :
  Optimizer.record_value v (JS.slice_last 100 l)
  = if JS.negative (0 - v) then JS.slice_last 100 (l ++ [v])
    else JS.slice_last 100 l.
Proof.
  unfold Optimizer.record_value.
  destruct (JS.negative (0 - v)); [|reflexivity].
  unfold JS.slice_last. rewrite !length_app, length_drop. cbn [length].
  destruct (Nat.ltb_spec 100 (length l - (length l - 100) + 1)) as [Hfull|Hroom].
  - replace (length l + 1 - 100)%nat with (S (length l - 100)) by lia.
    rewrite drop_app_le by lia.
    assert (Hdrop : forall (n : nat) (k : list Q),
               (n < length k)%nat ->
               tail (drop n k ++ [v]) = drop (S n) k ++ [v]).
    { clear. intros n k. revert n.
      induction k as [|x rest IH]; intros n Hn; cbn [length] in Hn; [lia|].
      destruct n as [|n]; [reflexivity|].
      cbn [drop]. rewrite IH by lia. destruct rest; [cbn in Hn; lia|].
      reflexivity. }
    apply Hdrop. lia.
  - replace (length l + 1 - 100)%nat with 0%nat by lia.
    replace (length l - 100)%nat with 0%nat by lia.
    reflexivity.
Qed.

Lemma record_value_run (values : list Q) :
  fold_left (fun series v => Optimizer.record_value v series) values []
  = JS.slice_last 100
      (List.filter (fun v => JS.negative (0 - v)) values).
Proof.
  induction values as [|v rest IH] using rev_ind; [reflexivity|].
  rewrite fold_left_app. cbn [fold_left]. rewrite IH.
  rewrite record_value_slice, List.filter_app. cbn [List.filter].
  destruct (JS.negative (0 - v)); [reflexivity|].
  rewrite app_nil_r. reflexivity.
Qed.

(** X15.  Starting from the empty series of the constructor, after any
    number of [storeMetrics] calls each of the two series holds the last
    hundred of the positive values measured, in the order measured: a
    failed measurement ([-1]) or a zero is never stored, and no series
    grows beyond a hundred entries. *)
Theorem storeMetrics_keeps_last_hundred
        (rounds : list Optimizer.Measurements) :
  let stored :=
    fold_left (fun metrics measurements =>
                 Optimizer.storeMetrics measurements metrics)
              rounds
              {| Optimizer.metrics_dns := []; Optimizer.metrics_ttfb := [] |} in
  let positive (v : Q) := JS.negative (0 - v) in
  Optimizer.metrics_dns stored
  = JS.slice_last 100 (List.filter positive (map Optimizer.dns rounds))
  /\ Optimizer.metrics_ttfb stored
     = JS.slice_last 100 (List.filter positive (map Optimizer.ttfb rounds))
  /\ (length (Optimizer.metrics_dns stored) <= 100)%nat
  /\ (length (Optimizer.metrics_ttfb stored) <= 100)%nat
  /\ (forall v, In v (Optimizer.metrics_dns stored) -> (0 < v)%Q)
  /\ (forall v, In v (Optimizer.metrics_ttfb stored) -> (0 < v)%Q).
Proof.
  cbv zeta.
  assert (Hrun : forall metrics,
             fold_left (fun metrics measurements =>
                          Optimizer.storeMetrics measurements metrics)
                       rounds metrics
             = {| Optimizer.metrics_dns :=
                    fold_left (fun series v => Optimizer.record_value v series)
                              (map Optimizer.dns rounds)
                              (Optimizer.metrics_dns metrics);
                  Optimizer.metrics_ttfb :=
                    fold_left (fun series v => Optimizer.record_value v series)
                              (map Optimizer.ttfb rounds)
                              (Optimizer.metrics_ttfb metrics) |}).
  { induction rounds as [|round rest IH]; intros [series_dns series_ttfb];
      [reflexivity|].
    cbn [fold_left map]. rewrite IH. reflexivity. }
  rewrite Hrun.
  cbn [Optimizer.metrics_dns Optimizer.metrics_ttfb].
  rewrite !record_value_run.
  assert (Hpositive : forall values v,
             In v (JS.slice_last 100
                     (List.filter (fun v => JS.negative (0 - v)) values)) ->
             (0 < v)%Q).
  { intros values v Hin. unfold JS.slice_last in Hin.
    assert (Hdrop : forall (n : nat) (l : list Q), In v (drop n l) -> In v l).
    { clear. intros n l. revert n.
      induction l as [|x rest IH]; intros [|n] H; try exact H.
      right. apply (IH n). exact H. }
    apply Hdrop in Hin.
    apply filter_In in Hin. apply positive_iff, Hin. }
  repeat split; try apply slice_last_length; apply Hpositive.
Qed.

Lemma exceeds_iff (a b : Q) : Optimizer.exceeds a b = true <-> (b < a)%Q.
Proof. unfold Optimizer.exceeds. rewrite negative_iff. split; intros; lra. Qed.

Lemma violation_of_spec (name : string) (v limit : Q) :
  forall violation,
    In violation (Optimizer.violation_of name v limit) ->
    Optimizer.metric violation = name
    /\ Optimizer.value violation = v
    /\ Optimizer.threshold violation = limit
    /\ (limit < v)%Q
    /\ (Optimizer.violation_severity violation = "critical"
        /\ (limit * 2 < v)%Q
        \/ Optimizer.violation_severity violation = "warning"
           /\ (v <= limit * 2)%Q).
Proof.
  intros violation. unfold Optimizer.violation_of.
  destruct (Optimizer.exceeds v limit) eqn:Hover; [|intros []].
  intros [<-|[]]. cbn.
  apply exceeds_iff in Hover.
  repeat split; try assumption.
  destruct (Optimizer.exceeds v (limit * 2)) eqn:Hdouble.
  - left. split; [reflexivity|]. apply exceeds_iff. exact Hdouble.
  - right. split; [reflexivity|].
    destruct (Qlt_le_dec (limit * 2) v) as [Hlt|Hle]; [|exact Hle].
    apply exceeds_iff in Hlt. congruence.
Qed.

(** X16.  [checkThresholds] reports a metric exactly when its value lies
    above its threshold, DNS before TTFB, with severity [critical] when
    the value lies above twice the threshold and [warning] otherwise; a
    value at the threshold is no violation. *)
Theorem checkThresholds_violations (limits : Optimizer.Thresholds)
        (measurements : Optimizer.Measurements) :
  let violations := Optimizer.checkThresholds limits measurements in
  map Optimizer.metric violations
  = (if Optimizer.exceeds (Optimizer.dns measurements)
                          (Optimizer.threshold_dns limits)
     then ["DNS"] else [])
    ++ (if Optimizer.exceeds (Optimizer.ttfb measurements)
                             (Optimizer.threshold_ttfb limits)
        then ["TTFB"] else [])
  /\ (violations = []
      <-> (Optimizer.dns measurements <= Optimizer.threshold_dns limits)%Q
          /\ (Optimizer.ttfb measurements
              <= Optimizer.threshold_ttfb limits)%Q)
  /\ forall violation,
      In violation violations ->
      (Optimizer.threshold violation < Optimizer.value violation)%Q
      /\ (Optimizer.violation_severity violation = "critical"
          /\ (Optimizer.threshold violation * 2
              < Optimizer.value violation)%Q
          \/ Optimizer.violation_severity violation = "warning"
             /\ (Optimizer.value violation
                 <= Optimizer.threshold violation * 2)%Q).
Proof.
  cbv zeta. unfold Optimizer.checkThresholds.
  split; [|split].
  - rewrite map_app. unfold Optimizer.violation_of.
    destruct (Optimizer.exceeds (Optimizer.dns measurements) _),
             (Optimizer.exceeds (Optimizer.ttfb measurements) _); reflexivity.
  - unfold Optimizer.violation_of.
    destruct (Optimizer.exceeds (Optimizer.dns measurements)
                (Optimizer.threshold_dns limits)) eqn:Hdns;
      destruct (Optimizer.exceeds (Optimizer.ttfb measurements)
                  (Optimizer.threshold_ttfb limits)) eqn:Httfb;
      cbn [app].
    + apply exceeds_iff in Hdns.
      split; [discriminate|intros [Hle1 Hle2]; lra].
    + apply exceeds_iff in Hdns.
      split; [discriminate|intros [Hle1 Hle2]; lra].
    + apply exceeds_iff in Httfb.
      split; [discriminate|intros [Hle1 Hle2]; lra].
    + split; [intros _|reflexivity].
      split.
      * destruct (Qlt_le_dec (Optimizer.threshold_dns limits)
                    (Optimizer.dns measurements)) as [Hlt|Hle]; [|exact Hle].
        apply exceeds_iff in Hlt. congruence.
      * destruct (Qlt_le_dec (Optimizer.threshold_ttfb limits)
                    (Optimizer.ttfb measurements)) as [Hlt|Hle]; [|exact Hle].
        apply exceeds_iff in Hlt. congruence.
  - intros violation Hin. apply in_app_or in Hin.
    destruct Hin as [Hin|Hin]; apply violation_of_spec in Hin;
      destruct Hin as (_ & -> & -> & Hover & Hseverity);
      (split; [exact Hover|exact Hseverity]).
Qed.

(** X17.  [resolveDNSWithCache] asks the resolver exactly when the
    cache holds no entry for the name that is younger than five minutes.
    An answer it got is served again, from the cache and without asking,
    to every call within five minutes of that answer; a cache hit leaves
    the cache as it was; a failed resolution is not cached, so the cache
    is unchanged and the error is the resolver's. *)
Theorem resolveDNSWithCache_round_trip
        (cache : gmap string Optimizer.CacheEntry) (now : Z)
        (resolve4 : JS.Completion (list string) * Z) (name : string) :
  let stale :=
    forall entry,
      cache !! name = Some entry ->
      300000 <= now - Optimizer.entry_timestamp entry in
  match Optimizer.resolveDNSWithCache cache now resolve4 name with
  | (JS.Normal addresses, cached, true) =>
      stale
      /\ resolve4.1 = JS.Normal addresses
      /\ (forall other, other <> name -> cached !! other = cache !! other)
      /\ forall later again,
          later - (now + resolve4.2) < Optimizer.dnsCacheTTL ->
          Optimizer.resolveDNSWithCache cached later again name
          = (JS.Normal addresses, cached, false)
  | (JS.Normal addresses, cached, false) =>
      cached = cache
      /\ exists entry,
          cache !! name = Some entry
          /\ Optimizer.entry_addresses entry = addresses
          /\ now - Optimizer.entry_timestamp entry < 300000
  | (JS.Throw msg, cached, asked) =>
      stale /\ cached = cache /\ asked = true /\ resolve4.1 = JS.Throw msg
  end.
Proof.
  cbv zeta. unfold Optimizer.resolveDNSWithCache at 1.
  destruct (cache !! name) as [entry|] eqn:Hentry.
  - destruct (Z.ltb_spec (now - Optimizer.entry_timestamp entry)
                Optimizer.dnsCacheTTL) as [Hfresh|Hstale].
    + split; [reflexivity|]. exists entry. repeat split. exact Hfresh.
    + assert (Hold : forall other,
                 Some entry = Some other ->
                 300000 <= now - Optimizer.entry_timestamp other).
      { intros other [= <-]. exact Hstale. }
      destruct resolve4 as [[answer|msg] took]; cbn [fst snd];
        [|repeat split; exact Hold].
      split; [exact Hold|]. split; [reflexivity|].
      split; [intros other Hother; apply lookup_insert_ne; congruence|].
      intros later again Hsoon. unfold Optimizer.resolveDNSWithCache.
      rewrite lookup_insert_eq.
      cbn [Optimizer.entry_timestamp Optimizer.entry_addresses].
      destruct (Z.ltb_spec (later - (now + took)) Optimizer.dnsCacheTTL);
        [reflexivity|lia].
  - destruct resolve4 as [[answer|msg] took]; cbn [fst snd];
      [|repeat split; discriminate].
    split; [discriminate|]. split; [reflexivity|].
    split; [intros other Hother; apply lookup_insert_ne; congruence|].
    intros later again Hsoon. unfold Optimizer.resolveDNSWithCache.
    rewrite lookup_insert_eq.
    cbn [Optimizer.entry_timestamp Optimizer.entry_addresses].
    destruct (Z.ltb_spec (later - (now + took)) Optimizer.dnsCacheTTL);
      [reflexivity|lia].
Qed.

(* ===================================================================== *)
(** * Further properties of the providers *)
(* ===================================================================== *)

(** X18.  The requests of [CloudflareProvider.createRecord], once the
    credentials are loaded.  The zone is looked up only when it is not
    known yet, and is then remembered; without a zone nothing further is
    sent and the result is a failure.  Then the records of the subdomain
    are listed, and the one write that follows updates the first record
    listed or, when none is listed, creates a record; an update reports
    the id of the record it updated.  A request that fails ends the call
    with a failure result, never with an exception. *)
Theorem cloudflare_createRecord_protocol
        (e : Providers.Env) (args : Providers.RecordArgs)
        (w : Providers.World) (fields : gmap string Providers.Value)
        (Hcreds : Providers.cloudflare_credentials w = Providers.VObj fields) :
  let token := default Providers.VUndefined (fields !! "apiToken") in
  let lookup := Providers.CloudflareZones token (Providers.domain args) in
  let known :=
    Providers.Cloudflare.zone_known (Providers.cloudflare_zoneId w) in
  let asked := if known then [] else [lookup] in
  let zone :=
    if known then Providers.cloudflare_zoneId w
    else match Providers.cloudflare_zones e (Providers.history w) lookup with
         | JS.Normal data =>
             if Providers.zones_success data
             then head (Providers.zones_result data) else None
         | JS.Throw _ => None
         end in
  exists r w',
    Providers.Cloudflare.createRecord e args w = Some (JS.Normal r, w')
    /\ match zone with
       | None =>
           Providers.history w' = Providers.history w ++ asked
           /\ Providers.success r = false
           /\ Providers.cloudflare_zoneId w' = Providers.cloudflare_zoneId w
       | Some z =>
           let listing :=
             Providers.CloudflareListRecords
               token z (Providers.subdomain args) "CNAME" in
           Providers.cloudflare_zoneId w' = Some z
           /\ match Providers.cloudflare_records
                      e (Providers.history w ++ asked) listing with
              | JS.Throw _ =>
                  Providers.history w'
                  = Providers.history w ++ asked ++ [listing]
                  /\ Providers.success r = false
              | JS.Normal data =>
                  let existing :=
                    if Providers.records_success data
                    then head (Providers.records_result data) else None in
                  let write :=
                    match existing with
                    | Some record =>
                        Providers.CloudflareUpdateRecord
                          token z (Providers.record_id record) "CNAME"
                          (Providers.target args) (Providers.ttl args)
                    | None =>
                        Providers.CloudflareCreateRecord
                          token z "CNAME" (Providers.subdomain args)
                          (Providers.target args) (Providers.ttl args)
                    end in
                  Providers.history w'
                  = Providers.history w ++ asked ++ [listing; write]
                  /\ match Providers.cloudflare_write
                             e (Providers.history w ++ asked ++ [listing])
                             write with
                     | JS.Normal answer =>
                         Providers.success r = Providers.write_success answer
                         /\ Providers.recordId r
                            = match existing with
                              | Some record =>
                                  Some (Providers.record_id record)
                              | None => Providers.write_result answer
                              end
                     | JS.Throw _ => Providers.success r = false
                     end
              end
       end.
Proof.
  cbv zeta.
  unfold Providers.Cloudflare.createRecord, Providers.Cloudflare.getZoneId,
    Providers.Cloudflare.findExistingRecord, Providers.Cloudflare.updateRecord,
    Providers.Cloudflare.createNewRecord.
  destruct w as [clock history porkbun credentials zoneId netlify monitoring
                 checks].
  cbn in Hcreds. subst credentials.
  run_monad.
  assert (Hzone :
            Providers.Cloudflare.zone_known zoneId = true
            -> exists z, zoneId = Some z).
  { destruct zoneId as [z|]; [eauto|discriminate]. }
  destruct (Providers.Cloudflare.zone_known zoneId) eqn:Hknown.
  - destruct (Hzone eq_refl) as [z ->]. clear Hzone. cbn.
    rewrite !app_nil_r.
    destruct (Providers.cloudflare_records e history _) as [data|msg]; cbn.
    + destruct (Providers.records_success data); cbn;
        [destruct (Providers.records_result data) as [|record others]; cbn|];
        rewrite <- ?app_assoc; cbn [app];
        destruct (Providers.cloudflare_write e _ _) as [answer|msg]; cbn;
        do 2 eexists; (split; [reflexivity|]); cbn;
        rewrite <- ?app_assoc; cbn [app]; repeat split.
    + do 2 eexists. split; [reflexivity|]. cbn. repeat split.
  - clear Hzone. cbn.
    destruct (Providers.cloudflare_zones e history _) as [zones|msg]; cbn;
      [|do 2 eexists; split; [reflexivity|]; cbn; repeat split].
    destruct (Providers.zones_success zones); cbn;
      [|do 2 eexists; split; [reflexivity|]; cbn; repeat split].
    destruct (Providers.zones_result zones) as [|z others]; cbn;
      [do 2 eexists; split; [reflexivity|]; cbn; repeat split|].
    destruct (Providers.cloudflare_records e _ _) as [data|msg]; cbn.
    + destruct (Providers.records_success data); cbn;
        [destruct (Providers.records_result data) as [|record more]; cbn|];
        rewrite <- ?app_assoc; cbn [app];
        destruct (Providers.cloudflare_write e _ _) as [answer|msg]; cbn;
        do 2 eexists; (split; [reflexivity|]); cbn;
        rewrite <- ?app_assoc; cbn [app]; repeat split.
    + do 2 eexists. split; [reflexivity|]. cbn.
      rewrite <- ?app_assoc. repeat split.
Qed.

(** X18 at a concrete call: the zone is looked up, the records are
    listed, and the record found is updated in place. *)
Lemma cloudflare_createRecord_protocol_witness :
  exists r w',
    Providers.Cloudflare.createRecord Samples.cloudflare_account
                                      Samples.fogg_record
                                      Samples.cloudflare_ready
    = Some (JS.Normal r, w')
    /\ Providers.success r = true
    /\ Providers.recordId r = Some "r-81aa"
    /\ length (Providers.history w') = 3%nat.
Proof.
  destruct (cloudflare_createRecord_protocol
              Samples.cloudflare_account Samples.fogg_record
              Samples.cloudflare_ready
              {[ "apiToken" := Providers.VStr "cf_7d1e" ]} eq_refl)
    as (r & w' & Hrun & Hzone & Hhistory & Hsuccess & Hid).
  exists r, w'. split; [exact Hrun|].
  split; [exact Hsuccess|]. split; [exact Hid|].
  rewrite Hhistory. reflexivity.
Defined.

(** X19.  A provider whose health check has not run holds no
    credentials, and its [createRecord] then sends nothing: reading the
    key of [null] fails before any request is made, and the failure
    comes back as an unsuccessful result that names it. *)
Theorem createRecord_without_credentials
        (e : Providers.Env) (args : Providers.RecordArgs)
        (w : Providers.World)
        (Hporkbun : Providers.porkbun_credentials w = Providers.VNull)
        (Hcloudflare : Providers.cloudflare_credentials w = Providers.VNull) :
  Providers.Porkbun.createRecord e args w
  = Some (JS.Normal
            {| Providers.success := false;
               Providers.recordId := None;
               Providers.record_error :=
                 Some "Porkbun API error: Cannot read properties of null (reading 'secretKey')" |},
          w)
  /\ Providers.Cloudflare.createRecord e args w
     = Some (JS.Normal
               {| Providers.success := false;
                  Providers.recordId := None;
                  Providers.record_error :=
                    Some "Cloudflare DNS error: Cannot read properties of null (reading 'apiToken')" |},
             w).
Proof.
  split.
  - unfold Providers.Porkbun.createRecord. rewrite Hporkbun. reflexivity.
  - unfold Providers.Cloudflare.createRecord, Providers.Cloudflare.getZoneId,
      Providers.Cloudflare.findExistingRecord.
    run_monad.
    destruct (Providers.Cloudflare.zone_known (Providers.cloudflare_zoneId w));
      cbn; rewrite Hcloudflare; reflexivity.
Qed.

(** X19 at the state the constructors leave. *)
Lemma createRecord_without_credentials_witness :
  (exists r,
      Providers.Porkbun.createRecord Samples.porkbun_accepts
                                     Samples.fogg_record Providers.fresh
      = Some (JS.Normal r, Providers.fresh)
      /\ Providers.success r = false)
  /\ exists r,
      Providers.Cloudflare.createRecord Samples.cloudflare_account
                                        Samples.fogg_record Providers.fresh
      = Some (JS.Normal r, Providers.fresh)
      /\ Providers.success r = false.
Proof.
  split.
  - eexists. split.
    + apply (createRecord_without_credentials
               Samples.porkbun_accepts Samples.fogg_record Providers.fresh
               eq_refl eq_refl).
    + reflexivity.
  - eexists. split.
    + apply (createRecord_without_credentials
               Samples.cloudflare_account Samples.fogg_record Providers.fresh
               eq_refl eq_refl).
    + reflexivity.
Defined.

Lemma first_credentials_truthy read (sources : list Providers.Source) creds :
  snd (Providers.first_credentials read sources) = Some creds ->
  Providers.truthy creds = true.
Proof.
  induction sources as [|source rest IH]; cbn; [discriminate|].
  destruct (read source) as [v|msg].
  - destruct (Providers.truthy v) eqn:Hv.
    + intros [= <-]. exact Hv.
    + destruct (Providers.first_credentials read rest). exact IH.
  - destruct (Providers.first_credentials read rest). exact IH.
Qed.

Lemma property_truthy (v : Providers.Value) (key : string) :
  Providers.truthy v = true -> exists x, Providers.property v key = JS.Normal x.
Proof. destruct v; cbn; try discriminate; eauto. Qed.

(** X20.  What a health check leaves behind.  When the credentials load,
    what was loaded is truthy, replaces the credentials the provider
    held, and exactly one request goes out; when they do not load, the
    check changes nothing: the provider keeps the credentials of an
    earlier check and no request is sent. *)
Theorem healthCheck_stores_credentials
        (e : Providers.Env) (w : Providers.World) :
  (exists r w',
      Providers.Porkbun.healthCheck e w = Some (JS.Normal r, w')
      /\ match snd (Providers.Porkbun.loadCredentials e) with
         | JS.Normal creds =>
             Providers.truthy creds = true
             /\ exists req,
                 w' = Providers.set_history
                        (Providers.history w ++ [req])
                        (Providers.set_porkbun_credentials creds w)
         | JS.Throw _ => w' = w
         end)
  /\ (exists r w',
         Providers.Cloudflare.healthCheck e w = Some (JS.Normal r, w')
         /\ match snd (Providers.Cloudflare.loadCredentials e) with
            | JS.Normal creds =>
                Providers.truthy creds = true
                /\ exists req,
                    w' = Providers.set_history
                           (Providers.history w ++ [req])
                           (Providers.set_cloudflare_credentials creds w)
            | JS.Throw _ => w' = w
            end)
  /\ (exists r w',
         Providers.Netlify.healthCheck e w = Some (JS.Normal r, w')
         /\ match snd (Providers.Netlify.loadCredentials e) with
            | JS.Normal creds =>
                Providers.truthy creds = true
                /\ exists req,
                    w' = Providers.set_history
                           (Providers.history w ++ [req])
                           (Providers.set_netlify_credentials creds w)
            | JS.Throw _ => w' = w
            end).
Proof.
  split; [|split].
  - unfold Providers.Porkbun.healthCheck, Providers.Porkbun.loadCredentials.
    pose proof (first_credentials_truthy (Providers.Porkbun.read e)
                  Providers.Porkbun.sources) as Htruthy.
    destruct (Providers.first_credentials _ _) as [asked [creds|]];
      cbn [snd] in *; run_monad; [|do 2 eexists; split; reflexivity].
    specialize (Htruthy creds eq_refl).
    destruct (property_truthy creds "secretKey" Htruthy) as [secret ->].
    destruct (property_truthy creds "apiKey" Htruthy) as [key ->]. cbn.
    destruct (Providers.porkbun_ping e _ _); cbn;
      do 2 eexists; (split; [reflexivity|]);
      (split; [exact Htruthy|]); eexists; reflexivity.
  - unfold Providers.Cloudflare.healthCheck,
      Providers.Cloudflare.loadCredentials.
    pose proof (first_credentials_truthy (Providers.Cloudflare.read e)
                  Providers.Cloudflare.sources) as Htruthy.
    destruct (Providers.first_credentials _ _) as [asked [creds|]];
      cbn [snd] in *; run_monad; [|do 2 eexists; split; reflexivity].
    specialize (Htruthy creds eq_refl).
    destruct (property_truthy creds "apiToken" Htruthy) as [token ->]. cbn.
    destruct (Providers.cloudflare_verify e _ _); cbn;
      do 2 eexists; (split; [reflexivity|]);
      (split; [exact Htruthy|]); eexists; reflexivity.
  - unfold Providers.Netlify.healthCheck, Providers.Netlify.loadCredentials.
    pose proof (first_credentials_truthy (Providers.Netlify.read e)
                  Providers.Netlify.sources) as Htruthy.
    destruct (Providers.first_credentials _ _) as [asked [creds|]];
      cbn [snd] in *; run_monad; [|do 2 eexists; split; reflexivity].
    specialize (Htruthy creds eq_refl).
    destruct (property_truthy creds "accessToken" Htruthy) as [token ->]. cbn.
    destruct (Providers.netlify_user e _ _); cbn;
      do 2 eexists; (split; [reflexivity|]);
      (split; [exact Htruthy|]); eexists; reflexivity.
Qed.

(* ===================================================================== *)
(** * Further properties of dns-management-system.js *)
(* ===================================================================== *)

Lemma set_clock_twice (t1 t2 : Z) (w : Providers.World) :
  Providers.set_clock t2 (Providers.set_clock t1 w) = Providers.set_clock t2 w.
Proof. reflexivity. Qed.

Lemma set_clock_same (w : Providers.World) :
  Providers.set_clock (Providers.clock w) w = w.
Proof. destruct w. reflexivity. Qed.

(** What the propagation loop returns, from wherever it starts. *)
Lemma propagation_loop_result e cfg startTime :
  forall fuel w,
    match Manager.propagation_loop e cfg startTime fuel w with
    | Some (JS.Normal v, w') =>
        w' = Providers.set_clock (Providers.clock w') w
        /\ Providers.clock w <= Providers.clock w'
        /\ (Manager.verification_method v = Some "dns_cname"
            /\ Manager.verification_error v = None
            /\ (exists t addresses took,
                   Providers.clock w <= t
                   /\ t - startTime < Manager.verificationTimeout cfg
                   /\ Providers.resolveCname e t = (JS.Normal addresses, took)
                   /\ JS.includes addresses (Manager.target cfg) = true
                   /\ Manager.verification_success v
                      = match (Providers.http_get e (t + Z.of_N took)).1 with
                        | JS.Normal status => status <? 400
                        | JS.Throw _ => false
                        end)
            \/ Manager.verification_method v = None
               /\ Manager.verification_success v = false
               /\ Manager.verification_error v = Some "DNS propagation timeout"
               /\ Manager.verificationTimeout cfg
                  <= Providers.clock w' - startTime)
    | Some (JS.Throw _, _) => False
    | None => True
    end.
Proof.
  induction fuel as [|fuel IH]; intros w.
  - cbn. run_monad.
    destruct (Z.ltb_spec (Providers.clock w - startTime)
                (Manager.verificationTimeout cfg)); [exact I|].
    cbn. split; [symmetry; apply set_clock_same|].
    split; [lia|]. right. repeat split. assumption.
  - cbn [Manager.propagation_loop]. run_monad.
    destruct (Z.ltb_spec (Providers.clock w - startTime)
                (Manager.verificationTimeout cfg)) as [Hin|Hout].
    2:{ cbn. split; [symmetry; apply set_clock_same|].
        split; [lia|]. right. repeat split. assumption. }
    destruct (Providers.resolveCname e (Providers.clock w))
      as [answer took] eqn:Hresolve.
    pose proof (N2Z.is_nonneg took) as Htook.
    assert (Hretry :
              match
                Manager.propagation_loop e cfg startTime fuel
                  (Providers.set_clock
                     (Providers.clock w + Z.of_N took + 10000) w)
              with
              | Some (JS.Normal v, w') =>
                  w' = Providers.set_clock (Providers.clock w') w
                  /\ Providers.clock w <= Providers.clock w'
                  /\ (Manager.verification_method v = Some "dns_cname"
                      /\ Manager.verification_error v = None
                      /\ (exists t addresses took,
                             Providers.clock w <= t
                             /\ t - startTime < Manager.verificationTimeout cfg
                             /\ Providers.resolveCname e t
                                = (JS.Normal addresses, took)
                             /\ JS.includes addresses (Manager.target cfg)
                                = true
                             /\ Manager.verification_success v
                                = match (Providers.http_get
                                           e (t + Z.of_N took)).1 with
                                  | JS.Normal status => status <? 400
                                  | JS.Throw _ => false
                                  end)
                      \/ Manager.verification_method v = None
                         /\ Manager.verification_success v = false
                         /\ Manager.verification_error v
                            = Some "DNS propagation timeout"
                         /\ Manager.verificationTimeout cfg
                            <= Providers.clock w' - startTime)
              | Some (JS.Throw _, _) => False
              | None => True
              end).
    { specialize (IH (Providers.set_clock
                        (Providers.clock w + Z.of_N took + 10000) w)).
      destruct (Manager.propagation_loop _ _ _ _ _) as [[[v|msg] w']|];
        [|exact IH|exact I].
      destruct IH as (Hframe & Hclock & Hresult).
      cbn [Providers.clock Providers.set_clock] in Hclock.
      split; [rewrite Hframe at 1; apply set_clock_twice|].
      split; [lia|].
      destruct Hresult as [(Hm & He & t & addresses & took' & Ht & Hrest)|Hout];
        [left|right; exact Hout].
      split; [exact Hm|]. split; [exact He|].
      exists t, addresses, took'.
      cbn [Providers.clock Providers.set_clock] in Ht.
      split; [lia|exact Hrest]. }
    destruct answer as [addresses|msg]; run_monad.
    + destruct (JS.includes addresses (Manager.target cfg)) eqn:Hincl.
      * unfold Manager.verifyHTTPAccess. run_monad.
        destruct (Providers.http_get e (Providers.clock w + Z.of_N took))
          as [response took2] eqn:Hhttp.
        pose proof (N2Z.is_nonneg took2) as Htook2.
        destruct response as [status|msg]; cbn;
          (split; [reflexivity|]); (split; [lia|]); left;
          (split; [reflexivity|]); (split; [reflexivity|]);
          exists (Providers.clock w), addresses, took;
          rewrite Hhttp; repeat split; try assumption; lia.
      * run_monad. exact Hretry.
    + exact Hretry.
Qed.

(** X21.  [verifyDNSPropagation] always returns, changes nothing but the
    clock, and its result is one of two.  Either the name resolved, before
    the deadline, to a list that holds the target: then the site is
    requested once and the verification succeeds exactly when the answer
    has a status below 400; a refusal ends the wait with a failure, it
    is not retried.  Or the verification failed with the propagation
    timeout, and by then the deadline has passed. *)
Theorem verifyDNSPropagation_sound e cfg (w : Providers.World) :
  exists v w',
    Manager.verifyDNSPropagation e cfg w = Some (JS.Normal v, w')
    /\ w' = Providers.set_clock (Providers.clock w') w
    /\ Providers.clock w <= Providers.clock w'
    /\ (Manager.verification_method v = Some "dns_cname"
        /\ Manager.verification_error v = None
        /\ (exists t addresses took,
               Providers.clock w <= t
               /\ t - Providers.clock w < Manager.verificationTimeout cfg
               /\ Providers.resolveCname e t = (JS.Normal addresses, took)
               /\ JS.includes addresses (Manager.target cfg) = true
               /\ Manager.verification_success v
                  = match (Providers.http_get e (t + Z.of_N took)).1 with
                    | JS.Normal status => status <? 400
                    | JS.Throw _ => false
                    end)
        \/ Manager.verification_method v = None
           /\ Manager.verification_success v = false
           /\ Manager.verification_error v = Some "DNS propagation timeout"
           /\ Manager.verificationTimeout cfg
              <= Providers.clock w' - Providers.clock w).
Proof.
  destruct (verifyDNSPropagation_ends e cfg w) as (v & w' & Hrun).
  exists v, w'. split; [exact Hrun|].
  unfold Manager.verifyDNSPropagation in Hrun.
  unfold JS.mbind at 1 in Hrun. unfold JS.gets at 1 in Hrun.
  pose proof (propagation_loop_result e cfg (Providers.clock w)
                (S (Z.to_nat (Manager.verificationTimeout cfg / 10000))) w)
    as Hresult.
  rewrite Hrun in Hresult. exact Hresult.
Qed.

(** ** Who may start the monitoring *)

Lemma porkbun_healthCheck_monitoring e :
  Spec.keeps_monitoring (Providers.Porkbun.healthCheck e).
Proof.
  intros w. unfold Providers.Porkbun.healthCheck. run_monad.
  destruct (snd (Providers.Porkbun.loadCredentials e)) as [creds|msg]; cbn;
    [|reflexivity].
  destruct (Providers.property creds "secretKey"); cbn; [|reflexivity].
  destruct (Providers.property creds "apiKey"); cbn; [|reflexivity].
  destruct (Providers.porkbun_ping e _ _); reflexivity.
Qed.

Lemma porkbun_createRecord_monitoring e args :
  Spec.keeps_monitoring (Providers.Porkbun.createRecord e args).
Proof.
  intros w. unfold Providers.Porkbun.createRecord.
  destruct (JS.bind _ _) as [req|msg]; [|reflexivity].
  destruct (Providers.porkbun_create e _ _); reflexivity.
Qed.

Lemma verifyDNSPropagation_monitoring e cfg :
  Spec.keeps_monitoring (Manager.verifyDNSPropagation e cfg).
Proof.
  intros w. unfold Manager.verifyDNSPropagation.
  unfold JS.mbind at 1. unfold JS.gets at 1.
  pose proof (propagation_loop_result e cfg (Providers.clock w)
                (S (Z.to_nat (Manager.verificationTimeout cfg / 10000))) w)
    as Hresult.
  destruct (Manager.propagation_loop _ _ _ _ _) as [[[v|msg] w']|];
    [|destruct Hresult|exact I].
  destruct Hresult as [-> _]. reflexivity.
Qed.

Lemma attemptProvider_monitoring e cfg p :
  In p Manager.providers ->
  Spec.keeps_monitoring (Manager.attemptProvider e cfg p).
Proof.
  intros Hp w.
  destruct Hp as [<-|[<-|[<-|[]]]];
    [|unfold Manager.attemptProvider; run_monad; reflexivity..].
  unfold Manager.attemptProvider.
  unfold JS.catch. unfold JS.mbind at 1.
  cbn [Providers.healthCheck Providers.Porkbun.provider].
  pose proof (porkbun_healthCheck_monitoring e w) as Hhealth.
  destruct (Providers.Porkbun.healthCheck e w) as [[[r|msg] w1]|];
    [|exact Hhealth|exact I].
  destruct (Providers.healthy r); cbn [negb]; [|exact Hhealth].
  unfold JS.mbind at 1.
  cbn [Providers.createRecord Providers.Porkbun.provider].
  match goal with
  | |- context [Providers.Porkbun.createRecord e ?a w1] =>
      pose proof (porkbun_createRecord_monitoring e a w1) as Hcreate;
      destruct (Providers.Porkbun.createRecord e a w1) as [[[rec|msg] w2]|]
  end; [|congruence|exact I].
  destruct (Providers.success rec); cbn [negb];
    [|unfold JS.throw; congruence].
  unfold JS.mbind.
  pose proof (verifyDNSPropagation_monitoring e cfg w2) as Hverify.
  destruct (Manager.verifyDNSPropagation e cfg w2) as [[[v|msg] w3]|];
    [| |exact I]; unfold JS.ret; congruence.
Qed.

(** The provider chain: a result names Porkbun and comes with the
    monitoring started; without a result the flag is as before. *)
Lemma provider_chain_outcome e cfg (ps : list Providers.Provider) :
  (forall p, In p ps -> In p Manager.providers) ->
  forall w, exists r w',
      Manager.provider_chain e cfg ps w = Some (JS.Normal r, w')
      /\ match r with
         | Some outcome =>
             Manager.success outcome = true
             /\ Manager.provider outcome = Some "Porkbun"
             /\ Manager.method outcome = None
             /\ Providers.isMonitoring w' = true
         | None => Providers.isMonitoring w' = Providers.isMonitoring w
         end.
Proof.
  induction ps as [|p rest IH]; intros Hsub w.
  - do 2 eexists. split; reflexivity.
  - cbn [Manager.provider_chain].
    assert (Hp : In p Manager.providers) by (apply Hsub; left; reflexivity).
    destruct (attemptProvider_returns e cfg p w Hp) as [ok [w1 Hattempt]].
    pose proof (attemptProvider_monitoring e cfg p Hp w) as Hframe.
    rewrite Hattempt in Hframe.
    unfold JS.mbind at 1. unfold JS.catch at 1. unfold JS.mbind at 1.
    rewrite Hattempt. destruct ok; cbn.
    + do 2 eexists. split; [reflexivity|]. cbn.
      repeat split.
      destruct Hp as [<-|[<-|[<-|[]]]]; [reflexivity| |].
      * rewrite (attemptProvider_unhealthy
                   e cfg Providers.Stub.cloudflare w
                   {| Providers.healthy := false;
                      Providers.error := Some "Not implemented yet" |}
                   w eq_refl eq_refl) in Hattempt.
        discriminate.
      * rewrite (attemptProvider_unhealthy
                   e cfg Providers.Stub.netlify w
                   {| Providers.healthy := false;
                      Providers.error := Some "Not implemented yet" |}
                   w eq_refl eq_refl) in Hattempt.
        discriminate.
    + destruct (IH (fun q Hq => Hsub q (or_intror Hq)) w1)
        as (r & w' & Hrun & Hresult).
      exists r, w'. split; [exact Hrun|].
      destruct r; [exact Hresult|congruence].
Qed.

Lemma try_alternatives_step e cfg alternatives :
  Spec.backup_step (Manager.try_alternatives e cfg alternatives).
Proof.
  induction alternatives as [|alt rest IH]; intros w.
  - cbn. split; reflexivity.
  - cbn [Manager.try_alternatives]. run_monad.
    match goal with
    | |- context [Providers.Porkbun.createRecord e ?a w] =>
        pose proof (porkbun_createRecord_monitoring e a w) as Hframe;
        destruct (porkbun_createRecord_returns e a w) as [r [w1 Hrun]];
        rewrite Hrun in Hframe |- *
    end.
    cbn. destruct (Providers.success r); cbn.
    + split; [exact Hframe|reflexivity].
    + specialize (IH w1).
      destruct (Manager.try_alternatives e cfg rest w1) as [[c w2]|];
        [|exact I].
      destruct IH as [Hrest Hprovider].
      split; [congruence|exact Hprovider].
Qed.

Lemma first_successful_step (strategies : list (JS.M Providers.World
                                                     Manager.Outcome)) :
  Forall Spec.backup_step strategies ->
  Spec.backup_step (Manager.first_successful strategies).
Proof.
  induction 1 as [|strategy rest Hstep _ IH]; intros w.
  - cbn. split; reflexivity.
  - rewrite first_successful_cons.
    specialize (Hstep w).
    destruct (strategy w) as [[[o|msg] w1]|]; [| |exact I].
    + destruct (Manager.success o); [exact Hstep|].
      specialize (IH w1).
      destruct (Manager.first_successful rest w1) as [[c w2]|]; [|exact I].
      destruct Hstep as [Hframe _]. destruct IH as [Hrest Hprovider].
      split; [congruence|exact Hprovider].
    + specialize (IH w1).
      destruct (Manager.first_successful rest w1) as [[c w2]|]; [|exact I].
      destruct Hstep as [Hframe _]. destruct IH as [Hrest Hprovider].
      split; [congruence|exact Hprovider].
Qed.

Lemma implementBackupStrategy_step e cfg :
  Spec.backup_step (Manager.implementBackupStrategy e cfg).
Proof.
  unfold Manager.implementBackupStrategy.
  apply first_successful_step.
  apply List.Forall_cons; [|apply List.Forall_cons;
                             [|apply List.Forall_cons;
                                [|apply List.Forall_cons;
                                   [|apply List.Forall_nil]]]].
  - intros w. unfold Manager.useNetlifyRedirect. run_monad.
    destruct (Providers.write_file e "netlify/_redirects"); cbn;
      split; reflexivity.
  - apply try_alternatives_step.
  - intros w. unfold Manager.setupProxyServer. run_monad.
    split; reflexivity.
  - intros w. unfold Manager.notifyUserWithInstructions. run_monad.
    destruct (Providers.write_file e "EMERGENCY_DNS_INSTRUCTIONS.md"); cbn;
      split; reflexivity.
Qed.

(** X22.  [configureDNS] always returns an object with [success] set;
    it never throws and never reports a failure, so the command line
    always exits with 0.  Either a provider configured the record: this
    can only be Porkbun, and the monitoring has been started.  Or the
    object is that of a backup strategy (the redirect, an alternative
    subdomain or the proxy configuration): it names no provider, and the
    monitoring is not started. *)
Theorem configureDNS_outcome (e : Providers.Env) cfg (w : Providers.World) :
  exists outcome w',
    Manager.configureDNS e cfg w = Some (JS.Normal outcome, w')
    /\ Manager.success outcome = true
    /\ Manager.exit_code (JS.Normal outcome) = 0
    /\ (Manager.provider outcome = Some "Porkbun"
        /\ Manager.method outcome = None
        /\ Providers.isMonitoring w' = true
        \/ Manager.provider outcome = None
           /\ In (Manager.method outcome)
                 [Some "netlify_redirect"; Some "alternative_subdomain";
                  Some "proxy_server"]
           /\ Providers.isMonitoring w' = Providers.isMonitoring w).
Proof.
  unfold Manager.configureDNS.
  destruct (provider_chain_outcome e cfg Manager.providers (fun p H => H) w)
    as (r & w1 & Hchain & Hresult).
  unfold JS.mbind. rewrite Hchain.
  destruct r as [outcome|].
  - exists outcome, w1. split; [reflexivity|].
    destruct Hresult as (Hsuccess & Hprovider & Hmethod & Hmonitoring).
    split; [exact Hsuccess|].
    split; [cbn; rewrite Hsuccess; reflexivity|].
    left. repeat split; assumption.
  - destruct (implementBackupStrategy_succeeds e cfg w1)
      as (o & w2 & Hrun & Hsuccess & _ & Hmethod).
    pose proof (implementBackupStrategy_step e cfg w1) as Hstep.
    rewrite Hrun in Hstep. destruct Hstep as [Hframe Hprovider].
    exists o, w2. split; [exact Hrun|].
    split; [exact Hsuccess|].
    split; [cbn; rewrite Hsuccess; reflexivity|].
    right.
    split; [exact Hprovider|]. split; [exact Hmethod|]. congruence.
Qed.

(** ** The backup strategies, one by one *)

(** The alternative subdomains are tried in order with the first
    provider: a create request goes out for each until Porkbun accepts
    one, and that one is reported; when Porkbun accepts none, or the
    credentials cannot be read, none is reported. *)
Lemma try_alternatives_result e cfg alternatives :
  forall w, exists o w' sent,
      Manager.try_alternatives e cfg alternatives w = Some (JS.Normal o, w')
      /\ Providers.history w' = Providers.history w ++ sent
      /\ match Spec.porkbun_keys w with
         | None =>
             sent = []
             /\ Manager.success o = false
             /\ Manager.error o = Some "No alternative subdomains available"
         | Some keys =>
             if Manager.success o then
               exists skipped alt rest,
                 alternatives = skipped ++ alt :: rest
                 /\ sent = map (Spec.create_request cfg keys)
                               (skipped ++ [alt])
                 /\ Spec.all_refused e cfg keys (Providers.history w) skipped
                 /\ Spec.accepted
                      e
                      (Providers.history w
                       ++ map (Spec.create_request cfg keys) skipped)
                      (Spec.create_request cfg keys alt)
                    = true
                 /\ Manager.method o = Some "alternative_subdomain"
                 /\ Manager.alt_subdomain o = Some alt
                 /\ Manager.url o
                    = Some ("https://" +:+ alt +:+ "."
                            +:+ Manager.domain cfg)
             else
               sent = map (Spec.create_request cfg keys) alternatives
               /\ Spec.all_refused e cfg keys (Providers.history w)
                                   alternatives
               /\ Manager.error o
                  = Some "No alternative subdomains available"
         end.
Proof.
  induction alternatives as [|alt rest IH]; intros w.
  - exists (Manager.failed "No alternative subdomains available"), w, [].
    split; [reflexivity|]. split; [rewrite app_nil_r; reflexivity|].
    destruct (Spec.porkbun_keys w) as [keys|]; cbn; repeat split.
    intros before name after H. destruct before; discriminate.
  - cbn [Manager.try_alternatives]. run_monad.
    unfold Providers.Porkbun.createRecord.
    cbn [Providers.domain Providers.subdomain Providers.target Providers.ttl].
    specialize (IH w) as Hsame.
    unfold Spec.porkbun_keys in *.
    destruct (Providers.property (Providers.porkbun_credentials w) "secretKey")
      as [secret|msg] eqn:Hsecret; cbn [JS.bind].
    2:{ cbn. destruct Hsame
          as (o & w' & sent & Hrun & Hsent & -> & Hfail & Herr).
        exists o, w', []. repeat split; assumption. }
    destruct (Providers.property (Providers.porkbun_credentials w) "apiKey")
      as [key|msg] eqn:Hkey; cbn [JS.bind].
    2:{ cbn. destruct Hsame
          as (o & w' & sent & Hrun & Hsent & -> & Hfail & Herr).
        exists o, w', []. repeat split; assumption. }
    clear Hsame.
    set (keys := (secret, key)).
    set (req := Providers.PorkbunCreate (Manager.domain cfg) secret key alt
                                        "CNAME" (Manager.target cfg)
                                        (Manager.ttl cfg)).
    change req with (Spec.create_request cfg keys alt) in *.
    assert (Hnext :
              Spec.accepted e (Providers.history w)
                            (Spec.create_request cfg keys alt) = false ->
              exists o w' sent,
                Manager.try_alternatives e cfg rest
                  (Providers.set_history
                     (Providers.history w
                      ++ [Spec.create_request cfg keys alt]) w)
                = Some (JS.Normal o, w')
                /\ Providers.history w' = Providers.history w ++ sent
                /\ if Manager.success o then
                     exists skipped alt0 rest0,
                       alt :: rest = skipped ++ alt0 :: rest0
                       /\ sent = map (Spec.create_request cfg keys)
                                     (skipped ++ [alt0])
                       /\ Spec.all_refused e cfg keys (Providers.history w)
                                           skipped
                       /\ Spec.accepted
                            e
                            (Providers.history w
                             ++ map (Spec.create_request cfg keys) skipped)
                            (Spec.create_request cfg keys alt0)
                          = true
                       /\ Manager.method o = Some "alternative_subdomain"
                       /\ Manager.alt_subdomain o = Some alt0
                       /\ Manager.url o
                          = Some ("https://" +:+ alt0 +:+ "."
                                  +:+ Manager.domain cfg)
                   else
                     sent = map (Spec.create_request cfg keys) (alt :: rest)
                     /\ Spec.all_refused e cfg keys (Providers.history w)
                                         (alt :: rest)
                     /\ Manager.error o
                        = Some "No alternative subdomains available").
    { intros Hrefused.
      destruct (IH (Providers.set_history
                      (Providers.history w
                       ++ [Spec.create_request cfg keys alt]) w))
        as (o & w' & sent & Hrun & Hsent & Hres).
      cbn [Providers.porkbun_credentials Providers.set_history] in Hres.
      rewrite Hsecret, Hkey in Hres. fold keys in Hres.
      cbn [Providers.history Providers.set_history] in Hsent, Hres.
      exists o, w', (Spec.create_request cfg keys alt :: sent).
      split; [exact Hrun|].
      split; [rewrite Hsent, <- app_assoc; reflexivity|].
      destruct (Manager.success o).
      - destruct Hres
          as (skipped & alt0 & rest0 & -> & -> & Hskipped & Hok & Hfields).
        exists (alt :: skipped), alt0, rest0.
        split; [reflexivity|]. split; [reflexivity|].
        split.
        { intros before name after Hsplit.
          destruct before as [|first before]; cbn in Hsplit.
          - injection Hsplit as <- _. cbn. rewrite app_nil_r. exact Hrefused.
          - injection Hsplit as <- ->. cbn [map].
            specialize (Hskipped before name after eq_refl).
            rewrite <- app_assoc in Hskipped. exact Hskipped. }
        split; [|exact Hfields].
        cbn [map]. rewrite <- app_assoc in Hok. exact Hok.
      - destruct Hres as (-> & Hall & Herr).
        split; [reflexivity|]. split; [|exact Herr].
        intros before name after Hsplit.
        destruct before as [|first before]; cbn in Hsplit.
        + injection Hsplit as <- _. cbn. rewrite app_nil_r. exact Hrefused.
        + injection Hsplit as <- ->. cbn [map].
          specialize (Hall before name after eq_refl).
          rewrite <- app_assoc in Hall. exact Hall. }
    unfold Spec.accepted in Hnext.
    destruct (Providers.porkbun_create e (Providers.history w)
                (Spec.create_request cfg keys alt))
      as [data|msg detail] eqn:Hcreate; cbn; [|exact (Hnext eq_refl)].
    destruct (String.eqb (Providers.create_status data) "SUCCESS")
      eqn:Hstatus; cbn; [|exact (Hnext eq_refl)].
    do 2 eexists. exists [Spec.create_request cfg keys alt].
    split; [reflexivity|]. cbn. split; [reflexivity|].
    exists [], alt, rest.
    split; [reflexivity|]. split; [reflexivity|].
    split; [intros before name after H; destruct before; discriminate|].
    split; [|repeat split].
    cbn. rewrite app_nil_r. unfold Spec.accepted.
    rewrite Hcreate. exact Hstatus.
Qed.

Lemma try_alternatives_file e cfg alternatives :
  forall w,
    match Manager.try_alternatives e cfg alternatives w with
    | Some (JS.Normal o, _) => Manager.file o = None
    | _ => True
    end.
Proof.
  induction alternatives as [|alt rest IH]; intros w; [reflexivity|].
  cbn [Manager.try_alternatives]. run_monad.
  match goal with
  | |- context [Providers.Porkbun.createRecord e ?a w] =>
      destruct (porkbun_createRecord_returns e a w) as [r [w1 Hrun]];
      rewrite Hrun
  end.
  cbn. destruct (Providers.success r); cbn; [reflexivity|apply IH].
Qed.

(** X23.  The backup strategies in their order.  When the redirect file
    can be written, the redirect is the result, with its fixed URL, and
    no request is sent.  Otherwise the alternative subdomains are tried
    in their order, with the credentials the Porkbun provider holds: a
    create request goes out for each until Porkbun accepts one (it
    answers with the status [SUCCESS]), and the result is that
    alternative, the requests before it having been refused.  When
    Porkbun accepts none of the three, or the credentials cannot be
    read (then nothing is sent), the result is the proxy configuration,
    which always reports success, so the manual instructions are never
    written. *)
Theorem implementBackupStrategy_order e cfg (w : Providers.World) :
  let alternatives := ["fogg-cal"; "fogg-dashboard"; "calendar-fogg"] in
  exists o w' sent,
    Manager.implementBackupStrategy e cfg w = Some (JS.Normal o, w')
    /\ Providers.history w' = Providers.history w ++ sent
    /\ Manager.file o = None
    /\ match Providers.write_file e "netlify/_redirects" with
       | JS.Normal _ =>
           sent = []
           /\ Manager.method o = Some "netlify_redirect"
           /\ Manager.url o = Some "https://candlefish.ai/fogg"
       | JS.Throw _ =>
           match Spec.porkbun_keys w with
           | None =>
               sent = []
               /\ Manager.method o = Some "proxy_server"
               /\ Manager.proxy_target o
                  = Some "https://fogg-calendar.netlify.app"
           | Some keys =>
               (exists skipped alt rest,
                   alternatives = skipped ++ alt :: rest
                   /\ sent = map (Spec.create_request cfg keys)
                                 (skipped ++ [alt])
                   /\ Spec.all_refused e cfg keys (Providers.history w)
                                       skipped
                   /\ Spec.accepted
                        e
                        (Providers.history w
                         ++ map (Spec.create_request cfg keys) skipped)
                        (Spec.create_request cfg keys alt)
                      = true
                   /\ Manager.method o = Some "alternative_subdomain"
                   /\ Manager.alt_subdomain o = Some alt
                   /\ Manager.url o
                      = Some ("https://" +:+ alt +:+ "."
                              +:+ Manager.domain cfg))
               \/ (sent = map (Spec.create_request cfg keys) alternatives
                   /\ Spec.all_refused e cfg keys (Providers.history w)
                                       alternatives
                   /\ Manager.method o = Some "proxy_server"
                   /\ Manager.proxy_target o
                      = Some "https://fogg-calendar.netlify.app")
           end
       end.
Proof.
  cbv zeta. unfold Manager.implementBackupStrategy.
  rewrite first_successful_cons.
  assert (Hredirect :
            Manager.useNetlifyRedirect e w
            = match Providers.write_file e "netlify/_redirects" with
              | JS.Normal _ =>
                  Some (JS.Normal
                          {| Manager.success := true;
                             Manager.provider := None;
                             Manager.method := Some "netlify_redirect";
                             Manager.url := Some "https://candlefish.ai/fogg";
                             Manager.note :=
                               Some "Users can access via main domain redirect";
                             Manager.alt_subdomain := None;
                             Manager.proxy_target := None;
                             Manager.file := None;
                             Manager.temporaryUrl := None;
                             Manager.error := None |}, w)
              | JS.Throw msg => Some (JS.Normal (Manager.failed msg), w)
              end).
  { unfold Manager.useNetlifyRedirect. run_monad.
    destruct (Providers.write_file e "netlify/_redirects"); reflexivity. }
  rewrite Hredirect.
  destruct (Providers.write_file e "netlify/_redirects") as [[]|msg].
  { do 2 eexists. exists []. split; [reflexivity|]. cbn.
    rewrite app_nil_r. repeat split. }
  cbn [Manager.failed Manager.success].
  rewrite first_successful_cons.
  unfold Manager.createAlternativeSubdomain.
  destruct (try_alternatives_result e cfg
              ["fogg-cal"; "fogg-dashboard"; "calendar-fogg"] w)
    as (o & w1 & sent & Hrun & Hsent & Hres).
  pose proof (try_alternatives_file e cfg
                ["fogg-cal"; "fogg-dashboard"; "calendar-fogg"] w) as Hfile.
  rewrite Hrun in Hfile |- *.
  destruct (Manager.success o) eqn:Hok.
  - exists o, w1, sent. split; [reflexivity|]. split; [exact Hsent|].
    split; [exact Hfile|].
    destruct (Spec.porkbun_keys w) as [keys|].
    + left. exact Hres.
    + destruct Hres as (_ & Hno & _). discriminate.
  - rewrite first_successful_cons. cbn.
    do 2 eexists. exists sent. split; [reflexivity|].
    split; [exact Hsent|]. cbn. split; [reflexivity|].
    destruct (Spec.porkbun_keys w) as [keys|].
    + right. destruct Hres as (Hall & Hrefused & _). repeat split; assumption.
    + destruct Hres as (Hnone & _). repeat split. exact Hnone.
Qed.

(* ===================================================================== *)
(** * NetlifyDNSProvider.createRecord *)
(* ===================================================================== *)

Ltac run_netlify :=
  unfold NetlifyDNS.createRecord, NetlifyDNS.ensureDNSZone,
    NetlifyDNS.getDNSZones, NetlifyDNS.findExistingRecord,
    NetlifyDNS.updateRecord, NetlifyDNS.createNewRecord,
    NetlifyDNS.accessToken, NetlifyDNS.set_zone, NetlifyDNS.send,
    JS.catch, JS.mbind, JS.lift, JS.gets, JS.modify, JS.ret, JS.throw;
  cbn.

Ltac netlify_done :=
  do 2 eexists; (split; [reflexivity|]); cbn;
  rewrite <- ?app_assoc; cbn [app]; repeat split.

(** X24.  The requests of [NetlifyDNSProvider.createRecord], once the
    credentials are loaded.  The DNS zones are listed first; when none
    bears the name of the domain, a zone is created for it.  A failure
    up to here comes back wrapped as a zone failure.  The records of the
    zone are listed only when the zone has an id, and the one write that
    follows updates the first CNAME record of the subdomain or, when
    there is none, creates a record.  An update counts as done on status
    200, a creation on 201.  Whatever fails, the call returns a result
    and does not throw. *)
Theorem netlify_createRecord_protocol
        (v : NetlifyDNS.Vendor) (args : Providers.RecordArgs)
        (st : NetlifyDNS.State) (fields : gmap string Providers.Value)
        (Hcreds : NetlifyDNS.credentials st = Providers.VObj fields) :
  let token := default Providers.VUndefined (fields !! "accessToken") in
  let failure msg :=
    {| Providers.success := false; Providers.recordId := None;
       Providers.record_error := Some ("Netlify DNS error: " +:+ msg) |} in
  let listing := NetlifyDNS.ListZones token in
  let creation := NetlifyDNS.CreateZone token (Providers.domain args) in
  exists r st',
    NetlifyDNS.createRecord v args st = Some (JS.Normal r, st')
    /\ match NetlifyDNS.zones v (NetlifyDNS.history st) listing with
       | JS.Throw msg =>
           NetlifyDNS.history st' = NetlifyDNS.history st ++ [listing]
           /\ NetlifyDNS.dnsZoneId st' = NetlifyDNS.dnsZoneId st
           /\ r = failure ("Failed to create/find DNS zone: " +:+ msg)
       | JS.Normal all =>
           let found :=
             List.find
               (fun zone =>
                  String.eqb (NetlifyDNS.zone_name zone)
                             (Providers.domain args))
               all in
           let setup :=
             match found with
             | Some _ => [listing]
             | None => [listing; creation]
             end in
           match
             match found with
             | Some zone => JS.Normal (NetlifyDNS.zone_id zone)
             | None =>
                 NetlifyDNS.new_zone
                   v (NetlifyDNS.history st ++ [listing]) creation
             end
           with
           | JS.Throw msg =>
               NetlifyDNS.history st' = NetlifyDNS.history st ++ setup
               /\ NetlifyDNS.dnsZoneId st' = NetlifyDNS.dnsZoneId st
               /\ r = failure ("Failed to create/find DNS zone: " +:+ msg)
           | JS.Normal id =>
               let zone := NetlifyDNS.id_value id in
               let lookup := NetlifyDNS.ListRecords
                               token (NetlifyDNS.text zone) in
               let asked :=
                 if Providers.truthy zone then setup ++ [lookup]
                 else setup in
               NetlifyDNS.dnsZoneId st' = zone
               /\ match
                    (if Providers.truthy zone then
                       match NetlifyDNS.records
                               v (NetlifyDNS.history st ++ setup) lookup with
                       | JS.Normal all =>
                           JS.Normal
                             (List.find
                                (fun record =>
                                   String.eqb (NetlifyDNS.hostname record)
                                              (Providers.subdomain args)
                                   && String.eqb
                                        (NetlifyDNS.dns_record_type record)
                                        "CNAME")
                                all)
                       | JS.Throw msg => JS.Throw msg
                       end
                     else JS.Normal None)
                  with
                  | JS.Throw msg =>
                      NetlifyDNS.history st' = NetlifyDNS.history st ++ asked
                      /\ r = failure msg
                  | JS.Normal existing =>
                      let request :=
                        match existing with
                        | Some record =>
                            NetlifyDNS.UpdateRecord
                              token (NetlifyDNS.text zone)
                              (NetlifyDNS.text
                                 (NetlifyDNS.id_value
                                    (NetlifyDNS.dns_record_id record)))
                              "CNAME" (Providers.target args)
                              (Providers.ttl args)
                        | None =>
                            NetlifyDNS.CreateRecord
                              token (NetlifyDNS.text zone) "CNAME"
                              (Providers.subdomain args)
                              (Providers.target args) (Providers.ttl args)
                        end in
                      NetlifyDNS.history st'
                      = NetlifyDNS.history st ++ asked ++ [request]
                      /\ match NetlifyDNS.write
                                 v (NetlifyDNS.history st ++ asked) request
                         with
                         | JS.Throw msg => r = failure msg
                         | JS.Normal data =>
                             Providers.success r
                             = (NetlifyDNS.written_status data
                                =? match existing with
                                   | Some _ => 200
                                   | None => 201
                                   end)
                             /\ Providers.recordId r
                                = match existing with
                                  | Some record =>
                                      NetlifyDNS.dns_record_id record
                                  | None => NetlifyDNS.written_id data
                                  end
                         end
                  end
           end
       end.
Proof.
  cbv zeta.
  destruct st as [credentials zone history]. cbn in Hcreds. subst credentials.
  run_netlify.
  destruct (NetlifyDNS.zones v history _) as [all|msg]; cbn;
    [|netlify_done].
  destruct (List.find _ all) as [found|]; cbn.
  - destruct (Providers.truthy (NetlifyDNS.id_value (NetlifyDNS.zone_id found)));
      cbn.
    + destruct (NetlifyDNS.records v _ _) as [listed|msg]; cbn;
        [|netlify_done].
      destruct (List.find _ listed) as [record|]; cbn;
        rewrite <- ?app_assoc; cbn [app];
        destruct (NetlifyDNS.write v _ _) as [data|msg]; cbn; netlify_done.
    + destruct (NetlifyDNS.write v _ _) as [data|msg]; cbn; netlify_done.
  - destruct (NetlifyDNS.new_zone v _ _) as [id|msg]; cbn; [|netlify_done].
    destruct (Providers.truthy (NetlifyDNS.id_value id)); cbn;
      rewrite <- ?app_assoc; cbn [app].
    + destruct (NetlifyDNS.records v _ _) as [listed|msg]; cbn;
        [|netlify_done].
      destruct (List.find _ listed) as [record|]; cbn;
        rewrite <- ?app_assoc; cbn [app];
        destruct (NetlifyDNS.write v _ _) as [data|msg]; cbn; netlify_done.
    + destruct (NetlifyDNS.write v _ _) as [data|msg]; cbn; netlify_done.
Qed.

(** X24 at a concrete call: no zone bears the name of the domain, so
    one is created, and the record is created in it. *)
Lemma netlify_createRecord_protocol_witness :
  exists r st',
    NetlifyDNS.createRecord Samples.netlify_account Samples.fogg_record
                            Samples.netlify_ready
    = Some (JS.Normal r, st')
    /\ Providers.success r = true
    /\ NetlifyDNS.dnsZoneId st' = Providers.VStr "zn-52e0"
    /\ length (NetlifyDNS.history st') = 4%nat.
Proof.
  destruct (netlify_createRecord_protocol
              Samples.netlify_account Samples.fogg_record
              Samples.netlify_ready
              {[ "accessToken" := Providers.VStr "nf_19c4" ]} eq_refl)
    as (r & st' & Hrun & Hzone & Hhistory & Hsuccess & Hid).
  exists r, st'. split; [exact Hrun|].
  split; [exact Hsuccess|]. split; [exact Hzone|].
  rewrite Hhistory. reflexivity.
Defined.

(* ===================================================================== *)
(** * attemptProvider, for every provider that throws errors only *)
(* ===================================================================== *)

(** X25.  For every provider object whose methods return or throw
    [Error] objects (what [JS.Throw] stands for; a method that throws
    [null] or [undefined] is not covered), [attemptProvider] does not
    throw: an error of either method is caught and answered with
    [false].  It answers [true] only when the three steps succeeded in
    turn: the health check reported healthy, the record was created on
    the state the health check left, and the propagation was verified
    after that.  It can fail to answer only when a method of the
    provider does not return. *)
Theorem attemptProvider_catches_all
        (e : Providers.Env) cfg (p : Providers.Provider)
        (w : Providers.World) :
  let args :=
    {| Providers.domain := Manager.domain cfg;
       Providers.subdomain := Manager.subdomain cfg;
       Providers.target := Manager.target cfg;
       Providers.ttl := Manager.ttl cfg |} in
  match Manager.attemptProvider e cfg p w with
  | Some (JS.Throw _, _) => False
  | Some (JS.Normal true, w') =>
      exists check w1 record w2 verification,
        Providers.healthCheck p e w = Some (JS.Normal check, w1)
        /\ Providers.healthy check = true
        /\ Providers.createRecord p e args w1 = Some (JS.Normal record, w2)
        /\ Providers.success record = true
        /\ Manager.verifyDNSPropagation e cfg w2
           = Some (JS.Normal verification, w')
        /\ Manager.verification_success verification = true
  | Some (JS.Normal false, _) => True
  | None =>
      Providers.healthCheck p e w = None
      \/ exists check w1,
          Providers.healthCheck p e w = Some (JS.Normal check, w1)
          /\ Providers.createRecord p e args w1 = None
  end.
Proof.
  cbv zeta. unfold Manager.attemptProvider.
  unfold JS.catch. unfold JS.mbind at 1.
  destruct (Providers.healthCheck p e w) as [[[check|msg] w1]|] eqn:Hhealth;
    [|exact I|left; reflexivity].
  destruct (Providers.healthy check) eqn:Hhealthy; cbn [negb]; [|exact I].
  unfold JS.mbind at 1.
  destruct (Providers.createRecord p e _ w1) as [[[record|msg] w2]|]
    eqn:Hcreate;
    [|exact I|right; exists check, w1; split; [reflexivity|exact Hcreate]].
  destruct (Providers.success record) eqn:Hsuccess; cbn [negb]; [|exact I].
  unfold JS.mbind.
  destruct (verifyDNSPropagation_ends e cfg w2) as (v & w3 & Hverify).
  rewrite Hverify. unfold JS.ret.
  destruct (Manager.verification_success v) eqn:Hverified; [|exact I].
  exists check, w1, record, w2, v. repeat split; assumption.
Qed.
